(** * pipolars: value extraction, batch extraction and configuration records

    A shallow embedding of the extraction layer of pipolars
    ([src/pipolars/extraction/points.py]), of the batch loops of the
    extraction scripts ([examples/extract_analyses.py],
    [examples/extract_pipoints.py]) and of the configuration records the
    unit tests exercise.

    The vendor SDK is a closed collaborator.  Its objects are modelled by
    what the Python code observes of them: the attributes it probes with
    [hasattr], the outcome of the builtins it applies ([float], [str],
    [int]) and the answers of the methods it calls. *)

From Stdlib Require Import ZArith List Ascii String.
From Stdlib Require Import Floats.PrimFloat.
From stdpp Require Import gmap strings pretty sorting.

#[local] Set Warnings "-clear-no-such-hyp".

Local Open Scope string_scope.
Local Open Scope Z_scope.
Local Open Scope list_scope.

(** ** Python outcomes *)

Module Py.

(** The exception classes the modelled code raises or catches.  All of them
    derive from [Exception]; [FrozenInstanceError] derives from
    [AttributeError] (module [dataclasses]). *)
Inductive exn : Type :=
  | ValueError
  | TypeError
  | AttributeError
  | FrozenInstanceError
  | OverflowError
  | IndexError
  | PIPointNotFoundError
  | SdkError (msg : string).

(** [issubclass e c] for the classes above. *)
Definition is_instance (e c : exn) : bool :=
  match e, c with
  | ValueError, ValueError => true
  | TypeError, TypeError => true
  | AttributeError, AttributeError => true
  | FrozenInstanceError, AttributeError => true
  | FrozenInstanceError, FrozenInstanceError => true
  | OverflowError, OverflowError => true
  | IndexError, IndexError => true
  | PIPointNotFoundError, PIPointNotFoundError => true
  | SdkError _, SdkError _ => true
  | _, _ => false
  end.

(** [except (c1, c2, ...)]: does the clause catch [e]? *)
Definition caught_by (classes : list exn) (e : exn) : bool :=
  existsb (is_instance e) classes.

(** The outcome of evaluating an expression: a value or a raised exception. *)
Inductive result (A : Type) : Type :=
  | Ok (a : A)
  | Raise (e : exn).
Arguments Ok {A} a.
Arguments Raise {A} e.

Definition bind {A B} (m : result A) (k : A -> result B) : result B :=
  match m with
  | Ok a => k a
  | Raise e => Raise e
  end.

(** [str(e)]: the message of the exception. *)
Definition message (e : exn) : string :=
  match e with
  | ValueError => "ValueError"
  | TypeError => "TypeError"
  | AttributeError => "AttributeError"
  | FrozenInstanceError => "cannot assign to field"
  | OverflowError => "OverflowError"
  | IndexError => "index out of range"
  | PIPointNotFoundError => "PI Point not found"
  | SdkError msg => msg
  end.

Definition returns {A} (m : result A) : bool :=
  match m with Ok _ => true | Raise _ => false end.

(** A list comprehension [[f(v) for v in l]]: the first exception raised by
    [f] leaves the comprehension and no list is built. *)
Fixpoint comprehension {A B} (f : A -> result B) (l : list A) : result (list B) :=
  match l with
  | [] => Ok []
  | v :: l' =>
      bind (f v) (fun b => bind (comprehension f l') (fun bs => Ok (b :: bs)))
  end.

End Py.

Import Py.

#[global] Instance result_ret : MRet Py.result := @Py.Ok.
#[global] Instance result_bind : MBind Py.result := fun A B k m => Py.bind m k.

(** ** Python and .NET values *)

(** A .NET object proxied into Python, seen through what the extractor
    observes of it. *)
Record net_object : Type := {
  net_Name : option string;      (* [hasattr(o, "Name")], with [str(o.Name)] *)
  net_ToString : option string;  (* [hasattr(o, "ToString")], with [str(o.ToString())] *)
  net_float : Py.result float;   (* the outcome of [float(o)] *)
  net_bool : bool;               (* the truth value of [o] *)
}.

(** A Python value.  The interop layer hands .NET primitives over as Python
    natives ([None], [bool], [int], [float], [str]); every other .NET value
    stays a proxied object. *)
Inductive py_value : Type :=
  | PyNone
  | PyBool (b : bool)
  | PyInt (n : Z)
  | PyFloat (x : float)
  | PyStr (s : string)
  | PyObject (o : net_object).

(** [hasattr(v, "Name")] together with [str(v.Name)]: the Python natives
    have no such attribute. *)
Definition getattr_Name (v : py_value) : option string :=
  match v with
  | PyObject o => net_Name o
  | _ => None
  end.

(** [hasattr(v, "ToString")] together with [str(v.ToString())]. *)
Definition getattr_ToString (v : py_value) : option string :=
  match v with
  | PyObject o => net_ToString o
  | _ => None
  end.

(** [v is False]: identity with the singleton [False]. *)
Definition is_False (v : py_value) : bool :=
  match v with
  | PyBool false => true
  | _ => false
  end.

(** The truth value of [v] in a condition. *)
Definition truthy (v : py_value) : bool :=
  match v with
  | PyNone => false
  | PyBool b => b
  | PyInt n => negb (n =? 0)%Z
  | PyFloat x => negb (PrimFloat.eqb x 0%float)
  | PyStr s => negb (String.eqb s "")
  | PyObject o => net_bool o
  end.

Definition is_float (v : py_value) : bool :=
  match v with PyFloat _ => true | _ => false end.

Definition is_str (v : py_value) : bool :=
  match v with PyStr _ => true | _ => false end.

(** ** Core types (pipolars.core.types) *)

(** Modelled from the spec: [DataQuality] of [pipolars/core/types.py], which
    is not among the sources; the spec gives enum{GOOD, BAD, SUBSTITUTED}. *)
Inductive DataQuality : Type := GOOD | BAD | SUBSTITUTED.

(** A .NET [DateTime], as its tick count. *)
Definition DateTime : Type := Z.

(** Modelled from the spec: [PIValue] (the spec's TimestampedValue) of
    [pipolars/core/types.py]: timestamp, value, quality. *)
Record PIValue : Type := {
  timestamp : DateTime;
  value : py_value;
  quality : DataQuality;
}.

(** [is_good], derived as [quality == GOOD]. *)
Definition is_good (v : PIValue) : bool :=
  match quality v with GOOD => true | _ => false end.

(** An [AFValue] of the SDK. *)
Record AFValue : Type := {
  Timestamp_LocalTime : DateTime;
  Value : py_value;
  IsGood : py_value;
  Substituted : option py_value;  (* [None]: [hasattr(af_value, "Substituted")] is false *)
}.

(** ** PIPointExtractor._convert_value (points.py, lines 124-159) *)

(** Lines 137-146: the value, with digital states and errors handled. *)
Definition convert_raw_value (value : py_value) : Py.result py_value :=
  match getattr_Name value with
  | Some name =>
      (* Digital state *)
      Ok (PyStr name)
  | None =>
      match getattr_ToString value with
      | Some text =>
          (* Try to get numeric value; what has [ToString] is a proxied
             object *)
          match value with
          | PyObject o =>
              match net_float o with
              | Ok x => Ok (PyFloat x)
              | Raise e =>
                  if caught_by [ValueError; TypeError] e
                  then Ok (PyStr text)
                  else Raise e
              end
          | _ => Ok value
          end
      | None => Ok value
      end
  end.

(** [hasattr(af_value, "Substituted") and af_value.Substituted]. *)
Definition substituted_flag (af_value : AFValue) : bool :=
  match Substituted af_value with
  | Some s => truthy s
  | None => false
  end.

(** Lines 148-153: the quality. *)
Definition convert_quality (af_value : AFValue) : DataQuality :=
  if is_False (IsGood af_value) then BAD
  else if substituted_flag af_value then SUBSTITUTED
  else GOOD.

Definition _convert_value (af_value : AFValue) : Py.result PIValue :=
  let timestamp := Timestamp_LocalTime af_value in
  value ← convert_raw_value (Value af_value);
  let quality := convert_quality af_value in
  Ok {| timestamp := timestamp; value := value; quality := quality |}.

(** ** Point configuration (pipolars.core.types) *)

(** Modelled from the spec: [PointType] of [pipolars/core/types.py]; the spec
    gives float16/32/64, int16/32, digital, timestamp, string, blob. *)
Inductive PointType : Type :=
  | FLOAT16 | FLOAT32 | FLOAT64 | INT16 | INT32
  | DIGITAL | TIMESTAMP | STRING | BLOB.

Definition all_PointType : list PointType :=
  [FLOAT16; FLOAT32; FLOAT64; INT16; INT32; DIGITAL; TIMESTAMP; STRING; BLOB].

(** Modelled from the spec: the dataclass [PointConfig] of
    [pipolars/core/types.py], with the fields the extractor and the unit
    tests name.  Optional numeric fields are [None] when unset, optional
    string fields are the empty string. *)
Record PointConfig : Type := {
  name : string;
  point_id : Z;
  point_type : PointType;
  description : string;
  engineering_units : string;
  zero : option float;
  span : option float;
  display_digits : option Z;
  typical_value : option float;
  value_high_alarm : option float;
  value_low_alarm : option float;
  value_high_warning : option float;
  value_low_warning : option float;
  roc_high_value : option float;
  roc_low_value : option float;
  interface_id : option Z;
  interface_name : string;
  scan_time : string;
  source_point_id : option Z;
  source_point_name : string;
  conversion_factor : option float;
  device_name : string;
  alias : string;
}.

(** The optional keyword arguments of a [PointConfig(...)] call; [None] is a
    keyword the call does not pass. *)
Record PointConfig_kwargs : Type := {
  kw_description : option string;
  kw_engineering_units : option string;
  kw_zero : option float;
  kw_span : option float;
  kw_display_digits : option Z;
  kw_typical_value : option float;
  kw_value_high_alarm : option float;
  kw_value_low_alarm : option float;
  kw_value_high_warning : option float;
  kw_value_low_warning : option float;
  kw_roc_high_value : option float;
  kw_roc_low_value : option float;
  kw_interface_id : option Z;
  kw_interface_name : option string;
  kw_scan_time : option string;
  kw_source_point_id : option Z;
  kw_source_point_name : option string;
  kw_conversion_factor : option float;
  kw_device_name : option string;
  kw_alias : option string;
}.

(** A call that passes no optional keyword. *)
Definition no_kwargs : PointConfig_kwargs :=
  {| kw_description := None; kw_engineering_units := None; kw_zero := None;
     kw_span := None; kw_display_digits := None; kw_typical_value := None;
     kw_value_high_alarm := None; kw_value_low_alarm := None;
     kw_value_high_warning := None; kw_value_low_warning := None;
     kw_roc_high_value := None; kw_roc_low_value := None;
     kw_interface_id := None; kw_interface_name := None; kw_scan_time := None;
     kw_source_point_id := None; kw_source_point_name := None;
     kw_conversion_factor := None; kw_device_name := None; kw_alias := None |}.

(** Modelled from the spec: the generated [PointConfig.__init__].  The three
    required fields have no default, so a call that omits one raises
    [TypeError]; every optional field takes the keyword when it is passed
    and its default otherwise. *)
Definition PointConfig_init (name : option string) (point_id : option Z)
    (point_type : option PointType) (kw : PointConfig_kwargs)
  : Py.result PointConfig :=
  match name, point_id, point_type with
  | Some name, Some point_id, Some point_type =>
      Ok {| name := name;
            point_id := point_id;
            point_type := point_type;
            description := default "" (kw_description kw);
            engineering_units := default "" (kw_engineering_units kw);
            zero := kw_zero kw;
            span := kw_span kw;
            display_digits := kw_display_digits kw;
            typical_value := kw_typical_value kw;
            value_high_alarm := kw_value_high_alarm kw;
            value_low_alarm := kw_value_low_alarm kw;
            value_high_warning := kw_value_high_warning kw;
            value_low_warning := kw_value_low_warning kw;
            roc_high_value := kw_roc_high_value kw;
            roc_low_value := kw_roc_low_value kw;
            interface_id := kw_interface_id kw;
            interface_name := default "" (kw_interface_name kw);
            scan_time := default "" (kw_scan_time kw);
            source_point_id := kw_source_point_id kw;
            source_point_name := default "" (kw_source_point_name kw);
            conversion_factor := kw_conversion_factor kw;
            device_name := default "" (kw_device_name kw);
            alias := default "" (kw_alias kw) |}
  | _, _, _ => Raise TypeError
  end.

(** ** The data source seen by the extractor *)

(** Modelled from the spec: [BoundaryType] of [pipolars/core/types.py]
    (inside / outside / interpolated edges). *)
Inductive BoundaryType : Type := INSIDE | OUTSIDE | INTERPOLATED.

(** [OSIsoft.AF.Data.AFBoundaryType] of the SDK. *)
Inductive AFBoundaryType : Type := Inside | Outside | Interpolated.

(** Lines 34-41. *)
Record RecordedValuesOptions : Type := {
  boundary_type : BoundaryType;
  filter_expression : option string;
  include_filtered_values : bool;
  max_count : Z;  (* 0 = no limit *)
}.

(** [RecordedValuesOptions()]: the defaults of the dataclass. *)
Definition RecordedValuesOptions_default : RecordedValuesOptions :=
  {| boundary_type := INSIDE;
     filter_expression := None;
     include_filtered_values := false;
     max_count := 0 |}.

(** [PITimestamp = datetime | AFTime | str]; a [datetime] is seen through its
    [isoformat()], an [AFTime] through its [expression]. *)
Inductive PITimestamp : Type :=
  | Ts_datetime (isoformat : string)
  | Ts_AFTime (expression : string)
  | Ts_str (s : string).

(** The SDK's [AFTime], built from a string, and [AFTimeRange]. *)
Record sdk_AFTime : Type := { time_string : string }.
Record AFTimeRange : Type := { StartTime : sdk_AFTime; EndTime : sdk_AFTime }.

(** [OSIsoft.AF.PI.PIPagingConfiguration]. *)
Inductive PageType : Type := TagCount | EventCount.
Record PIPagingConfiguration : Type := {
  page_type : PageType;
  page_size : Z;
}.

(** The answer of the paged overload of [PIPoint.RecordedValues]: a
    collection the SDK fetches page by page while it is enumerated.  It is
    seen through its enumerator: what the [i]-th [MoveNext] gives when those
    before it gave events, which is the next event, the end of the
    enumeration ([None]), or the exception of a page that cannot be
    fetched. *)
Definition AFValues_paged : Type := nat -> Py.result (option AFValue).

(** From [position] on the enumeration gives the events of [l], in order;
    the enumeration gives the events of [l] and ends. *)
Definition delivers (af_values : AFValues_paged) (position : nat)
    (l : list AFValue) : Prop :=
  forall i a, l !! i = Some a -> af_values (position + i)%nat = Ok (Some a).

Definition enumerates (af_values : AFValues_paged) (l : list AFValue) : Prop :=
  delivers af_values 0 l /\ af_values (length l) = Ok None.

Inductive AFCalculationBasis : Type := TimeWeighted | EventWeighted.
Inductive AFTimestampCalculation : Type := Auto | EarliestTime | MostRecentTime.

(** One entry of the answer of [PIPoint.Summary]: [int(summary.SummaryType)]
    and [summary.Value.Value]. *)
Record AFSummary : Type := {
  SummaryType_int : Z;
  Value_Value : py_value;
}.

(** An attribute value of [GetAttributes], seen through the builtins
    [get_point_config] applies to it. *)
Record attr_value : Type := {
  attr_str : string;             (* [str(v)] *)
  attr_int : Py.result Z;        (* [int(v)] *)
  attr_float : Py.result float;  (* [float(v)] *)
  attr_truthy : bool;            (* the truth value of [v] *)
}.

(** A [PIPoint] handle of the SDK: a record of the methods the extractor
    calls, each with the answer of the upstream server. *)
Record PIPoint : Type := {
  GetAttributes : list string -> Py.result (gmap string attr_value);
  CurrentValue : Py.result AFValue;
  (* the overload with [maxCount], called by [recorded_values] *)
  RecordedValues :
    AFTimeRange -> AFBoundaryType -> option string -> bool ->
    Z -> Py.result (list AFValue);
  (* the overload with a paging configuration, called by
     [recorded_values_iterator] *)
  RecordedValues_paged :
    AFTimeRange -> AFBoundaryType -> option string -> bool ->
    PIPagingConfiguration -> Py.result AFValues_paged;
  Summary :
    AFTimeRange -> Z -> AFCalculationBasis -> AFTimestampCalculation ->
    Py.result (list AFSummary);
}.

(** [PIServerConnection]: [get_point] raises [PIPointNotFoundError] for a
    tag the server does not know. *)
Record PIServerConnection : Type := {
  get_point : string -> Py.result PIPoint;
}.

(** ** PIPointExtractor (points.py) *)

(** Lines 87-103: [_parse_time]. *)
Definition _parse_time (time : PITimestamp) : sdk_AFTime :=
  match time with
  | Ts_datetime isoformat => {| time_string := isoformat |}
  | Ts_AFTime expression => {| time_string := expression |}
  | Ts_str s => {| time_string := s |}
  end.

(** Lines 105-122: [_create_time_range]. *)
Definition _create_time_range (start end_ : PITimestamp) : AFTimeRange :=
  let start_time := _parse_time start in
  let end_time := _parse_time end_ in
  {| StartTime := start_time; EndTime := end_time |}.

(** Lines 185-195: [point_type_map]. *)
Definition point_type_map : gmap string PointType :=
  list_to_map
    [("Float16", FLOAT16); ("Float32", FLOAT32); ("Float64", FLOAT64);
     ("Int16", INT16); ("Int32", INT32); ("Digital", DIGITAL);
     ("Timestamp", TIMESTAMP); ("String", STRING); ("Blob", BLOB)].

(** The attribute names [get_point_config] asks for (lines 173-182). *)
Definition config_attributes : list string :=
  ["pointid"; "pointtype"; "descriptor"; "engunits"; "zero"; "span";
   "displaydigits"; "typicalvalue"].

(** [str(attrs.get(key, fallback))] for a string fallback. *)
Definition attr_get_str (attrs : gmap string attr_value) (key fallback : string)
  : string :=
  match attrs !! key with
  | Some v => attr_str v
  | None => fallback
  end.

(** [int(attrs.get(key, fallback))] for an integer fallback. *)
Definition attr_get_int (attrs : gmap string attr_value) (key : string)
    (fallback : Z) : Py.result Z :=
  match attrs !! key with
  | Some v => attr_int v
  | None => Ok fallback
  end.

(** [float(attrs.get(key, fallback))] for a float fallback. *)
Definition attr_get_float (attrs : gmap string attr_value) (key : string)
    (fallback : float) : Py.result float :=
  match attrs !! key with
  | Some v => attr_float v
  | None => Ok fallback
  end.

(** Line 209: [float(attrs.get("typicalvalue")) if attrs.get("typicalvalue")
    else None]. *)
Definition attr_typical_value (attrs : gmap string attr_value)
  : Py.result (option float) :=
  match attrs !! "typicalvalue" with
  | Some v =>
      if attr_truthy v then x ← attr_float v; Ok (Some x) else Ok None
  | None => Ok None
  end.

(** Lines 161-210: [get_point_config]. *)
Definition get_point_config (conn : PIServerConnection) (tag_name : string)
  : Py.result PointConfig :=
  point ← get_point conn tag_name;
  attrs ← GetAttributes point config_attributes;
  let point_type_str := attr_get_str attrs "pointtype" "Float32" in
  let point_type := default FLOAT64 (point_type_map !! point_type_str) in
  point_id ← attr_get_int attrs "pointid" 0;
  let description := attr_get_str attrs "descriptor" "" in
  let engineering_units := attr_get_str attrs "engunits" "" in
  zero ← attr_get_float attrs "zero" 0%float;
  span ← attr_get_float attrs "span" 100%float;
  display_digits ← attr_get_int attrs "displaydigits" (-5);
  typical_value ← attr_typical_value attrs;
  PointConfig_init (Some tag_name) (Some point_id) (Some point_type)
    {| kw_description := Some description;
       kw_engineering_units := Some engineering_units;
       kw_zero := Some zero;
       kw_span := Some span;
       kw_display_digits := Some display_digits;
       kw_typical_value := typical_value;
       kw_value_high_alarm := None; kw_value_low_alarm := None;
       kw_value_high_warning := None; kw_value_low_warning := None;
       kw_roc_high_value := None; kw_roc_low_value := None;
       kw_interface_id := None; kw_interface_name := None;
       kw_scan_time := None; kw_source_point_id := None;
       kw_source_point_name := None; kw_conversion_factor := None;
       kw_device_name := None; kw_alias := None |}.

(** Lines 212-223: [snapshot]. *)
Definition snapshot (conn : PIServerConnection) (tag_name : string)
  : Py.result PIValue :=
  point ← get_point conn tag_name;
  af_value ← CurrentValue point;
  _convert_value af_value.

(** Lines 244-246: [for i, tag_name in enumerate(tag_names)], from index
    [i] on; [af_values[i]] raises when the answer is too short. *)
Fixpoint snapshots_fill (af_values : list AFValue) (i : nat)
    (tag_names : list string) (result : gmap string PIValue)
  : Py.result (gmap string PIValue) :=
  match tag_names with
  | [] => Ok result
  | tag_name :: rest =>
      af_value ← match af_values !! i with
                 | Some a => Ok a
                 | None => Raise IndexError
                 end;
      v ← _convert_value af_value;
      snapshots_fill af_values (S i) rest (<[tag_name := v]> result)
  end.

(** Lines 225-248: [snapshots]; [PIPointList_CurrentValue] is the bulk call
    [point_list.CurrentValue()] of the SDK's [PIPointList]. *)
Definition snapshots
    (PIPointList_CurrentValue : list PIPoint -> Py.result (list AFValue))
    (conn : PIServerConnection) (tag_names : list string)
  : Py.result (gmap string PIValue) :=
  point_list ← Py.comprehension (get_point conn) tag_names;
  (* Get all snapshots at once *)
  af_values ← PIPointList_CurrentValue point_list;
  snapshots_fill af_values 0 tag_names ∅.

(** Lines 274-279: [boundary_map.get(options.boundary_type, Inside)]; the
    three members of [BoundaryType] are all keys, so the fallback of [get]
    is never taken. *)
Definition boundary_map (b : BoundaryType) : AFBoundaryType :=
  match b with
  | INSIDE => Inside
  | OUTSIDE => Outside
  | INTERPOLATED => Interpolated
  end.

(** Lines 250-290: [recorded_values]; [options] is [None] when the caller
    passes none. *)
Definition recorded_values (conn : PIServerConnection) (tag_name : string)
    (start end_ : PITimestamp) (options : option RecordedValuesOptions)
  : Py.result (list PIValue) :=
  let options := default RecordedValuesOptions_default options in
  point ← get_point conn tag_name;
  let time_range := _create_time_range start end_ in
  let boundary := boundary_map (boundary_type options) in
  af_values ← RecordedValues point time_range boundary
                 (filter_expression options)
                 (include_filtered_values options)
                 (max_count options);
  comprehension _convert_value af_values.

(** *** The generator [recorded_values_iterator] (lines 292-334)

    A generator runs nothing until its first [next]; each [next] resumes the
    body up to the following [yield].  Its state is the point of the body it
    is suspended at: inside the [for] it holds the SDK's collection and the
    position of its enumerator, and no value. *)
Inductive generator : Type :=
  | Created (conn : PIServerConnection) (tag_name : string)
      (start end_ : PITimestamp) (page_size : Z)
  | Suspended (af_values : AFValues_paged) (position : nat)
  | Finished.

(** What one [next] produces. *)
Inductive next_result : Type :=
  | Yield (v : PIValue)
  | StopIteration
  | Raised (e : Py.exn).

(** Calling the generator function only creates the generator. *)
Definition recorded_values_iterator (conn : PIServerConnection)
    (tag_name : string) (start end_ : PITimestamp) (page_size : Z) : generator :=
  Created conn tag_name start end_ page_size.

(** Lines 310-331: the body up to the loop. *)
Definition iterator_open (conn : PIServerConnection) (tag_name : string)
    (start end_ : PITimestamp) (page_size : Z) : Py.result AFValues_paged :=
  point ← get_point conn tag_name;
  let time_range := _create_time_range start end_ in
  let paging_config := {| page_type := EventCount; page_size := page_size |} in
  RecordedValues_paged point time_range Inside None false paging_config.

(** Lines 333-334: one turn of [for af_value in af_values: yield ...]: the
    enumerator moves to the next event, and the event is converted. *)
Definition iterator_loop (af_values : AFValues_paged) (position : nat)
  : next_result * generator :=
  match af_values position with
  | Ok (Some af_value) =>
      match _convert_value af_value with
      | Ok v => (Yield v, Suspended af_values (S position))
      | Raise e => (Raised e, Finished)
      end
  | Ok None => (StopIteration, Finished)
  | Raise e => (Raised e, Finished)
  end.

Definition next (g : generator) : next_result * generator :=
  match g with
  | Created conn tag_name start end_ page_size =>
      match iterator_open conn tag_name start end_ page_size with
      | Ok af_values => iterator_loop af_values 0
      | Raise e => (Raised e, Finished)
      end
  | Suspended af_values position => iterator_loop af_values position
  | Finished => (StopIteration, Finished)
  end.

(** How a consumer's loop over the generator ends. *)
Inductive loop_end : Type :=
  | Exhausted                (* [StopIteration]: the loop ends normally *)
  | Failed (e : Py.exn)      (* an exception leaves the loop *)
  | Pulling (g : generator). (* the consumer stopped pulling: [g] is left suspended *)

(** The loop is over: nothing is left to pull. *)
Definition ended (e : loop_end) : bool :=
  match e with Pulling _ => false | _ => true end.

(** [for v in g] for at most [pulls] calls of [next]: the values yielded so
    far and how the loop stands. *)
Fixpoint consume (pulls : nat) (g : generator) : list PIValue * loop_end :=
  match pulls with
  | O => ([], Pulling g)
  | S pulls' =>
      match next g with
      | (Yield v, g') =>
          let '(vs, e) := consume pulls' g' in (v :: vs, e)
      | (StopIteration, _) => ([], Exhausted)
      | (Raised e, _) => ([], Failed e)
      end
  end.

(** *** Summaries (lines 402-465, 528-541) *)

(** Modelled from the spec: [SummaryType] of [pipolars/core/types.py], with
    the values the spec gives (TOTAL=1, AVERAGE=2, MINIMUM=4, MAXIMUM=8,
    RANGE=16, STD_DEV=32, POPULATION_STD_DEV=64, COUNT=128,
    PERCENT_GOOD=8192); the unit tests fix the first four. *)
Inductive SummaryType : Type :=
  | TOTAL | AVERAGE | MINIMUM | MAXIMUM | RANGE
  | STD_DEV | POPULATION_STD_DEV | COUNT | PERCENT_GOOD.

Definition SummaryType_value (st : SummaryType) : Z :=
  match st with
  | TOTAL => 1
  | AVERAGE => 2
  | MINIMUM => 4
  | MAXIMUM => 8
  | RANGE => 16
  | STD_DEV => 32
  | POPULATION_STD_DEV => 64
  | COUNT => 128
  | PERCENT_GOOD => 8192
  end.

(** [summary_types: SummaryType | list[SummaryType]]. *)
Inductive summary_types_arg : Type :=
  | OneType (st : SummaryType)
  | TypeList (sts : list SummaryType).

(** Lines 426-431: the SDK flag word; [AFSummaryTypes.None_] is 0. *)
Definition sdk_summary_of (summary_types : summary_types_arg) : Z :=
  match summary_types with
  | TypeList sts =>
      fold_left (fun sdk_summary st => Z.lor sdk_summary (SummaryType_value st))
        sts 0
  | OneType st => SummaryType_value st
  end.

(** Lines 448-458 and 530-540: [summary_name_map]. *)
Definition summary_name_map : gmap Z string :=
  list_to_map
    [(1, "total"); (2, "average"); (4, "minimum"); (8, "maximum");
     (16, "range"); (32, "std_dev"); (64, "pop_std_dev"); (128, "count");
     (8192, "percent_good")].

(** Lines 528-541: [_get_summary_name]; [str(n)] is the decimal numeral. *)
Definition _get_summary_name (summary_type_value : Z) : string :=
  default (pretty summary_type_value) (summary_name_map !! summary_type_value).

(** Lines 460-463: the loop that fills the result dictionary. *)
Definition summary_dict (summaries : list AFSummary) : gmap string py_value :=
  fold_left
    (fun result summary =>
       let summary_type_value := SummaryType_int summary in
       let name :=
         default (pretty summary_type_value)
                 (summary_name_map !! summary_type_value) in
       <[name := Value_Value summary]> result)
    summaries ∅.

(** Lines 402-465: [summary]. *)
Definition summary (conn : PIServerConnection) (tag_name : string)
    (start end_ : PITimestamp) (summary_types : summary_types_arg)
  : Py.result (gmap string py_value) :=
  point ← get_point conn tag_name;
  let time_range := _create_time_range start end_ in
  let sdk_summary := sdk_summary_of summary_types in
  summaries ← Summary point time_range sdk_summary TimeWeighted Auto;
  Ok (summary_dict summaries).

(** ** The extraction scripts (examples/) *)

(** A JSON value of the scripts' output dictionaries. *)
#[warnings="-register-all"]
Inductive json : Type :=
  | JNull
  | JBool (b : bool)
  | JInt (n : Z)
  | JFloat (x : float)
  | JStr (s : string)
  | JObject (fields : list (string * json)).

(** The error lines the scripts print; their informational lines carry no
    state and are left out. *)
Inductive printed : Type :=
  | ErrorExtractingAnalysis (e : Py.exn)
  | ErrorAccessingDatabase (db_name : string) (e : Py.exn)
  | WarningDisconnecting (e : Py.exn)
  | ErrorExtractingPoint (e : Py.exn).

(** *** extract_analyses.py: extract_analyses_from_all_databases (lines 73-134) *)

Section Analyses.

(** An [AFAnalysis] object and the dictionary built from it. *)
Variable AFAnalysis : Type.
Variable analysis_info : Type.

(** [extract_analysis_info_raw(analysis, sdk, extraction_time, db_name)]
    (lines 190-459): it reads [analysis.Name], [analysis.ID] and
    [analysis.Description] outside any [try], so it may raise. *)
Variable extract_analysis_info_raw : AFAnalysis -> string -> Py.result analysis_info.

(** An [AFDatabase]: the outcome of [str(db.Name)] and of reading
    [db.Analyses] (with its [Count]). *)
Record AFDatabase : Type := {
  db_Name : Py.result string;
  db_Analyses : Py.result (list AFAnalysis);
}.

(** A [PISystem]: the outcome of [Connect()] with the line printed after it
    (lines 98-99), of reading [Databases] and its [Count] (lines 102-103),
    and of [Disconnect()]. *)
Record PISystem : Type := {
  Connect : Py.result unit;
  Databases : Py.result (list AFDatabase);
  Disconnect : Py.result unit;
}.

(** The script's state: [all_analyses] and what it has printed. *)
Definition analyses_state : Type := list analysis_info * list printed.

(** Lines 115-120: one turn of [for analysis in analyses_collection]. *)
Definition analysis_step (db_name : string) (st : analyses_state)
    (analysis : AFAnalysis) : analyses_state :=
  let '(all_analyses, out) := st in
  match extract_analysis_info_raw analysis db_name with
  | Ok analysis_info => (all_analyses ++ [analysis_info], out)
  | Raise e => (all_analyses, out ++ [ErrorExtractingAnalysis e])
  end.

(** Lines 107-123: one turn of [for db in databases] once [db_name] is
    read: the inner [try] and its handler. *)
Definition database_step (db_name : string) (st : analyses_state)
    (db : AFDatabase) : analyses_state :=
  match db_Analyses db with
  | Ok analyses_collection =>
      fold_left (analysis_step db_name) analyses_collection st
  | Raise e => (st.1, st.2 ++ [ErrorAccessingDatabase db_name e])
  end.

(** Lines 105-126: [for db in databases] and the [return].  The name of a
    database is read at line 106, before the inner [try] of line 109: when
    that read raises, the exception leaves the loop and the function, with
    what was printed so far. *)
Fixpoint for_databases (databases : list AFDatabase) (st : analyses_state)
  : Py.result (list analysis_info) * list printed :=
  match databases with
  | [] => (Ok st.1, st.2)
  | db :: rest =>
      match db_Name db with
      | Ok db_name => for_databases rest (database_step db_name st db)
      | Raise e => (Raise e, st.2)
      end
  end.

(** Lines 97-126: the body of the outer [try]. *)
Definition analyses_body (pi_system : PISystem)
  : Py.result (list analysis_info) * list printed :=
  match Connect pi_system with
  | Raise e => (Raise e, [])
  | Ok _ =>
      match Databases pi_system with
      | Raise e => (Raise e, [])
      | Ok databases => for_databases databases ([], [])
      end
  end.

(** Lines 73-134; [systems] is the [PISystems] collection, whose indexer
    gives [None] for a server it does not know. *)
Definition extract_analyses_from_all_databases
    (systems : string -> option PISystem) (af_server : string)
  : Py.result (list analysis_info) * list printed :=
  match systems af_server with
  | None => (Raise ValueError, [])
  | Some pi_system =>
      let '(outcome, out) := analyses_body pi_system in
      (* finally: always disconnect from the server *)
      match Disconnect pi_system with
      | Ok _ => (outcome, out)
      | Raise e => (outcome, out ++ [WarningDisconnecting e])
      end
  end.

(** What one analysis and one database contribute to the result. *)
Definition analysis_record (db_name : string) (analysis : AFAnalysis)
  : option analysis_info :=
  match extract_analysis_info_raw analysis db_name with
  | Ok analysis_info => Some analysis_info
  | Raise _ => None
  end.

Definition database_records (db : AFDatabase) : list analysis_info :=
  match db_Name db, db_Analyses db with
  | Ok db_name, Ok analyses_collection =>
      omap (analysis_record db_name) analyses_collection
  | _, _ => []
  end.

(** What one analysis and one database make the script print. *)
Definition analysis_printed (db_name : string) (analysis : AFAnalysis)
  : list printed :=
  match extract_analysis_info_raw analysis db_name with
  | Ok _ => []
  | Raise e => [ErrorExtractingAnalysis e]
  end.

Definition database_printed (db : AFDatabase) : list printed :=
  match db_Name db, db_Analyses db with
  | Ok db_name, Ok analyses_collection =>
      flat_map (analysis_printed db_name) analyses_collection
  | Ok db_name, Raise e => [ErrorAccessingDatabase db_name e]
  | Raise _, _ => []
  end.

End Analyses.

Arguments db_Name {AFAnalysis} _.
Arguments db_Analyses {AFAnalysis} _.
Arguments Connect {AFAnalysis} _.
Arguments Databases {AFAnalysis} _.
Arguments Disconnect {AFAnalysis} _.
Arguments analysis_step {AFAnalysis analysis_info} _ _ _ _.
Arguments database_step {AFAnalysis analysis_info} _ _ _ _.
Arguments for_databases {AFAnalysis analysis_info} _ _ _.
Arguments analyses_body {AFAnalysis analysis_info} _ _.
Arguments extract_analyses_from_all_databases {AFAnalysis analysis_info} _ _ _.
Arguments analysis_record {AFAnalysis analysis_info} _ _ _.
Arguments database_records {AFAnalysis analysis_info} _ _.
Arguments analysis_printed {AFAnalysis analysis_info} _ _ _.
Arguments database_printed {AFAnalysis analysis_info} _ _.

(** *** extract_pipoints.py: extract_pi_points (lines 61-236) *)

(** [point.Name] as the script reads it. *)
Inductive name_attribute : Type :=
  | NoName                          (* [hasattr(point, "Name")] is false *)
  | NameIs (s : Py.result string).  (* the outcome of [str(point.Name)] *)

(** A PI point of the search result, seen through what the loop body reads
    of it.  Each guarded block carries the outcome of its [try] body. *)
Record PIPointObject : Type := {
  obj_Name : name_attribute;
  obj_ID : option (Py.result Z);                   (* [hasattr(point, "ID")], [int(point.ID)] *)
  obj_attributes : Py.result (list (string * json)); (* lines 153-178 *)
  obj_current_value : Py.result (option json);     (* lines 186-198 *)
  obj_point_class : Py.result (option json);       (* lines 204-208 *)
  obj_server_name : Py.result (option string);     (* lines 214-215 *)
}.

Definition point_info : Type := gmap string json.

(** [str(point.Name)]. *)
Definition str_Name (point : PIPointObject) : Py.result string :=
  match obj_Name point with
  | NoName => Raise AttributeError
  | NameIs s => s
  end.

(** [d[k] = v] for each pair, in order. *)
Definition set_items (items : list (string * json)) (d : point_info) : point_info :=
  fold_left (fun d kv => <[kv.1 := kv.2]> d) items d.

(** Lines 144-217: the body of the [try], up to [points_list.append]. *)
Definition point_body (point : PIPointObject) : Py.result point_info :=
  name ← str_Name point;
  id ← match obj_ID point with
       | Some r => n ← r; Ok (JInt n)
       | None => Ok JNull
       end;
  let point_info : point_info := <["id" := id]> (<["name" := JStr name]> ∅) in
  (* Get all available attributes *)
  let point_info :=
    match obj_attributes point with
    | Ok items => set_items items point_info
    | Raise e => <["attributes_error" := JStr (Py.message e)]> point_info
    end in
  (* Get current value info *)
  let point_info :=
    match obj_current_value point with
    | Ok (Some cv) => <["current_value" := cv]> point_info
    | Ok None => point_info
    | Raise _ => <["current_value" := JNull]> point_info
    end in
  (* Point class info *)
  let point_info :=
    match obj_point_class point with
    | Ok (Some pc) => <["point_class" := pc]> point_info
    | Ok None => point_info
    | Raise _ => <["point_class" := JNull]> point_info
    end in
  (* Server info *)
  let point_info :=
    match obj_server_name point with
    | Ok (Some s) => <["server_name" := JStr s]> point_info
    | Ok None => point_info
    | Raise _ => <["server_name" := JNull]> point_info
    end in
  Ok point_info.

(** Lines 226-233: the basic record added when the detailed extraction
    fails; an exception while building it is passed over. *)
Definition error_record (point : PIPointObject) (e : Py.exn) : option point_info :=
  match obj_Name point with
  | NoName => Some (<["error" := JStr (Py.message e)]> (<["name" := JStr "Unknown"]> ∅))
  | NameIs (Ok name) => Some (<["error" := JStr (Py.message e)]> (<["name" := JStr name]> ∅))
  | NameIs (Raise _) => None
  end.

Definition points_state : Type := list point_info * list printed.

(** Lines 142-233: one turn of [for i, point in enumerate(points)]. *)
Definition point_step (st : points_state) (point : PIPointObject) : points_state :=
  let '(points_list, out) := st in
  match point_body point with
  | Ok point_info => (points_list ++ [point_info], out)
  | Raise e =>
      let out := out ++ [ErrorExtractingPoint e] in
      match error_record point e with
      | Some basic => (points_list ++ [basic], out)
      | None => (points_list, out)
      end
  end.

(** An open [PIServerConnection] of the script; [search_points] is the
    outcome of the search and of [len(points)] (lines 82-83). *)
Record PIServerSession : Type := {
  search_points : string -> Z -> Py.result (list PIPointObject);
}.

(** Lines 61-236; [connect] is [PIServerConnection(config).__enter__] for the
    host of the configuration, with the line printed on entry (lines
    77-78). *)
Definition extract_pi_points (connect : string -> Py.result PIServerSession)
    (pi_server pattern : string) (max_count : Z)
  : Py.result (list point_info) * list printed :=
  match connect pi_server with
  | Raise e => (Raise e, [])
  | Ok conn =>
      match search_points conn pattern max_count with
      | Raise e => (Raise e, [])
      | Ok points =>
          let '(points_list, out) := fold_left point_step points ([], []) in
          (Ok points_list, out)
      end
  end.

(** What one point contributes to [points_list]. *)
Definition point_record (point : PIPointObject) : option point_info :=
  match point_body point with
  | Ok point_info => Some point_info
  | Raise e => error_record point e
  end.

(** What one point makes the script print. *)
Definition point_printed (point : PIPointObject) : list printed :=
  match point_body point with
  | Ok _ => []
  | Raise e => [ErrorExtractingPoint e]
  end.

(** ** Client construction (pipolars.api.client, pipolars.core.config) *)

(** Modelled from the spec: [PIServerConfig] and [PIConfig] of
    [pipolars/core/config.py], which is not among the sources; only the
    host is observed by the tests. *)
Record PIServerConfig : Type := { host : string }.
Record PIConfig : Type := { server : PIServerConfig }.

(** [PIServerConfig()]: the default host. *)
Definition PIServerConfig_default : PIServerConfig := {| host := "localhost" |}.

(** The characters [str.strip()] removes, within ASCII. *)
Definition is_space (c : ascii) : bool :=
  let n := nat_of_ascii c in
  ((9 <=? n)%nat && (n <=? 13)%nat) || ((28 <=? n)%nat && (n <=? 32)%nat).

(** [not s.strip()]: the string is empty or whitespace only. *)
Fixpoint is_blank (s : string) : bool :=
  match s with
  | EmptyString => true
  | String c s' => is_space c && is_blank s'
  end.

(** What a caller passes as [server]. *)
Inductive server_argument : Type :=
  | ServerNone                          (* [None] *)
  | ServerName (s : string)             (* a server name *)
  | ServerConfig (c : PIServerConfig).  (* a [PIServerConfig] object *)

(** A parameter of a call: passed, or omitted and left to its default. *)
Inductive argument (A : Type) : Type :=
  | Omitted
  | Passed (a : A).
Arguments Omitted {A}.
Arguments Passed {A} a.

(** Modelled from the spec: [PIClient.__init__(server=None, config=None)] of
    [pipolars/api/client.py], which is not among the sources.  An explicit
    configuration object is used as it is; otherwise the server argument
    gives the host, and an empty, whitespace-only, [None] or omitted server
    resolves to "localhost". *)
Definition PIClient_config (server : argument server_argument)
    (config : argument (option PIConfig)) : PIConfig :=
  let server := match server with Passed s => s | Omitted => ServerNone end in
  let config := match config with Passed c => c | Omitted => None end in
  match config with
  | Some config => config
  | None =>
      match server with
      | ServerConfig c => {| server := c |}
      | ServerName s =>
          if is_blank s then {| server := PIServerConfig_default |}
          else {| server := {| host := s |} |}
      | ServerNone => {| server := PIServerConfig_default |}
      end
  end.

(** ** Analyses (pipolars.core.types) *)

(** Modelled from the spec: [AnalysisStatus] and the frozen dataclass
    [AnalysisInfo] of [pipolars/core/types.py], with the fields of the unit
    tests. *)
Inductive AnalysisStatus : Type := RUNNING | STOPPED | ERROR | UNKNOWN.

Record AnalysisInfo : Type := {
  ai_name : string;
  ai_id : string;
  ai_path : string;
  ai_description : string;
  ai_target_id : string;
  ai_target_name : string;
  ai_target_path : string;
  ai_template_id : string;
  ai_template_name : string;
  ai_template_description : string;
  ai_status : AnalysisStatus;
  ai_is_enabled : bool;
  ai_categories : list string;
  ai_time_rule_plugin_id : string;
  ai_time_rule_config_string : string;
  ai_analysis_rule_max_queue_size : option Z;
  ai_group_id : string;
  ai_priority : option Z;
  ai_maximum_queue_time : string;
  ai_auto_created_event_frame_count : option Z;
  ai_output_attributes : list string;
}.

(** Modelled from the spec: [__setattr__] as [dataclass(frozen=...)]
    generates it.  On a frozen class every assignment raises
    [FrozenInstanceError] and the instance stays as it is; otherwise
    [assign] stores the value. *)
Definition dataclass_setattr {T : Type} (frozen : bool)
    (assign : T -> string -> py_value -> T)
    (self : T) (field : string) (v : py_value) : Py.result unit * T :=
  if frozen then (Raise FrozenInstanceError, self)
  else (Ok tt, assign self field v).

(** [AnalysisInfo] is declared frozen. *)
Definition AnalysisInfo_frozen : bool := true.

(** What [info.<field> = v] would store if the class were not frozen, for
    the assignment of the unit test ([name], a string); no other assignment
    is modelled. *)
Definition AnalysisInfo_assign (self : AnalysisInfo) (field : string)
    (v : py_value) : AnalysisInfo :=
  match v with
  | PyStr s =>
      if String.eqb field "name" then
        {| ai_name := s; ai_id := ai_id self; ai_path := ai_path self;
           ai_description := ai_description self;
           ai_target_id := ai_target_id self;
           ai_target_name := ai_target_name self;
           ai_target_path := ai_target_path self;
           ai_template_id := ai_template_id self;
           ai_template_name := ai_template_name self;
           ai_template_description := ai_template_description self;
           ai_status := ai_status self; ai_is_enabled := ai_is_enabled self;
           ai_categories := ai_categories self;
           ai_time_rule_plugin_id := ai_time_rule_plugin_id self;
           ai_time_rule_config_string := ai_time_rule_config_string self;
           ai_analysis_rule_max_queue_size := ai_analysis_rule_max_queue_size self;
           ai_group_id := ai_group_id self; ai_priority := ai_priority self;
           ai_maximum_queue_time := ai_maximum_queue_time self;
           ai_auto_created_event_frame_count := ai_auto_created_event_frame_count self;
           ai_output_attributes := ai_output_attributes self |}
      else self
  | _ => self
  end.

(** [setattr(info, field, v)] on an [AnalysisInfo]. *)
Definition AnalysisInfo_setattr (self : AnalysisInfo) (field : string)
    (v : py_value) : Py.result unit * AnalysisInfo :=
  dataclass_setattr AnalysisInfo_frozen AnalysisInfo_assign self field v.

(** ** Sample inputs *)

(** An event of an Int32 point: the interop layer hands the value over as a
    Python [int]. *)
Definition af_int32 : AFValue :=
  {| Timestamp_LocalTime := 638000000000000000;
     Value := PyInt 42;
     IsGood := PyBool true;
     Substituted := None |}.

(** An event of a String point whose text is a numeral: it arrives as a
    Python [str]. *)
Definition af_numeral_string : AFValue :=
  {| Timestamp_LocalTime := 638000000000000003;
     Value := PyStr "12.5";
     IsGood := PyBool true;
     Substituted := None |}.

(** A digital state, flagged both bad and substituted. *)
Definition state_shutdown : net_object :=
  {| net_Name := Some "Shutdown";
     net_ToString := Some "Shutdown";
     net_float := Raise TypeError;
     net_bool := true |}.

Definition af_bad_substituted : AFValue :=
  {| Timestamp_LocalTime := 638000000000000001;
     Value := PyObject state_shutdown;
     IsGood := PyBool false;
     Substituted := Some (PyBool true) |}.

(** A proxied value that is not numeric, good and substituted. *)
Definition net_text : net_object :=
  {| net_Name := None;
     net_ToString := Some "n/a";
     net_float := Raise TypeError;
     net_bool := true |}.

Definition af_text_substituted : AFValue :=
  {| Timestamp_LocalTime := 638000000000000002;
     Value := PyObject net_text;
     IsGood := PyBool true;
     Substituted := Some (PyBool true) |}.

(** A proxied numeric value and three events of a point's archive. *)
Definition net_decimal (x : float) : net_object :=
  {| net_Name := None;
     net_ToString := Some "decimal";
     net_float := Ok x;
     net_bool := true |}.

Definition event (t : DateTime) (v : py_value) : AFValue :=
  {| Timestamp_LocalTime := t; Value := v; IsGood := PyBool true;
     Substituted := None |}.

Definition archive_inside : list AFValue :=
  [event 100 (PyFloat 1.5); event 200 (PyObject (net_decimal 2.5));
   event 300 (PyInt 3)].

Definition archive_outside : list AFValue :=
  event 50 (PyFloat 0.5) :: archive_inside ++ [event 400 (PyFloat 4.5)].

(** A toy server answer: the cap keeps the first [n] events when [n] is
    positive, and the paged enumeration gives the events of the unpaged
    call. *)
Definition sample_RecordedValues (_ : AFTimeRange) (b : AFBoundaryType)
    (_ : option string) (_ : bool) (n : Z)
  : Py.result (list AFValue) :=
  let events := match b with Inside => archive_inside | _ => archive_outside end in
  Ok (if (0 <? n)%Z then take (Z.to_nat n) events else events).

(** The enumeration over events that are all there. *)
Definition enumeration_of (events : list AFValue) : AFValues_paged :=
  fun i => Ok (events !! i).

Definition sample_RecordedValues_paged (_ : AFTimeRange) (b : AFBoundaryType)
    (_ : option string) (_ : bool) (_ : PIPagingConfiguration)
  : Py.result AFValues_paged :=
  Ok (enumeration_of
        match b with Inside => archive_inside | _ => archive_outside end).

(** A toy summary answer: one entry for each flag set in the request. *)
Definition sample_Summary (_ : AFTimeRange) (sdk_summary : Z)
    (_ : AFCalculationBasis) (_ : AFTimestampCalculation)
  : Py.result (list AFSummary) :=
  Ok (map (fun t => {| SummaryType_int := t; Value_Value := PyFloat 1.5 |})
        (filter (fun t => Z.land sdk_summary t ≠ 0) [1; 2; 4; 8; 16; 32; 64; 128; 8192])).

Definition attr_text (s : string) : attr_value :=
  {| attr_str := s;
     attr_int := Raise ValueError;
     attr_float := Raise ValueError;
     attr_truthy := negb (String.eqb s "") |}.

(** A toy point handle over the given attributes.  The toy server knows
    SINUSOID, whose point type string the extractor does not know, and BARE,
    which reports no attribute at all. *)
Definition sample_point (attrs : gmap string attr_value) : PIPoint :=
  {| GetAttributes := fun _ => Ok attrs;
     CurrentValue := Ok af_int32;
     RecordedValues := sample_RecordedValues;
     RecordedValues_paged := sample_RecordedValues_paged;
     Summary := sample_Summary |}.

Definition sample_conn : PIServerConnection :=
  {| get_point := fun tag_name =>
       if String.eqb tag_name "SINUSOID" then
         Ok (sample_point {[ "pointtype" := attr_text "Float128" ]})
       else if String.eqb tag_name "BARE" then Ok (sample_point ∅)
       else Raise PIPointNotFoundError |}.

(** A server that answers out of time order, with a repeated timestamp. *)
Definition unsorted_point : PIPoint :=
  {| GetAttributes := fun _ => Ok ∅;
     CurrentValue := Ok af_int32;
     RecordedValues := fun _ _ _ _ _ =>
       Ok [event 200 (PyFloat 2.5); event 100 (PyFloat 1.5);
           event 100 (PyFloat 1.0)];
     RecordedValues_paged := fun _ _ _ _ _ =>
       Ok (enumeration_of
             [event 200 (PyFloat 2.5); event 100 (PyFloat 1.5);
              event 100 (PyFloat 1.0)]);
     Summary := sample_Summary |}.

Definition unsorted_conn : PIServerConnection :=
  {| get_point := fun _ => Ok unsorted_point |}.

(** A server whose third event cannot be fetched by the paged enumeration:
    the page after the first two times out.  The unpaged call has them all. *)
Definition flaky_point : PIPoint :=
  {| GetAttributes := fun _ => Ok ∅;
     CurrentValue := Ok af_int32;
     RecordedValues := sample_RecordedValues;
     RecordedValues_paged := fun _ _ _ _ _ =>
       Ok (fun i => if (i <? 2)%nat then Ok (archive_inside !! i)
                    else Raise (SdkError "page request timed out"));
     Summary := sample_Summary |}.

Definition flaky_conn : PIServerConnection :=
  {| get_point := fun _ => Ok flaky_point |}.

(** The bulk snapshot of the toy server: the current value of each point. *)
Definition sample_bulk_CurrentValue (points : list PIPoint)
  : Py.result (list AFValue) :=
  Py.comprehension CurrentValue points.

(** A server that accepts the connection and then fails the tag search. *)
Definition connect_search_fails (_ : string) : Py.result PIServerSession :=
  Ok {| search_points := fun _ _ => Raise (SdkError "search timed out") |}.

(** Three points of a search result: a healthy one, one whose ID cannot be
    read, and one whose name cannot be read either. *)
Definition healthy_point : PIPointObject :=
  {| obj_Name := NameIs (Ok "SINUSOID");
     obj_ID := Some (Ok 1);
     obj_attributes := Ok [("pointtype", JStr "Float32"); ("zero", JInt 0)];
     obj_current_value := Ok (Some (JObject [("value", JFloat 1.5); ("is_good", JBool true)]));
     obj_point_class := Raise (SdkError "no class");
     obj_server_name := Ok (Some "GENCOPI") |}.

Definition broken_id_point : PIPointObject :=
  {| obj_Name := NameIs (Ok "CDT158");
     obj_ID := Some (Raise (SdkError "point was deleted"));
     obj_attributes := Ok [];
     obj_current_value := Ok None;
     obj_point_class := Ok None;
     obj_server_name := Ok None |}.

Definition broken_name_point : PIPointObject :=
  {| obj_Name := NameIs (Raise (SdkError "point was deleted"));
     obj_ID := None;
     obj_attributes := Ok [];
     obj_current_value := Ok None;
     obj_point_class := Ok None;
     obj_server_name := Ok None |}.

Definition connect_sample (_ : string) : Py.result PIServerSession :=
  Ok {| search_points := fun _ _ =>
          Ok [broken_id_point; broken_name_point; healthy_point] |}.

(** A toy AF server: analyses are numbers, and extracting an odd one fails.
    The second database cannot be read. *)
Definition sample_extract_raw (analysis : Z) (db_name : string) : Py.result string :=
  if Z.odd analysis then Raise (SdkError "analysis is checked out")
  else Ok db_name.

Definition sample_system : PISystem Z :=
  {| Connect := Ok tt;
     Databases :=
       Ok [ {| db_Name := Ok "Plant"; db_Analyses := Ok [1; 2; 3; 4] |};
            {| db_Name := Ok "Archive";
               db_Analyses := Raise (SdkError "access denied") |};
            {| db_Name := Ok "Lab"; db_Analyses := Ok [6] |} ];
     Disconnect := Ok tt |}.

Definition sample_systems (af_server : string) : option (PISystem Z) :=
  if String.eqb af_server "GENCOPI" then Some sample_system else None.

(** The same server when the name of its second database cannot be read. *)
Definition nameless_system : PISystem Z :=
  {| Connect := Ok tt;
     Databases :=
       Ok [ {| db_Name := Ok "Plant"; db_Analyses := Ok [1; 2; 3; 4] |};
            {| db_Name := Raise (SdkError "database was deleted");
               db_Analyses := Ok [8] |};
            {| db_Name := Ok "Lab"; db_Analyses := Ok [6] |} ];
     Disconnect := Ok tt |}.

(** ** More sample inputs *)

(** A proxied value whose [float()] overflows, in the middle of an archive. *)
Definition net_overflow : net_object :=
  {| net_Name := None;
     net_ToString := Some "1e999";
     net_float := Raise OverflowError;
     net_bool := true |}.

Definition faulty_point : PIPoint :=
  {| GetAttributes := fun _ =>
       Ok {[ "pointid" := attr_text "not a number" ]};
     CurrentValue := Ok (event 200 (PyObject net_overflow));
     RecordedValues := fun _ _ _ _ _ =>
       Ok ([event 100 (PyFloat 1.5)] ++
           event 200 (PyObject net_overflow) :: [event 300 (PyInt 3)]);
     RecordedValues_paged := fun _ _ _ _ _ =>
       Ok (enumeration_of
             ([event 100 (PyFloat 1.5)] ++
              event 200 (PyObject net_overflow) :: [event 300 (PyInt 3)]));
     Summary := sample_Summary |}.

Definition faulty_conn : PIServerConnection :=
  {| get_point := fun _ => Ok faulty_point |}.

(** A bulk snapshot that answers with one value only. *)
Definition short_bulk_CurrentValue (_ : list PIPoint) : Py.result (list AFValue) :=
  Ok [af_int32].

(** ** Text helpers of extract_analyses.py

    Paths and configuration strings are modelled as byte strings; the
    Python operations used on them are modelled on the ASCII characters,
    which is what the separators and keywords of the script are. *)

(** [sub in s]: [sub] occurs somewhere in [s]. *)
Fixpoint str_in (sub s : string) : bool :=
  String.prefix sub s ||
  match s with
  | EmptyString => false
  | String _ s' => str_in sub s'
  end.

(** [c.lower()] for one character. *)
Definition lower_char (c : ascii) : ascii :=
  let n := nat_of_ascii c in
  if (65 <=? n)%nat && (n <=? 90)%nat then ascii_of_nat (n + 32) else c.

(** [s.lower()]. *)
Fixpoint str_lower (s : string) : string :=
  match s with
  | EmptyString => EmptyString
  | String c s' => String (lower_char c) (str_lower s')
  end.

(** [s.lstrip(c)] and [s.rstrip(c)] for a one-character set. *)
Fixpoint str_lstrip (c : ascii) (s : string) : string :=
  match s with
  | EmptyString => EmptyString
  | String a s' => if Ascii.eqb a c then str_lstrip c s' else s
  end.

Fixpoint str_rstrip (c : ascii) (s : string) : string :=
  match s with
  | EmptyString => EmptyString
  | String a s' =>
      match str_rstrip c s' with
      | EmptyString => if Ascii.eqb a c then EmptyString else String a EmptyString
      | r => String a r
      end
  end.

(** [s.strip(c)]. *)
Definition str_strip (c : ascii) (s : string) : string :=
  str_rstrip c (str_lstrip c s).

(** [s.split(sep)] for a non-empty separator, scanning from the left;
    [skip] counts the characters of a separator just found that are still
    to be passed over.  The head of the result is the piece being read. *)
Fixpoint split_from (sep : string) (skip : nat) (s : string) : list string :=
  match s with
  | EmptyString => [EmptyString]
  | String c s' =>
      match skip with
      | S k => split_from sep k s'
      | O =>
          if String.prefix sep s then
            EmptyString :: split_from sep (String.length sep - 1) s'
          else
            match split_from sep 0 s' with
            | piece :: pieces => String c piece :: pieces
            | [] => [String c EmptyString]
            end
      end
  end.

Definition str_split (sep s : string) : list string := split_from sep 0 s.

(** The path separator of AF element paths. *)
Definition backslash : ascii := ascii_of_nat 92.

(** Lines 741-754: [extract_plant_name]; nothing in the [try] can raise on
    a string. *)
Definition extract_plant_name (element_path : string) : option string :=
  if String.eqb element_path "" then None
  else
    (* Path format: \\SERVER\Database\Category\PlantName *)
    let parts := str_split (String backslash "") (str_strip backslash element_path) in
    if (4 <=? length parts)%nat then parts !! 3%nat
    else if (3 <=? length parts)%nat then parts !! 2%nat
    else None.

(** Lines 757-776: [determine_plant_category]. *)
Definition determine_plant_category (element_path : string) : option Z :=
  if String.eqb element_path "" then None
  else
    let path_lower := str_lower element_path in
    if str_in "hydro" path_lower then Some 1
    else if str_in "thermal" path_lower || str_in "coal" path_lower then Some 2
    else if str_in "solar" path_lower || str_in "ges" path_lower then Some 3
    else if str_in "wind" path_lower || str_in "res" path_lower then Some 4
    else if str_in "gas" path_lower then Some 5
    else Some 0.

(** [n] path separators in a row. *)
Fixpoint backslashes (n : nat) : string :=
  match n with
  | O => EmptyString
  | S n' => String backslash (backslashes n')
  end.

(** ** extract_analyses.py: the search through the element tree *)

(** The error lines of [search_analyses_in_elements]; informational lines
    are left out as before. *)
Inductive search_printed : Type :=
  | SearchErrorExtracting (e : Py.exn)
  | SearchErrorAccessing (element_name : string) (e : Py.exn)
  | SearchErrorTraversing (e : Py.exn).

Section Search.

Variable AFAnalysis : Type.
Variable analysis_info : Type.

(** [extract_analysis_info(analysis, sdk, extraction_time, conn)] (lines
    462-738); like the raw variant it reads [Name], [ID] and [Description]
    outside any [try]. *)
Variable extract_analysis_info : AFAnalysis -> Py.result analysis_info.

(** An [AFElement] of the tree.  [el_Name] is the outcome of reading
    [element.Name] where a printed line needs it.  [el_Analyses] is the
    outcome of [hasattr(element, "Analyses") and element.Analyses] and of
    iterating the collection: [Ok []] for an element without analyses.
    [el_Elements] is the outcome of
    [element.Elements and element.Elements.Count > 0] and of iterating the
    children: [Ok []] for a leaf. *)
#[warnings="-register-all"]
Inductive AFElement : Type :=
  | mkAFElement (el_Name : Py.result string)
      (el_Analyses : Py.result (list AFAnalysis))
      (el_Elements : Py.result (list AFElement)).

Definition search_state : Type := list analysis_info * list search_printed.

(** Lines 799-805: one turn of [for analysis in element.Analyses].  The
    dictionary is appended (line 802) before the line that names the
    element is printed (line 803): when reading the name raises there, the
    handler of line 804 reports it and the dictionary stays in the list.
    The other value of that line, [analysis_info['Name']], is there in
    every dictionary [extract_analysis_info] returns (line 478). *)
Definition search_step (el_Name : Py.result string) (st : search_state)
    (analysis : AFAnalysis) : search_state :=
  match extract_analysis_info analysis with
  | Ok analysis_info =>
      match el_Name with
      | Ok _ => (st.1 ++ [analysis_info], st.2)
      | Raise e => (st.1 ++ [analysis_info], st.2 ++ [SearchErrorExtracting e])
      end
  | Raise e => (st.1, st.2 ++ [SearchErrorExtracting e])
  end.

(** Lines 797-807: the analyses of one element.  The handler of line 806
    reads [element.Name] for its line; when that read raises too, the
    exception leaves the handler, hence the loop over the elements. *)
Definition element_analyses (element : AFElement) (st : search_state)
  : Py.result search_state :=
  match element with
  | mkAFElement el_Name el_Analyses _ =>
      match el_Analyses with
      | Ok analyses => Ok (fold_left (search_step el_Name) analyses st)
      | Raise e =>
          match el_Name with
          | Ok name => Ok (st.1, st.2 ++ [SearchErrorAccessing name e])
          | Raise e' => Raise e'
          end
      end
  end.

(** Lines 793-814: [traverse_elements]; the result is the state and the
    exception that left the loop, if any.  [stack] is the number of nested
    calls of [traverse_elements] the interpreter still allows: a call
    beyond it raises [RecursionError], which the handler of line 813
    swallows like every other exception of the children.  The [depth]
    argument only indents the printed lines. *)
Fixpoint traverse_elements (stack : nat)
  : list AFElement -> search_state -> search_state * option Py.exn :=
  fix loop (elements : list AFElement) (st : search_state) :=
    match elements with
    | [] => (st, None)
    | element :: rest =>
        (* Check for analyses on this element *)
        match element_analyses element st with
        | Raise e => (st, Some e)
        | Ok st =>
            (* Recurse into child elements *)
            let st :=
              match element with
              | mkAFElement _ _ (Ok children) =>
                  match stack with
                  | O => st
                  | S stack' => (traverse_elements stack' children st).1
                  end
              | mkAFElement _ _ (Raise _) => st
              end in
            loop rest st
        end
    end.

(** Lines 779-824; [root_Elements] is the outcome of reading
    [conn.database.Elements] and its [Count]. *)
Definition search_analyses_in_elements (stack : nat)
    (root_Elements : Py.result (list AFElement)) : search_state :=
  (* Start traversal from root elements *)
  match root_Elements with
  | Ok root_elements =>
      match traverse_elements stack root_elements ([], []) with
      | (st, None) => st
      | (st, Some e) => (st.1, st.2 ++ [SearchErrorTraversing e])
      end
  | Raise e => ([], [SearchErrorTraversing e])
  end.

(** The elements of the tree whose children can be read, parents first. *)
Fixpoint reachable (element : AFElement) : list AFElement :=
  match element with
  | mkAFElement _ _ el_Elements =>
      element ::
      match el_Elements with
      | Ok elements => flat_map reachable elements
      | Raise _ => []
      end
  end.

(** The exception of the handler of line 806, when neither the analyses nor
    the name of the element can be read. *)
Definition handler_fails (element : AFElement) : option Py.exn :=
  match element with
  | mkAFElement (Raise e') (Raise _) _ => Some e'
  | _ => None
  end.

(** The elements a call of [traverse_elements] visits, in order, and the
    exception that ends it. *)
Fixpoint visited (stack : nat) : list AFElement -> list AFElement :=
  fix loop (elements : list AFElement) :=
    match elements with
    | [] => []
    | element :: rest =>
        element ::
        match handler_fails element with
        | Some _ => []
        | None =>
            match element with
            | mkAFElement _ _ (Ok children) =>
                match stack with
                | O => []
                | S stack' => visited stack' children
                end
            | mkAFElement _ _ (Raise _) => []
            end ++ loop rest
        end
    end.

Fixpoint aborted (elements : list AFElement) : option Py.exn :=
  match elements with
  | [] => None
  | element :: rest =>
      match handler_fails element with
      | Some e => Some e
      | None => aborted rest
      end
  end.

(** No handler fails anywhere in the trees and they are at most [stack]
    levels deeper than their roots. *)
Fixpoint undisturbed (stack : nat) : list AFElement -> bool :=
  fix loop (elements : list AFElement) :=
    match elements with
    | [] => true
    | element :: rest =>
        match handler_fails element with
        | Some _ => false
        | None =>
            match element with
            | mkAFElement _ _ (Ok []) => true
            | mkAFElement _ _ (Ok children) =>
                match stack with
                | O => false
                | S stack' => undisturbed stack' children
                end
            | mkAFElement _ _ (Raise _) => true
            end && loop rest
        end
    end.

(** What one element contributes: the analyses of its own that extract. *)
Definition element_records (element : AFElement) : list analysis_info :=
  match element with
  | mkAFElement _ (Ok analyses) _ =>
      omap (fun a => match extract_analysis_info a with
                     | Ok info => Some info
                     | Raise _ => None
                     end) analyses
  | mkAFElement _ (Raise _) _ => []
  end.

Definition element_printed (element : AFElement) : list search_printed :=
  match element with
  | mkAFElement el_Name (Ok analyses) _ =>
      flat_map (fun a => match extract_analysis_info a, el_Name with
                         | Ok _, Ok _ => []
                         | Ok _, Raise e => [SearchErrorExtracting e]
                         | Raise e, _ => [SearchErrorExtracting e]
                         end) analyses
  | mkAFElement (Ok name) (Raise e) _ => [SearchErrorAccessing name e]
  | mkAFElement (Raise _) (Raise _) _ => []
  end.

(** The line of the handler of line 820. *)
Definition traversing_line (abort : option Py.exn) : list search_printed :=
  match abort with
  | Some e => [SearchErrorTraversing e]
  | None => []
  end.

(** *** extract_analyses (lines 137-187) *)

(** An open [AFDatabaseConnection]: the outcome of reading
    [conn.database.Analyses] and [conn.database.Elements]. *)
Record AFDatabaseSession : Type := {
  session_Analyses : Py.result (list AFAnalysis);
  session_Elements : Py.result (list AFElement);
}.

(** Lines 172-179: one turn of [for analysis in analyses_collection]. *)
Definition single_step (st : list analysis_info * list (printed + search_printed))
    (analysis : AFAnalysis) : list analysis_info * list (printed + search_printed) :=
  match extract_analysis_info analysis with
  | Ok analysis_info => (st.1 ++ [analysis_info], st.2)
  | Raise e => (st.1, st.2 ++ [inl (ErrorExtractingAnalysis e)])
  end.

(** Lines 137-187.  [stack] is the recursion room of the interpreter, as
    for [traverse_elements]; [all_databases] is the call
    [extract_analyses_from_all_databases(af_server)]; [connect] is
    [AFDatabaseConnection(config).__enter__] for the server and database of
    the configuration, with what runs on entry before the collection is
    read (lines 158-163). *)
Definition extract_analyses (stack : nat)
    (all_databases : string -> Py.result (list analysis_info) * list printed)
    (connect : string -> string -> Py.result AFDatabaseSession)
    (af_server : string) (database : option string)
  : Py.result (list analysis_info) * list (printed + search_printed) :=
  match database with
  | None =>
      (* If no specific database is specified, extract from all databases *)
      let '(outcome, out) := all_databases af_server in (outcome, map inl out)
  | Some database =>
      match connect af_server database with
      | Raise e => (Raise e, [])
      | Ok conn =>
          match session_Analyses conn with
          | Ok analyses_collection =>
              let '(analyses_list, out) :=
                fold_left single_step analyses_collection ([], []) in
              (Ok analyses_list, out)
          | Raise e =>
              if Py.is_instance e AttributeError then
                (* If Analyses collection not directly available, search for them *)
                let '(analyses_list, out) :=
                  search_analyses_in_elements stack (session_Elements conn) in
                (Ok analyses_list, map inr out)
              else (Raise e, [])
          end
      end
  end.

End Search.

Arguments mkAFElement {AFAnalysis} _ _ _.
Arguments search_step {AFAnalysis analysis_info} _ _ _ _.
Arguments element_analyses {AFAnalysis analysis_info} _ _ _.
Arguments traverse_elements {AFAnalysis analysis_info} _ _ _ _.
Arguments search_analyses_in_elements {AFAnalysis analysis_info} _ _ _.
Arguments reachable {AFAnalysis} _.
Arguments handler_fails {AFAnalysis} _.
Arguments visited {AFAnalysis} _ _.
Arguments aborted {AFAnalysis} _.
Arguments undisturbed {AFAnalysis} _ _.
Arguments element_records {AFAnalysis analysis_info} _ _.
Arguments element_printed {AFAnalysis analysis_info} _ _.
Arguments session_Analyses {AFAnalysis} _.
Arguments session_Elements {AFAnalysis} _.
Arguments single_step {AFAnalysis analysis_info} _ _ _.
Arguments extract_analyses {AFAnalysis analysis_info} _ _ _ _ _ _.

(** Recursion room for the sample runs. *)
Definition recursion_room : nat := 900.

(** A toy element tree: analyses are numbers, extracting an odd one fails;
    the analyses of "Unit 2" cannot be read, nor the children of "Unit 1". *)

Definition sample_extract_info (analysis : Z) : Py.result Z :=
  if Z.odd analysis then Raise (SdkError "analysis is checked out")
  else Ok (analysis * 10).

Definition sample_tree : list (AFElement Z) :=
  [ mkAFElement (Ok "Plant") (Ok [2])
      (Ok [ mkAFElement (Ok "Unit 1") (Ok [3; 4])
              (Raise (SdkError "no access"));
            mkAFElement (Ok "Unit 2") (Raise (SdkError "not loaded"))
              (Ok [ mkAFElement (Ok "Pump") (Ok [6]) (Ok []) ]) ]);
    mkAFElement (Ok "Yard") (Ok []) (Ok []) ].

(** The same tree when "Unit 2" has been deleted meanwhile: neither its
    analyses nor its name can be read. *)
Definition stale_tree : list (AFElement Z) :=
  [ mkAFElement (Ok "Plant") (Ok [2])
      (Ok [ mkAFElement (Raise (SdkError "element was deleted"))
              (Raise (SdkError "not loaded"))
              (Ok [ mkAFElement (Ok "Pump") (Ok [6]) (Ok []) ]);
            mkAFElement (Ok "Unit 1") (Ok [3; 4]) (Ok []) ]);
    mkAFElement (Ok "Yard") (Ok [8]) (Ok []) ].

Definition sample_session : AFDatabaseSession Z :=
  {| session_Analyses := Raise AttributeError;
     session_Elements := Ok sample_tree |}.

Definition locked_session : AFDatabaseSession Z :=
  {| session_Analyses := Raise (SdkError "access denied");
     session_Elements := Ok sample_tree |}.

(** ** extract_pipoints.py: the attribute mapping (lines 86-178) *)

(** Lines 86-140: the attribute names the script asks for. *)
Definition point_attributes : list string :=
  ["pointid"; "tag"; "pointtype"; "pointtypex"; "descriptor"; "engunits";
   "zero"; "span"; "displaydigits"; "typicalvalue"; "pointsource";
   "sourcetag"; "step"; "future"; "compressing"; "compdev";
   "compdevpercent"; "compmin"; "compmax"; "excdev"; "excdevpercent";
   "excmin"; "excmax"; "filtercode"; "shutdown"; "archiving"; "scan";
   "location1"; "location2"; "location3"; "location4"; "location5";
   "userint1"; "userint2"; "userreal1"; "userreal2"; "digitalset";
   "ptclassname"; "ptclassid"; "ptsecurity"; "datasecurity"; "squession";
   "totalcode"; "exdesc"; "instrumenttag"; "creationdate"; "creator";
   "changedate"; "changer"; "ptowner"; "ptgroup"; "ptaccess"; "recno"].

(** A proxied attribute value, seen through the builtins the mapping
    applies to it. *)
Record attribute_object : Type := {
  ao_str : Py.result string;       (* [str(value)] *)
  ao_float : Py.result float;      (* [float(value)] *)
  ao_int : Py.result Z;            (* [int(value)] *)
  ao_ToString : Py.result string;  (* [str(value.ToString())] *)
}.

(** A value of the attribute dictionary: [None], a Python native (which has
    no [ToString] and is kept as it is), or a proxied object. *)
Inductive attribute_value : Type :=
  | AttributeNone
  | AttributeNative (j : json)
  | AttributeObject (o : attribute_object).

(** Lines 161-173: the conversion of one value to a Python type. *)
Definition convert_attribute (value : attribute_value) : Py.result json :=
  match value with
  | AttributeNone => Ok JNull
  | AttributeNative j => Ok j
  | AttributeObject o =>
      (* Check if it's a numeric type *)
      let numeric :=
        str_val ← ao_str o;
        if str_in "." str_val then x ← ao_float o; Ok (JFloat x)
        else n ← ao_int o; Ok (JInt n) in
      match numeric with
      | Ok j => Ok j
      | Raise e =>
          if Py.caught_by [ValueError; TypeError] e
          then s ← ao_ToString o; Ok (JStr s)
          else Raise e
      end
  end.

(** Lines 157-178: what the mapping stores under one attribute name; any
    exception leaves [None]. *)
Definition attribute_entry (attrs : gmap string attribute_value)
    (attr_name : string) : json :=
  match attrs !! attr_name with
  | Some value =>
      match convert_attribute value with
      | Ok j => j
      | Raise _ => JNull
      end
  | None => JNull
  end.

(** Lines 153-178: the [try] body of the attribute block, from the outcome
    of [point.GetAttributes(point_attributes)]. *)
Definition attributes_block
    (GetAttributes_outcome : Py.result (gmap string attribute_value))
  : Py.result (list (string * json)) :=
  attrs ← GetAttributes_outcome;
  Ok (map (fun attr_name => (attr_name, attribute_entry attrs attr_name))
        point_attributes).

(** A point of the search result with its attribute dictionary. *)
Definition point_with_attributes (name : string) (id : Z)
    (attrs : gmap string attribute_value) : PIPointObject :=
  {| obj_Name := NameIs (Ok name);
     obj_ID := Some (Ok id);
     obj_attributes := attributes_block (Ok attrs);
     obj_current_value := Raise (SdkError "no data");
     obj_point_class := Ok None;
     obj_server_name := Ok (Some "GENCOPI") |}.

Definition sample_attributes : gmap string attribute_value :=
  {[ "zero" := AttributeObject
                 {| ao_str := Ok "0.5"; ao_float := Ok 0.5%float;
                    ao_int := Raise ValueError; ao_ToString := Ok "0.5" |};
     "pointtype" := AttributeObject
                 {| ao_str := Ok "Float32"; ao_float := Raise TypeError;
                    ao_int := Raise TypeError; ao_ToString := Ok "Float32" |};
     "tag" := AttributeNative (JStr "SINUSOID") ]}.

(** Reading the name of the point raises (anything but a missing
    attribute): the one case in which the handler of [extract_pi_points]
    cannot build its basic record. *)
Definition name_unreadable (point : PIPointObject) : bool :=
  match obj_Name point with
  | NameIs (Raise _) => true
  | _ => false
  end.

(** A server that refuses the connection and then fails to disconnect. *)
Definition unreachable_system : PISystem Z :=
  {| Connect := Raise (SdkError "connection refused");
     Databases := Ok [];
     Disconnect := Raise (SdkError "not connected") |}.

(** ** Interpolated values (points.py, lines 44-50 and 336-372) *)

(** Lines 44-50. *)
Record InterpolatedValuesOptions : Type := {
  iv_interval : string;
  iv_filter_expression : option string;
  iv_include_filtered_values : bool;
}.

(** [InterpolatedValuesOptions()]. *)
Definition InterpolatedValuesOptions_default : InterpolatedValuesOptions :=
  {| iv_interval := "1h";
     iv_filter_expression := None;
     iv_include_filtered_values := false |}.

Section Interpolated.

(** [OSIsoft.AF.Time.AFTimeSpan] with its [Parse], and the method
    [InterpolatedValues] of a point handle. *)
Variable AFTimeSpan : Type.
Variable AFTimeSpan_Parse : string -> Py.result AFTimeSpan.
Variable InterpolatedValues :
  PIPoint -> AFTimeRange -> AFTimeSpan -> option string -> bool ->
  Py.result (list AFValue).

(** Lines 336-372; [interval] defaults to "1h" when the caller omits it. *)
Definition interpolated_values (conn : PIServerConnection) (tag_name : string)
    (start end_ : PITimestamp) (interval : argument string)
    (options : option InterpolatedValuesOptions) : Py.result (list PIValue) :=
  let interval := match interval with Passed i => i | Omitted => "1h" end in
  let options := default InterpolatedValuesOptions_default options in
  point ← get_point conn tag_name;
  let time_range := _create_time_range start end_ in
  (* Parse interval *)
  time_interval ← AFTimeSpan_Parse interval;
  (* Call InterpolatedValues *)
  af_values ← InterpolatedValues point time_range time_interval
                 (iv_filter_expression options)
                 (iv_include_filtered_values options);
  Py.comprehension _convert_value af_values.

End Interpolated.

Arguments interpolated_values {AFTimeSpan} _ _ _ _ _ _ _ _.

(** A toy [AFTimeSpan]: the text itself, which must not be empty; the toy
    server answers with one event per character of the span text. *)
Definition sample_Parse (s : string) : Py.result string :=
  if String.eqb s "" then Raise (SdkError "bad time span") else Ok s.

Definition sample_InterpolatedValues (_ : PIPoint) (_ : AFTimeRange)
    (span : string) (_ : option string) (_ : bool) : Py.result (list AFValue) :=
  Ok (map (fun i => event (Z.of_nat i) (PyFloat 1.5)) (seq 0 (String.length span))).

(** ** extract_analyses.py: convert_net_datetime and safe_str (lines 47-70) *)

(** The properties of a .NET [DateTime] the conversion reads. *)
Record net_datetime_fields : Type := {
  Year : Z; Month : Z; Day : Z;
  Hour : Z; Minute : Z; Second : Z; Millisecond : Z;
}.

(** A Python [datetime]. *)
Record datetime : Type := {
  dt_year : Z; dt_month : Z; dt_day : Z;
  dt_hour : Z; dt_minute : Z; dt_second : Z; dt_microsecond : Z;
}.

Definition is_leap (y : Z) : bool :=
  (y mod 4 =? 0) && (negb (y mod 100 =? 0) || (y mod 400 =? 0)).

Definition days_in_month (y m : Z) : Z :=
  if m =? 2 then (if is_leap y then 29 else 28)
  else if (m =? 4) || (m =? 6) || (m =? 9) || (m =? 11) then 30
  else 31.

(** The field ranges the constructor [datetime(...)] accepts; outside them
    it raises [ValueError]. *)
Definition datetime_fields_ok (y mo d h mi s us : Z) : bool :=
  (1 <=? y) && (y <=? 9999) && (1 <=? mo) && (mo <=? 12) &&
  (1 <=? d) && (d <=? days_in_month y mo) &&
  (0 <=? h) && (h <=? 23) && (0 <=? mi) && (mi <=? 59) &&
  (0 <=? s) && (s <=? 59) && (0 <=? us) && (us <=? 999999).

(** Lines 47-60: [convert_net_datetime]; the exception of the constructor
    is caught and gives [None]. *)
Definition convert_net_datetime (net_datetime : net_datetime_fields)
  : option datetime :=
  let us := Millisecond net_datetime * 1000 in
  if datetime_fields_ok (Year net_datetime) (Month net_datetime)
       (Day net_datetime) (Hour net_datetime) (Minute net_datetime)
       (Second net_datetime) us
  then Some {| dt_year := Year net_datetime; dt_month := Month net_datetime;
               dt_day := Day net_datetime; dt_hour := Hour net_datetime;
               dt_minute := Minute net_datetime;
               dt_second := Second net_datetime; dt_microsecond := us |}
  else None.

(** ** extract_analyses.py: extract_analysis_info_raw (lines 190-459) *)

(** A value of the analysis dictionary. *)
Inductive info_value : Type :=
  | INone
  | IStr (s : string)
  | IInt (n : Z)
  | IBool (b : bool)
  | IDatetime (d : datetime).

(** The result of [safe_str], of [convert_net_datetime], as a value. *)
Definition of_str (s : option string) : info_value :=
  match s with Some s => IStr s | None => INone end.

Definition of_datetime (d : option datetime) : info_value :=
  match d with Some d => IDatetime d | None => INone end.

(** A statement [if <condition>: info[key] = <value>] inside a [try]:
    [Ok None] when the condition is false, [Ok (Some v)] when [v] is stored,
    [Raise e] when evaluating it raises. *)
Definition guarded_assignment : Type := string * Py.result (option info_value).

(** The statements of a [try] body in order: the first exception leaves the
    body, and what was stored before it stays.  The flag tells whether the
    body ran to its end. *)
Fixpoint run_block (steps : list guarded_assignment) (info : gmap string info_value)
  : gmap string info_value * bool :=
  match steps with
  | [] => (info, true)
  | (key, Ok (Some v)) :: rest => run_block rest (<[key := v]> info)
  | (key, Ok None) :: rest => run_block rest info
  | (key, Raise _) :: _ => (info, false)
  end.

(** What the [GetConfiguration()] branch of the rule block reads (lines
    366-378); a failing [GetConfiguration()] is a failing first read. *)
Record rule_configuration : Type := {
  cfg_TrueFor : Py.result (option info_value);
  cfg_Severity : Py.result (option info_value);
}.

(** An [AFAnalysis] object, seen through what [extract_analysis_info_raw]
    and [extract_analysis_info] read of it.  Each field is the outcome of the expression named beside
    it; the debugging lines of a block belong to the read they follow, and
    an expression the function evaluates twice ([analysis.AnalysisRule],
    its [ConfigString]) has the same outcome both times. *)
Record AFAnalysisObject : Type := {
  an_Name : Py.result (option string);         (* [safe_str(analysis.Name)] *)
  an_ID : Py.result (option string);           (* line 207 *)
  an_Description : Py.result (option string);  (* line 208 *)
  an_plugin_name : Py.result (option string);  (* lines 215-219 *)
  an_element_path : Py.result (option string); (* lines 228-231 *)
  an_template_name : Py.result (option string);(* lines 242-245 *)
  an_rule_config : Py.result (option string);  (* lines 252-255, 266-268: [config_str] *)
  an_status : Py.result (option string);       (* lines 275-278: [status_str] *)
  an_schedule_type : Py.result (option string);(* lines 290-298 *)
  an_has_rule : Py.result bool;                (* [hasattr(analysis, "AnalysisRule") and analysis.AnalysisRule] *)
  rule_debug : Py.result unit;                 (* lines 310-315 *)
  rule_Expression : Py.result (option info_value);     (* lines 318-319 *)
  rule_TrueFor : Py.result (option info_value);        (* lines 323-334 *)
  rule_TrueForEnding : Py.result (option info_value);  (* lines 338-345 *)
  rule_EndExpression : Py.result (option info_value);  (* lines 348-349 *)
  rule_Severity : Py.result (option info_value);       (* lines 352-356 *)
  rule_event_frame : Py.result (option rule_configuration); (* lines 361-366 *)
  rule_input_count : Py.result (option info_value);    (* lines 393-394 *)
  rule_output_count : Py.result (option info_value);   (* lines 395-396 *)
  rule_RollupType : Py.result (option info_value);     (* lines 676-677 *)
  rule_RollupSource : Py.result (option info_value);   (* lines 678-679 *)
  an_Severity : Py.result (option info_value);         (* lines 408-409 *)
  an_Version : Py.result Z;                            (* line 415 *)
  an_IsCheckedOut : Py.result (option info_value);     (* lines 424-425 *)
  an_CheckedOutBy : Py.result (option info_value);     (* lines 426-427 *)
  an_CheckedInDate : Py.result (option net_datetime_fields); (* lines 428-429 *)
  an_IsDirty : Py.result bool;                         (* line 435 *)
  an_CreationDate : Py.result (option net_datetime_fields);  (* lines 445-446 *)
  an_CreatedBy : Py.result (option info_value);        (* lines 447-448 *)
  an_ModifyDate : Py.result (option net_datetime_fields);    (* lines 449-450 *)
  an_ModifiedBy : Py.result (option info_value);       (* lines 451-452 *)
}.

(** [try: info[key] = <expression> except Exception: info[key] = None]. *)
Definition or_None (r : Py.result (option string)) : info_value :=
  match r with
  | Ok v => of_str v
  | Raise _ => INone
  end.

(** [info["X"] = convert_net_datetime(<date>.LocalTime)] under its
    condition. *)
Definition date_assignment (r : Py.result (option net_datetime_fields))
  : Py.result (option info_value) :=
  match r with
  | Ok (Some d) => Ok (Some (of_datetime (convert_net_datetime d)))
  | Ok None => Ok None
  | Raise e => Raise e
  end.

(** Lines 256-260: the event frame template name in a configuration
    string. *)
Definition event_frame_template_name (config_str : string) : option string :=
  if negb (String.eqb config_str "") && str_in "EFTNAME=" config_str then
    match str_split "EFTNAME=" config_str with
    | _ :: part :: _ =>
        match str_split ";" part with
        | eft_name :: _ => Some eft_name
        | [] => None
        end
    | _ => None
    end
  else None.

(** Lines 274-286: [IsEnabled] from [status_str]. *)
Definition is_enabled_value (r : Py.result (option string)) : info_value :=
  match r with
  | Ok (Some status_str) =>
      if String.eqb status_str "" then INone
      else IBool (String.eqb status_str "Enabled")
  | _ => INone
  end.

(** Lines 308-383: the rule block. *)
Definition rule_block (analysis : AFAnalysisObject)
    (info : gmap string info_value) : gmap string info_value :=
  match an_has_rule analysis with
  | Ok true =>
      match rule_debug analysis with
      | Ok _ =>
          let '(info, finished) :=
            run_block
              [("StartTrigger", rule_Expression analysis);
               ("TrueFor", rule_TrueFor analysis);
               ("TrueForEnding", rule_TrueForEnding analysis);
               ("EndTrigger", rule_EndExpression analysis);
               ("Severity", rule_Severity analysis)] info in
          if finished then
            (* Also try to get from nested PlugIn config if available *)
            match rule_event_frame analysis with
            | Ok (Some config) =>
                (run_block [("TrueFor", cfg_TrueFor config);
                            ("Severity", cfg_Severity config)] info).1
            | _ => info
            end
          else info
      | Raise _ => info
      end
  | _ => info
  end.

(** Lines 250-262: the event frame template name, when the rule has one. *)
Definition template_name_block (analysis : AFAnalysisObject)
    (info : gmap string info_value) : gmap string info_value :=
  match an_rule_config analysis with
  | Ok (Some config_str) =>
      match event_frame_template_name config_str with
      | Some eft_name => <["EventFrameTemplateName" := IStr eft_name]> info
      | None => info
      end
  | _ => info
  end.

(** Lines 389-398: the input and output counts. *)
Definition counts_block (analysis : AFAnalysisObject)
    (info : gmap string info_value) : gmap string info_value :=
  match an_has_rule analysis with
  | Ok true =>
      (run_block [("InputCount", rule_input_count analysis);
                  ("OutputCount", rule_output_count analysis)] info).1
  | _ => info
  end.

(** Lines 406-412: the severity of the analysis itself, if the rule gave
    none. *)
Definition severity_block (analysis : AFAnalysisObject)
    (info : gmap string info_value) : gmap string info_value :=
  match info !! "Severity" with
  | Some INone | None => (run_block [("Severity", an_Severity analysis)] info).1
  | Some _ => info
  end.

(** Lines 190-459. *)
Definition extract_analysis_info_raw (extraction_time : string)
    (analysis : AFAnalysisObject) (database_name : string)
  : Py.result (gmap string info_value) :=
  (* Basic identification *)
  name ← an_Name analysis;
  id ← an_ID analysis;
  description ← an_Description analysis;
  let info : gmap string info_value :=
    <["DatabaseName" := IStr database_name]>
      (<["Description" := of_str description]>
         (<["Id" := of_str id]> (<["Name" := of_str name]> ∅))) in
  (* Analysis Rule Plugin Name *)
  let info := <["AnalysisRulePlugInName" := or_None (an_plugin_name analysis)]> info in
  (* Analysis Type (derived from plugin name) *)
  let info := <["AnalysisType" := default INone (info !! "AnalysisRulePlugInName")]> info in
  (* Element Path (Target element) *)
  let info := <["ElementPath" := or_None (an_element_path analysis)]> info in
  (* Get Plant Name and Category from element path *)
  let element_path :=
    match info !! "ElementPath" with
    | Some (IStr s) => s
    | _ => ""
    end in
  let info := <["PlantName" := of_str (extract_plant_name element_path)]> info in
  let info :=
    <["PlantCategory" := match determine_plant_category element_path with
                         | Some c => IInt c
                         | None => INone
                         end]> info in
  (* Template Name *)
  let info := <["TemplateName" := or_None (an_template_name analysis)]> info in
  (* Event Frame Template Name (if applicable) *)
  let info := <["EventFrameTemplateName" := INone]> info in
  let info := template_name_block analysis info in
  (* Config Expression *)
  let info := <["ConfigExpression" := or_None (an_rule_config analysis)]> info in
  (* Status and Enabled *)
  let info := <["IsEnabled" := is_enabled_value (an_status analysis)]> info in
  (* Schedule Type / Time Rule *)
  let info := <["ScheduleType" := or_None (an_schedule_type analysis)]> info in
  (* Start Trigger / End Trigger / TrueFor / Severity *)
  let info :=
    <["Severity" := INone]>
      (<["TrueForEnding" := INone]>
         (<["TrueFor" := INone]>
            (<["EndTrigger" := INone]> (<["StartTrigger" := INone]> info)))) in
  let info := rule_block analysis info in
  (* Input/Output counts *)
  let info := <["OutputCount" := IInt 0]> (<["InputCount" := IInt 0]> info) in
  let info := counts_block analysis info in
  (* Rollup information *)
  let info :=
    <["RollupOutputAttribute" := INone]>
      (<["RollupInputAttribute" := INone]>
         (<["RollupSource" := INone]> (<["RollupType" := INone]> info))) in
  (* Severity (if not already set from AnalysisRule) *)
  let info := severity_block analysis info in
  (* Version *)
  let info :=
    <["Version" := IInt (match an_Version analysis with
                         | Ok n => n
                         | Raise _ => 0
                         end)]> info in
  (* Checkout information *)
  let info :=
    <["CheckedInDate" := INone]>
      (<["CheckedOutBy" := INone]> (<["IsCheckedOut" := IBool false]> info)) in
  let info :=
    (run_block [("IsCheckedOut", an_IsCheckedOut analysis);
                ("CheckedOutBy", an_CheckedOutBy analysis);
                ("CheckedInDate", date_assignment (an_CheckedInDate analysis))]
       info).1 in
  (* IsDirty *)
  let info :=
    <["IsDirty" := IBool (match an_IsDirty analysis with
                          | Ok b => b
                          | Raise _ => false
                          end)]> info in
  (* Creation and modification info *)
  let info :=
    <["ModifiedBy" := INone]>
      (<["ModifyDate" := INone]>
         (<["CreatedBy" := INone]> (<["CreateDate" := INone]> info))) in
  let info :=
    (run_block [("CreateDate", date_assignment (an_CreationDate analysis));
                ("CreatedBy", an_CreatedBy analysis);
                ("ModifyDate", date_assignment (an_ModifyDate analysis));
                ("ModifiedBy", an_ModifiedBy analysis)] info).1 in
  (* Extraction timestamp *)
  Ok (<["ExtractedAt" := IStr extraction_time]> info).

(** Lines 669-682: the rollup block of [extract_analysis_info]. *)
Definition rollup_block (analysis : AFAnalysisObject)
    (info : gmap string info_value) : gmap string info_value :=
  match an_has_rule analysis with
  | Ok true =>
      (run_block [("RollupType", rule_RollupType analysis);
                  ("RollupSource", rule_RollupSource analysis)] info).1
  | _ => info
  end.

(** Lines 462-738; the connection argument is never used. *)
Definition extract_analysis_info (extraction_time : string)
    (analysis : AFAnalysisObject)
  : Py.result (gmap string info_value) :=
  (* Basic identification *)
  name ← an_Name analysis;
  id ← an_ID analysis;
  description ← an_Description analysis;
  let info : gmap string info_value :=
    <["Description" := of_str description]>
      (<["Id" := of_str id]> (<["Name" := of_str name]> ∅)) in
  (* Analysis Rule Plugin Name *)
  let info := <["AnalysisRulePlugInName" := or_None (an_plugin_name analysis)]> info in
  (* Analysis Type (derived from plugin name) *)
  let info := <["AnalysisType" := default INone (info !! "AnalysisRulePlugInName")]> info in
  (* Element Path (Target element) *)
  let info := <["ElementPath" := or_None (an_element_path analysis)]> info in
  (* Get Plant Name and Category from element path *)
  let element_path :=
    match info !! "ElementPath" with
    | Some (IStr s) => s
    | _ => ""
    end in
  let info := <["PlantName" := of_str (extract_plant_name element_path)]> info in
  let info :=
    <["PlantCategory" := match determine_plant_category element_path with
                         | Some c => IInt c
                         | None => INone
                         end]> info in
  (* Template Name *)
  let info := <["TemplateName" := or_None (an_template_name analysis)]> info in
  (* Event Frame Template Name (if applicable) *)
  let info := <["EventFrameTemplateName" := INone]> info in
  let info := template_name_block analysis info in
  (* Config Expression *)
  let info := <["ConfigExpression" := or_None (an_rule_config analysis)]> info in
  (* Status and Enabled *)
  let info := <["IsEnabled" := is_enabled_value (an_status analysis)]> info in
  (* Schedule Type / Time Rule *)
  let info := <["ScheduleType" := or_None (an_schedule_type analysis)]> info in
  (* Start Trigger / End Trigger / TrueFor / Severity *)
  let info :=
    <["Severity" := INone]>
      (<["TrueForEnding" := INone]>
         (<["TrueFor" := INone]>
            (<["EndTrigger" := INone]> (<["StartTrigger" := INone]> info)))) in
  let info := rule_block analysis info in
  (* Input/Output counts *)
  let info := <["OutputCount" := IInt 0]> (<["InputCount" := IInt 0]> info) in
  let info := counts_block analysis info in
  (* Rollup information *)
  let info :=
    <["RollupOutputAttribute" := INone]>
      (<["RollupInputAttribute" := INone]>
         (<["RollupSource" := INone]> (<["RollupType" := INone]> info))) in
  let info := rollup_block analysis info in
  (* Severity (if not already set from AnalysisRule) *)
  let info := severity_block analysis info in
  (* Version *)
  let info :=
    <["Version" := IInt (match an_Version analysis with
                         | Ok n => n
                         | Raise _ => 0
                         end)]> info in
  (* Checkout information *)
  let info :=
    <["CheckedInDate" := INone]>
      (<["CheckedOutBy" := INone]> (<["IsCheckedOut" := IBool false]> info)) in
  let info :=
    (run_block [("IsCheckedOut", an_IsCheckedOut analysis);
                ("CheckedOutBy", an_CheckedOutBy analysis);
                ("CheckedInDate", date_assignment (an_CheckedInDate analysis))]
       info).1 in
  (* IsDirty *)
  let info :=
    <["IsDirty" := IBool (match an_IsDirty analysis with
                          | Ok b => b
                          | Raise _ => false
                          end)]> info in
  (* Creation and modification info *)
  let info :=
    <["ModifiedBy" := INone]>
      (<["ModifyDate" := INone]>
         (<["CreatedBy" := INone]> (<["CreateDate" := INone]> info))) in
  let info :=
    (run_block [("CreateDate", date_assignment (an_CreationDate analysis));
                ("CreatedBy", an_CreatedBy analysis);
                ("ModifyDate", date_assignment (an_ModifyDate analysis));
                ("ModifiedBy", an_ModifiedBy analysis)] info).1 in
  (* Extraction timestamp *)
  Ok (<["ExtractedAt" := IStr extraction_time]> info).

(** Two dictionaries with the same entries outside the keys [D]. *)
Definition agree_outside (D : list string) (m1 m2 : gmap string info_value)
  : Prop :=
  forall k, k ∉ D -> m1 !! k = m2 !! k.

(** The keys of an analysis dictionary. *)
Definition analysis_keys : list string :=
  ["Name"; "Id"; "Description"; "DatabaseName"; "AnalysisRulePlugInName";
   "AnalysisType"; "ElementPath"; "PlantName"; "PlantCategory"; "TemplateName";
   "EventFrameTemplateName"; "ConfigExpression"; "IsEnabled"; "ScheduleType";
   "StartTrigger"; "EndTrigger"; "TrueFor"; "TrueForEnding"; "Severity";
   "InputCount"; "OutputCount"; "RollupType"; "RollupSource";
   "RollupInputAttribute"; "RollupOutputAttribute"; "Version"; "IsCheckedOut";
   "CheckedOutBy"; "CheckedInDate"; "IsDirty"; "CreateDate"; "CreatedBy";
   "ModifyDate"; "ModifiedBy"; "ExtractedAt"].

(** An event frame analysis whose rule fails half way, and one whose
    description cannot be read. *)
Definition sample_analysis : AFAnalysisObject :=
  {| an_Name := Ok (Some "Turbine trip");
     an_ID := Ok (Some "a1b2");
     an_Description := Ok None;
     an_plugin_name := Ok (Some "EventFrame");
     an_element_path := Ok (Some "\\GENCOPI\Plants\Hydro\Karakaya\Unit 1");
     an_template_name := Raise (SdkError "no template");
     an_rule_config := Ok (Some "EFTGUID=12;EFTNAME=Trip;SEVERITY=2");
     an_status := Ok (Some "Enabled");
     an_schedule_type := Ok (Some "Periodic");
     an_has_rule := Ok true;
     rule_debug := Ok tt;
     rule_Expression := Ok (Some (IStr "'Speed' > 3000"));
     rule_TrueFor := Raise (SdkError "not an event frame rule");
     rule_TrueForEnding := Ok (Some (IStr "00:00:10"));
     rule_EndExpression := Ok None;
     rule_Severity := Ok None;
     rule_event_frame := Ok None;
     rule_input_count := Ok (Some (IInt 2));
     rule_output_count := Raise (SdkError "no outputs");
     rule_RollupType := Ok (Some (IStr "Sum"));
     rule_RollupSource := Ok None;
     an_Severity := Ok (Some (IStr "Major"));
     an_Version := Raise (SdkError "no version");
     an_IsCheckedOut := Ok (Some (IBool true));
     an_CheckedOutBy := Ok (Some (IStr "operator"));
     an_CheckedInDate :=
       Ok (Some {| Year := 2024; Month := 2; Day := 29; Hour := 23;
                   Minute := 59; Second := 59; Millisecond := 999 |});
     an_IsDirty := Ok false;
     an_CreationDate :=
       Ok (Some {| Year := 2023; Month := 2; Day := 29; Hour := 0;
                   Minute := 0; Second := 0; Millisecond := 0 |});
     an_CreatedBy := Ok None;
     an_ModifyDate := Ok None;
     an_ModifiedBy := Ok (Some (IStr "engineer")) |}.

Definition unreadable_analysis : AFAnalysisObject :=
  {| an_Name := Ok (Some "Broken");
     an_ID := Ok (Some "dead");
     an_Description := Raise (SdkError "object was deleted");
     an_plugin_name := an_plugin_name sample_analysis;
     an_element_path := an_element_path sample_analysis;
     an_template_name := an_template_name sample_analysis;
     an_rule_config := an_rule_config sample_analysis;
     an_status := an_status sample_analysis;
     an_schedule_type := an_schedule_type sample_analysis;
     an_has_rule := an_has_rule sample_analysis;
     rule_debug := rule_debug sample_analysis;
     rule_Expression := rule_Expression sample_analysis;
     rule_TrueFor := rule_TrueFor sample_analysis;
     rule_TrueForEnding := rule_TrueForEnding sample_analysis;
     rule_EndExpression := rule_EndExpression sample_analysis;
     rule_Severity := rule_Severity sample_analysis;
     rule_event_frame := rule_event_frame sample_analysis;
     rule_input_count := rule_input_count sample_analysis;
     rule_output_count := rule_output_count sample_analysis;
     rule_RollupType := rule_RollupType sample_analysis;
     rule_RollupSource := rule_RollupSource sample_analysis;
     an_Severity := an_Severity sample_analysis;
     an_Version := an_Version sample_analysis;
     an_IsCheckedOut := an_IsCheckedOut sample_analysis;
     an_CheckedOutBy := an_CheckedOutBy sample_analysis;
     an_CheckedInDate := an_CheckedInDate sample_analysis;
     an_IsDirty := an_IsDirty sample_analysis;
     an_CreationDate := an_CreationDate sample_analysis;
     an_CreatedBy := an_CreatedBy sample_analysis;
     an_ModifyDate := an_ModifyDate sample_analysis;
     an_ModifiedBy := an_ModifiedBy sample_analysis |}.

(** A server with one readable database, holding the two analyses above,
    and one that refuses access. *)
Definition analyses_systems (af_server : string)
  : option (PISystem AFAnalysisObject) :=
  Some {| Connect := Ok tt;
          Databases :=
            Ok [ {| db_Name := Ok "Plants";
                    db_Analyses := Ok [sample_analysis; unreadable_analysis] |};
                 {| db_Name := Ok "Archive";
                    db_Analyses := Raise (SdkError "access denied") |} ];
          Disconnect := Ok tt |}.

(** * Properties *)

(** ** Value conversion *)

Lemma convert_value_ok (af_value : AFValue) (v : PIValue) :
  _convert_value af_value = Ok v ->
  convert_raw_value (Value af_value) = Ok (value v) /\
  timestamp v = Timestamp_LocalTime af_value /\
  quality v = convert_quality af_value.
Proof.
  unfold _convert_value.
  destruct (convert_raw_value (Value af_value)) as [raw|e]; cbn; [|discriminate].
  intros [= <-]. cbn. auto.
Qed.

Lemma convert_value_of_raw (af_value : AFValue) (raw : py_value) :
  convert_raw_value (Value af_value) = Ok raw ->
  _convert_value af_value =
    Ok {| timestamp := Timestamp_LocalTime af_value;
          value := raw;
          quality := convert_quality af_value |}.
Proof. unfold _convert_value. now intros ->. Qed.

(** A Python native goes through the conversion as it is. *)
Lemma convert_raw_value_native (raw : py_value) :
  getattr_Name raw = None -> getattr_ToString raw = None ->
  convert_raw_value raw = Ok raw.
Proof. unfold convert_raw_value. now intros -> ->. Qed.

(** The conversion raises only what [float] raises outside [ValueError] and
    [TypeError]. *)
Lemma convert_raw_value_raises (raw : py_value) (e : Py.exn) :
  convert_raw_value raw = Raise e ->
  exists o, raw = PyObject o /\ net_float o = Raise e /\
            Py.caught_by [ValueError; TypeError] e = false.
Proof.
  unfold convert_raw_value.
  destruct (getattr_Name raw); [discriminate|].
  destruct (getattr_ToString raw); [|discriminate].
  destruct raw as [| | | | |o]; try discriminate.
  destruct (net_float o) as [x|e'] eqn:Hf; [discriminate|].
  destruct (Py.caught_by _ e') eqn:Hc; [discriminate|].
  intros [= <-]. eauto.
Qed.

Lemma convert_quality_cases (af_value : AFValue) :
  (is_False (IsGood af_value) = true /\ convert_quality af_value = BAD) \/
  (is_False (IsGood af_value) = false /\ substituted_flag af_value = true /\
   convert_quality af_value = SUBSTITUTED) \/
  (is_False (IsGood af_value) = false /\ substituted_flag af_value = false /\
   convert_quality af_value = GOOD).
Proof.
  unfold convert_quality.
  destruct (is_False (IsGood af_value)); [now left|].
  destruct (substituted_flag af_value); [right; left | right; right]; auto.
Qed.

(** C1, as the specification words it, fails: the value of an Int32 point
    reaches the extractor as a Python [int], which has neither [Name] nor
    [ToString]; no numeric coercion is attempted and the result is that
    [int], neither a float nor a string.  Likewise the text "12.5" of a
    String point stays a string, though [float("12.5")] would succeed. *)
Lemma convert_value_int_not_coerced :
  (exists v, _convert_value af_int32 = Ok v /\
             getattr_Name (Value af_int32) = None /\
             value v = PyInt 42 /\
             ~ (is_float (value v) = true \/ is_str (value v) = true)) /\
  (exists v, _convert_value af_numeral_string = Ok v /\
             getattr_Name (Value af_numeral_string) = None /\
             value v = PyStr "12.5" /\ is_float (value v) = false).
Proof.
  split; (eexists; split; [reflexivity|]); cbn; repeat split.
  intros [H|H]; discriminate H.
Qed.

(** C1 (amended): for every raw value [_convert_value] converts, a value
    that has a [Name] (a digital state) becomes that name as a string; a
    value without [Name] that has [ToString] (a proxied object) becomes
    [float(value)] when that succeeds and the [ToString()] text when it
    raises [ValueError] or [TypeError]; a value with neither attribute (a
    native [int], [float], [str], [bool] or [None]) is returned unchanged.
    The quality is BAD when [IsGood is False], else SUBSTITUTED when the
    value is flagged substituted, and GOOD otherwise. *)
Theorem convert_value_rule (af_value : AFValue) (v : PIValue) :
  _convert_value af_value = Ok v ->
  (forall name, getattr_Name (Value af_value) = Some name ->
     value v = PyStr name) /\
  (forall o text,
     Value af_value = PyObject o -> net_Name o = None ->
     net_ToString o = Some text ->
     match net_float o with
     | Ok x => value v = PyFloat x
     | Raise e =>
         Py.caught_by [ValueError; TypeError] e = true /\ value v = PyStr text
     end) /\
  (getattr_Name (Value af_value) = None ->
   getattr_ToString (Value af_value) = None ->
   value v = Value af_value) /\
  (quality v = GOOD <->
     is_False (IsGood af_value) = false /\ substituted_flag af_value = false) /\
  (quality v = BAD <-> is_False (IsGood af_value) = true) /\
  (quality v = SUBSTITUTED <->
     is_False (IsGood af_value) = false /\ substituted_flag af_value = true).
Proof.
  intros H. apply convert_value_ok in H as (Hraw & _ & Hq).
  split; [|split; [|split]].
  - intros name Hn. unfold convert_raw_value in Hraw. rewrite Hn in Hraw.
    now injection Hraw as <-.
  - intros o text Ho Hn Ht.
    unfold convert_raw_value, getattr_Name, getattr_ToString in Hraw.
    rewrite Ho, Hn, Ht in Hraw.
    destruct (net_float o) as [x|e]; [now injection Hraw as <-|].
    destruct (Py.caught_by _ e); [|discriminate Hraw].
    split; [reflexivity|]. now injection Hraw as <-.
  - intros Hn Ht. rewrite (convert_raw_value_native _ Hn Ht) in Hraw.
    now injection Hraw as <-.
  - rewrite Hq.
    destruct (convert_quality_cases af_value)
      as [[Hg ->]|[(Hg & Hs & ->)|(Hg & Hs & ->)]]; rewrite Hg; try rewrite Hs;
      repeat split; try tauto; try discriminate;
      intros [? ?]; discriminate.
Qed.

Lemma convert_value_rule_witness :
  _convert_value af_text_substituted =
    Ok {| timestamp := 638000000000000002; value := PyStr "n/a";
          quality := SUBSTITUTED |} /\
  (quality {| timestamp := 638000000000000002; value := PyStr "n/a";
              quality := SUBSTITUTED |} = SUBSTITUTED <->
   is_False (IsGood af_text_substituted) = false /\
   substituted_flag af_text_substituted = true).
Proof.
  split; [reflexivity|].
  apply (convert_value_rule af_text_substituted
           {| timestamp := 638000000000000002; value := PyStr "n/a";
              quality := SUBSTITUTED |}).
  reflexivity.
Defined.

(** C9: in [_convert_value] BAD takes precedence over SUBSTITUTED.  A raw
    value whose [IsGood] is [False] gets quality BAD even when it is also
    flagged substituted, and SUBSTITUTED is given only to values whose
    [IsGood] is not [False]: no converted value is SUBSTITUTED and not good
    upstream at once. *)
Theorem bad_precedes_substituted (af_value : AFValue) (v : PIValue) :
  _convert_value af_value = Ok v ->
  (is_False (IsGood af_value) = true -> quality v = BAD) /\
  (quality v = SUBSTITUTED ->
     is_False (IsGood af_value) = false /\ substituted_flag af_value = true) /\
  ~ (quality v = SUBSTITUTED /\ is_False (IsGood af_value) = true).
Proof.
  intros H. apply convert_value_ok in H as (_ & _ & ->).
  destruct (convert_quality_cases af_value)
    as [[Hg ->]|[(Hg & Hs & ->)|(Hg & Hs & ->)]]; rewrite Hg;
    repeat split; auto; try discriminate; intros [? ?]; discriminate.
Qed.

Lemma bad_precedes_substituted_witness :
  _convert_value af_bad_substituted =
    Ok {| timestamp := 638000000000000001; value := PyStr "Shutdown";
          quality := BAD |} /\
  substituted_flag af_bad_substituted = true /\
  (is_False (IsGood af_bad_substituted) = true ->
   quality {| timestamp := 638000000000000001; value := PyStr "Shutdown";
              quality := BAD |} = BAD).
Proof.
  split; [reflexivity|]. split; [reflexivity|].
  apply (bad_precedes_substituted af_bad_substituted
           {| timestamp := 638000000000000001; value := PyStr "Shutdown";
              quality := BAD |}).
  reflexivity.
Defined.

(** ** Sequencing *)

Lemma bind_Ok_inv {A B} (m : Py.result A) (k : A -> Py.result B) (b : B) :
  (m ≫= k) = Ok b -> exists a, m = Ok a /\ k a = Ok b.
Proof. destruct m as [a|e]; cbn; [eauto | discriminate]. Qed.

Lemma comprehension_Ok {A B} (f : A -> Py.result B) (l : list A) (bs : list B) :
  Py.comprehension f l = Ok bs <-> Forall2 (fun a b => f a = Ok b) l bs.
Proof.
  revert bs. induction l as [|a l IH]; intros bs; cbn.
  - split; [intros [= <-]; constructor | now inversion 1].
  - destruct (f a) as [b|e] eqn:Hf; cbn.
    + destruct (Py.comprehension f l) as [bs'|e] eqn:Hl; cbn.
      * split.
        -- intros [= <-]. constructor; [exact Hf | now apply IH].
        -- inversion 1 as [|? b' ? bs'' Hb Hbs]; subst.
           rewrite Hf in Hb. injection Hb as <-.
           apply IH in Hbs. now injection Hbs as <-.
      * split; [discriminate|].
        inversion 1 as [|? b' ? bs'' Hb Hbs]; subst.
        apply IH in Hbs. discriminate.
    + split; [discriminate|].
      inversion 1 as [|? b' ? bs'' Hb Hbs]; subst. rewrite Hf in Hb. discriminate.
Qed.

(** ** Point configuration *)

Lemma get_point_config_point_type (conn : PIServerConnection) (tag_name : string)
    (cfg : PointConfig) :
  get_point_config conn tag_name = Ok cfg ->
  exists point attrs,
    get_point conn tag_name = Ok point /\
    GetAttributes point config_attributes = Ok attrs /\
    point_type cfg =
      default FLOAT64 (point_type_map !! attr_get_str attrs "pointtype" "Float32").
Proof.
  unfold get_point_config. intros H.
  apply bind_Ok_inv in H as (point & Hpoint & H).
  apply bind_Ok_inv in H as (attrs & Hattrs & H).
  do 5 (apply bind_Ok_inv in H as (? & _ & H)). cbn in H. injection H as <-.
  exists point, attrs. auto.
Qed.

Lemma point_type_map_unknown (s : string) :
  point_type_map !! s = None <->
  s ∉ ["Float16"; "Float32"; "Float64"; "Int16"; "Int32"; "Digital";
       "Timestamp"; "String"; "Blob"].
Proof. unfold point_type_map. now rewrite <- not_elem_of_list_to_map. Qed.

Lemma all_PointType_complete (t : PointType) : In t all_PointType.
Proof. destruct t; cbn; tauto. Qed.

(** C10: [get_point_config] always returns a [point_type] of the
    [PointType] enum, with an asymmetric fallback: when the upstream
    attributes have no "pointtype" the type is FLOAT32, and when the
    attribute is there with a string the map does not know, the type is
    FLOAT64. *)
Theorem point_type_fallback (conn : PIServerConnection) (tag_name : string)
    (cfg : PointConfig) :
  get_point_config conn tag_name = Ok cfg ->
  In (point_type cfg) all_PointType /\
  exists point attrs,
    get_point conn tag_name = Ok point /\
    GetAttributes point config_attributes = Ok attrs /\
    (attrs !! "pointtype" = None -> point_type cfg = FLOAT32) /\
    (forall v, attrs !! "pointtype" = Some v ->
       attr_str v ∉ ["Float16"; "Float32"; "Float64"; "Int16"; "Int32";
                     "Digital"; "Timestamp"; "String"; "Blob"] ->
       point_type cfg = FLOAT64) /\
    (forall v t, attrs !! "pointtype" = Some v ->
       point_type_map !! attr_str v = Some t -> point_type cfg = t).
Proof.
  intros H. split; [apply all_PointType_complete|].
  apply get_point_config_point_type in H as (point & attrs & Hp & Ha & ->).
  exists point, attrs. repeat split; auto; unfold attr_get_str.
  - now intros ->.
  - intros v -> Hv. apply point_type_map_unknown in Hv. now rewrite Hv.
  - intros v t -> Ht. now rewrite Ht.
Qed.

Lemma point_type_fallback_witness :
  exists cfg,
    get_point_config sample_conn "SINUSOID" = Ok cfg /\
    In (point_type cfg) all_PointType /\ point_type cfg = FLOAT64.
Proof.
  eexists. split; [reflexivity|].
  destruct (point_type_fallback sample_conn "SINUSOID" _ eq_refl)
    as (Hin & point & attrs & Hp & Ha & _ & Hunknown & _).
  split; [exact Hin|].
  injection Hp as <-. injection Ha as <-.
  apply (Hunknown (attr_text "Float128")); [reflexivity|].
  cbn. intros Hmem. repeat (apply elem_of_cons in Hmem as [Hmem|Hmem]; [discriminate Hmem|]).
  now apply elem_of_nil in Hmem.
Defined.

(** The same fallbacks on a point that reports no attribute: FLOAT32. *)
Example point_type_absent :
  point_type <$> (match get_point_config sample_conn "BARE" with
                  | Ok cfg => Some cfg | Raise _ => None end) = Some FLOAT32.
Proof. reflexivity. Qed.

(** C8: a [PointConfig] built from the required fields alone (name,
    point_id, point_type) is built without raising, and every optional field
    has its default: [None] for the alarm thresholds, the rate-of-change
    limits, interface_id, source_point_id and conversion_factor, and the
    empty string for interface_name, scan_time, source_point_name,
    device_name and alias. *)
Theorem PointConfig_required_only (n : string) (i : Z) (t : PointType) :
  exists cfg,
    PointConfig_init (Some n) (Some i) (Some t) no_kwargs = Ok cfg /\
    name cfg = n /\ point_id cfg = i /\ point_type cfg = t /\
    value_high_alarm cfg = None /\ value_low_alarm cfg = None /\
    value_high_warning cfg = None /\ value_low_warning cfg = None /\
    roc_high_value cfg = None /\ roc_low_value cfg = None /\
    interface_id cfg = None /\ source_point_id cfg = None /\
    conversion_factor cfg = None /\
    interface_name cfg = "" /\ scan_time cfg = "" /\
    source_point_name cfg = "" /\ device_name cfg = "" /\ alias cfg = "".
Proof. eexists. split; [reflexivity|]. cbn. repeat split. Qed.

(** [get_point_config] passes only the basic keywords, so the configuration
    it returns has every extended field at its default. *)
Lemma get_point_config_extended_defaults (conn : PIServerConnection)
    (tag_name : string) (cfg : PointConfig) :
  get_point_config conn tag_name = Ok cfg ->
  name cfg = tag_name /\
  value_high_alarm cfg = None /\ value_low_alarm cfg = None /\
  value_high_warning cfg = None /\ value_low_warning cfg = None /\
  roc_high_value cfg = None /\ roc_low_value cfg = None /\
  interface_id cfg = None /\ source_point_id cfg = None /\
  conversion_factor cfg = None /\
  interface_name cfg = "" /\ scan_time cfg = "" /\
  source_point_name cfg = "" /\ device_name cfg = "" /\ alias cfg = "".
Proof.
  unfold get_point_config. intros H.
  do 7 (apply bind_Ok_inv in H as (? & _ & H)). cbn in H. injection H as <-. cbn. repeat split.
Qed.

(** ** Recorded values *)

Lemma convert_all_timestamps (af_values : list AFValue) (vs : list PIValue) :
  Forall2 (fun a v => _convert_value a = Ok v) af_values vs ->
  map timestamp vs = map Timestamp_LocalTime af_values.
Proof.
  induction 1 as [|a v l vs Hav _ IH]; cbn; [reflexivity|].
  apply convert_value_ok in Hav as (_ & -> & _). now rewrite IH.
Qed.

Lemma recorded_values_Ok (conn : PIServerConnection) (tag_name : string)
    (start end_ : PITimestamp) (options : option RecordedValuesOptions)
    (vs : list PIValue) :
  recorded_values conn tag_name start end_ options = Ok vs <->
  exists point af_values,
    get_point conn tag_name = Ok point /\
    RecordedValues point (_create_time_range start end_)
      (boundary_map (boundary_type (default RecordedValuesOptions_default options)))
      (filter_expression (default RecordedValuesOptions_default options))
      (include_filtered_values (default RecordedValuesOptions_default options))
      (max_count (default RecordedValuesOptions_default options))
      = Ok af_values /\
    Forall2 (fun a v => _convert_value a = Ok v) af_values vs.
Proof.
  unfold recorded_values. split.
  - intros H.
    apply bind_Ok_inv in H as (point & Hp & H).
    apply bind_Ok_inv in H as (af_values & Ha & H).
    apply comprehension_Ok in H. eauto.
  - intros (point & af_values & -> & Ha & H). cbn. rewrite Ha. cbn.
    now apply comprehension_Ok.
Qed.

Lemma convert_all_returns (af_values : list AFValue) :
  Forall (fun a => Py.returns (_convert_value a) = true) af_values ->
  exists vs, Forall2 (fun a v => _convert_value a = Ok v) af_values vs.
Proof.
  induction 1 as [|a l Ha _ [vs IH]]; [exists []; constructor|].
  destruct (_convert_value a) as [v|e] eqn:Hv; [|discriminate Ha].
  exists (v :: vs). now constructor.
Qed.

(** C3, as the specification words it, fails: nothing in [recorded_values]
    orders the values or removes a repeated timestamp.  A server that
    answers an inside-boundary request out of time order, with one
    timestamp twice, gets its answer back as it gave it. *)
Lemma recorded_values_unsorted_answer :
  exists vs,
    recorded_values unsorted_conn "CDT158" (Ts_str "*-1d") (Ts_str "*") None
      = Ok vs /\
    map timestamp vs = [200; 100; 100] /\
    ~ StronglySorted Z.lt (map timestamp vs) /\
    ~ NoDup (map timestamp vs).
Proof.
  eexists. split; [reflexivity|]. split; [reflexivity|]. cbn. split.
  - intros H. apply StronglySorted_inv in H as [_ H].
    apply Forall_cons in H as [H _]. lia.
  - intros H. apply NoDup_cons in H as [_ H]. apply NoDup_cons in H as [H _].
    apply H. now left.
Qed.

(** C3 (amended): [recorded_values] sends the server one request, with the
    range as given, the boundary policy mapped one to one (inside, outside,
    interpolated edges), the filter expression, the filtered-values flag and
    the result cap of the options (inside, none, excluded and 0 when no
    options are passed; 0 goes to the server as it is), and returns the
    server's answer converted value by value: the same events in the same
    order, none added, dropped or truncated.  The result is in strictly
    ascending timestamp order, and free of duplicate timestamps, exactly
    when the server's answer is. *)
Theorem recorded_values_in_server_order (conn : PIServerConnection)
    (tag_name : string) (start end_ : PITimestamp)
    (options : option RecordedValuesOptions)
    (point : PIPoint) (af_values : list AFValue) :
  let text := fun t => match t with
                       | Ts_datetime s | Ts_AFTime s | Ts_str s => s
                       end in
  let opts := match options with
              | Some o => o
              | None => {| boundary_type := INSIDE; filter_expression := None;
                           include_filtered_values := false; max_count := 0 |}
              end in
  get_point conn tag_name = Ok point ->
  RecordedValues point
    {| StartTime := {| time_string := text start |};
       EndTime := {| time_string := text end_ |} |}
    match boundary_type opts with
    | INSIDE => Inside
    | OUTSIDE => Outside
    | INTERPOLATED => Interpolated
    end
    (filter_expression opts) (include_filtered_values opts) (max_count opts)
    = Ok af_values ->
  (Forall (fun a => Py.returns (_convert_value a) = true) af_values ->
   exists vs, recorded_values conn tag_name start end_ options = Ok vs) /\
  (forall vs,
     recorded_values conn tag_name start end_ options = Ok vs ->
     Forall2 (fun a v => _convert_value a = Ok v) af_values vs /\
     map timestamp vs = map Timestamp_LocalTime af_values /\
     length vs = length af_values /\
     (StronglySorted Z.lt (map timestamp vs) <->
      StronglySorted Z.lt (map Timestamp_LocalTime af_values)) /\
     (NoDup (map timestamp vs) <-> NoDup (map Timestamp_LocalTime af_values))).
Proof.
  intros text opts Hp Ha.
  assert (Hrun : forall vs,
            recorded_values conn tag_name start end_ options = Ok vs <->
            Forall2 (fun a v => _convert_value a = Ok v) af_values vs).
  { intros vs. rewrite recorded_values_Ok. split.
    - intros (point' & l & Hp' & Hl & Hvs).
      rewrite Hp in Hp'. injection Hp' as <-.
      assert (Heq : Ok l = Ok af_values)
        by (rewrite <- Hl; destruct options as [o|], start, end_; exact Ha).
      now injection Heq as <-.
    - intros Hvs. exists point, af_values. split; [exact Hp|].
      split; [|exact Hvs].
      destruct options as [o|], start, end_; exact Ha. }
  split.
  - intros Hconv. destruct (convert_all_returns _ Hconv) as [vs Hvs].
    exists vs. now apply Hrun.
  - intros vs Hvs. apply Hrun in Hvs.
    pose proof (convert_all_timestamps _ _ Hvs) as Hts.
    split; [exact Hvs|]. split; [exact Hts|].
    split; [symmetry; eapply Forall2_length; exact Hvs|].
    now rewrite Hts.
Qed.

Lemma recorded_values_in_server_order_witness :
  exists vs,
    recorded_values sample_conn "SINUSOID" (Ts_str "*-1d") (Ts_str "*")
      (Some {| boundary_type := OUTSIDE; filter_expression := None;
               include_filtered_values := false; max_count := 2 |}) = Ok vs /\
    map timestamp vs = [50; 100] /\
    StronglySorted Z.lt (map timestamp vs).
Proof.
  destruct (recorded_values_in_server_order sample_conn "SINUSOID"
              (Ts_str "*-1d") (Ts_str "*")
              (Some {| boundary_type := OUTSIDE; filter_expression := None;
                       include_filtered_values := false; max_count := 2 |})
              (sample_point {[ "pointtype" := attr_text "Float128" ]})
              [event 50 (PyFloat 0.5); event 100 (PyFloat 1.5)]
              eq_refl eq_refl)
    as [Hruns Horder].
  destruct Hruns as [vs Hvs]; [repeat constructor|].
  destruct (Horder vs Hvs) as (_ & Hts & _ & Hsorted & _).
  exists vs. split; [exact Hvs|]. split; [exact Hts|].
  apply Hsorted. repeat constructor; lia.
Defined.

(** The cap and the boundary reach the server as requested. *)
Example recorded_values_capped :
  recorded_values sample_conn "SINUSOID" (Ts_str "*-1d") (Ts_str "*")
    (Some {| boundary_type := OUTSIDE; filter_expression := None;
             include_filtered_values := false; max_count := 2 |})
  = Ok [ {| timestamp := 50; value := PyFloat 0.5; quality := GOOD |};
         {| timestamp := 100; value := PyFloat 1.5; quality := GOOD |} ].
Proof. reflexivity. Qed.

(** ** The paginated iterator *)

Lemma consume_Created (n : nat) (conn : PIServerConnection) (tag_name : string)
    (start end_ : PITimestamp) (page_size : Z) :
  consume (S n) (Created conn tag_name start end_ page_size) =
  match iterator_open conn tag_name start end_ page_size with
  | Ok af_values => consume (S n) (Suspended af_values 0)
  | Raise e => ([], Failed e)
  end.
Proof.
  cbn. destruct (iterator_open conn tag_name start end_ page_size); reflexivity.
Qed.

Lemma consume_Suspended_event (n k : nat) (af_values : AFValues_paged)
    (a : AFValue) :
  af_values k = Ok (Some a) ->
  consume (S n) (Suspended af_values k) =
  match _convert_value a with
  | Ok v => let '(vs, e) := consume n (Suspended af_values (S k)) in (v :: vs, e)
  | Raise e => ([], Failed e)
  end.
Proof.
  intros Hk. cbn. unfold iterator_loop. rewrite Hk.
  destruct (_convert_value a); reflexivity.
Qed.

Lemma delivers_cons (af_values : AFValues_paged) (k : nat) (a : AFValue)
    (l : list AFValue) :
  delivers af_values k (a :: l) <->
  af_values k = Ok (Some a) /\ delivers af_values (S k) l.
Proof.
  unfold delivers. split.
  - intros H. split.
    + specialize (H 0%nat a eq_refl). now rewrite Nat.add_0_r in H.
    + intros i b Hb. specialize (H (S i) b Hb).
      now rewrite Nat.add_succ_r in H.
  - intros [Hk H] [|i] b Hb.
    + cbn in Hb. injection Hb as <-. now rewrite Nat.add_0_r.
    + rewrite Nat.add_succ_r. now apply (H i b).
Qed.

(** Pulling from a generator suspended at position [k] takes the events
    from [k] on, one per pull, and leaves the enumerator behind the last
    one taken. *)
Lemma consume_prefix (af_values : AFValues_paged) (l : list AFValue)
    (vs : list PIValue) (k : nat) :
  delivers af_values k l ->
  Forall2 (fun a v => _convert_value a = Ok v) l vs ->
  consume (length l) (Suspended af_values k)
  = (vs, Pulling (Suspended af_values (k + length l))).
Proof.
  intros Hd H. revert k Hd. induction H as [|a v l vs Hav _ IH]; intros k Hd.
  - cbn. now rewrite Nat.add_0_r.
  - apply delivers_cons in Hd as [Hk Hd]. cbn [length].
    rewrite (consume_Suspended_event _ _ _ _ Hk), Hav, (IH _ Hd).
    now rewrite Nat.add_succ_r.
Qed.

(** One pull more than there are events ends the loop. *)
Lemma consume_all (af_values : AFValues_paged) (l : list AFValue)
    (vs : list PIValue) (k : nat) :
  delivers af_values k l -> af_values (k + length l)%nat = Ok None ->
  Forall2 (fun a v => _convert_value a = Ok v) l vs ->
  consume (S (length l)) (Suspended af_values k) = (vs, Exhausted).
Proof.
  intros Hd Hend H. revert k Hd Hend.
  induction H as [|a v l vs Hav _ IH]; intros k Hd Hend.
  - cbn in *. unfold iterator_loop. rewrite Nat.add_0_r in Hend.
    now rewrite Hend.
  - apply delivers_cons in Hd as [Hk Hd]. cbn [length] in *.
    rewrite Nat.add_succ_r in Hend.
    now rewrite (consume_Suspended_event _ _ _ _ Hk), Hav, (IH _ Hd Hend).
Qed.

Lemma consume_Exhausted_inv (n k : nat) (af_values : AFValues_paged)
    (vs : list PIValue) :
  consume n (Suspended af_values k) = (vs, Exhausted) ->
  exists l, delivers af_values k l /\
            af_values (k + length l)%nat = Ok None /\
            Forall2 (fun a v => _convert_value a = Ok v) l vs.
Proof.
  revert k vs. induction n as [|n IH]; intros k vs; [discriminate|].
  cbn [consume next]. unfold iterator_loop.
  destruct (af_values k) as [[a|]|e] eqn:Hk; [| |discriminate].
  - destruct (_convert_value a) as [v|e] eqn:Hav; [|discriminate].
    destruct (consume n (Suspended af_values (S k))) as [vs' e'] eqn:Hn.
    intros [= <- ->]. apply IH in Hn as (l & Hd & Hend & Hvs).
    exists (a :: l). split; [now apply delivers_cons|].
    split; [cbn [length]; now rewrite Nat.add_succ_r|]. now constructor.
  - intros [= <-]. exists []. split; [intros i a Hi; discriminate Hi|].
    split; [cbn; now rewrite Nat.add_0_r | constructor].
Qed.

(** A loop over an enumeration that ends is over after one pull more than
    it has events, whatever the conversions do. *)
Lemma consume_ends (af_values : AFValues_paged) (l : list AFValue) (k : nat) :
  delivers af_values k l -> af_values (k + length l)%nat = Ok None ->
  ended (consume (S (length l)) (Suspended af_values k)).2 = true.
Proof.
  revert k. induction l as [|a l IH]; intros k Hd Hend.
  - cbn in *. unfold iterator_loop. rewrite Nat.add_0_r in Hend.
    now rewrite Hend.
  - apply delivers_cons in Hd as [Hk Hd]. cbn [length] in *.
    rewrite Nat.add_succ_r in Hend.
    rewrite (consume_Suspended_event _ _ _ _ Hk).
    destruct (_convert_value a); [|reflexivity].
    specialize (IH _ Hd Hend).
    now destruct (consume (S (length l)) (Suspended af_values (S k))).
Qed.

(** A loop that is over stays as it is when more pulls are allowed. *)
Lemma consume_ended_more (n m : nat) (g : generator) :
  ended (consume n g).2 = true -> consume (n + m) g = consume n g.
Proof.
  revert g. induction n as [|n IH]; intros g; [discriminate|].
  cbn [consume Nat.add]. destruct (next g) as [[v| |e] g']; try reflexivity.
  specialize (IH g'). destruct (consume n g') as [vs e'] eqn:Hn.
  cbn [snd]. intros He. now rewrite (IH He).
Qed.

(** An enumeration has one sequence of events. *)
Lemma enumerates_inj (af_values : AFValues_paged) (l l' : list AFValue) :
  enumerates af_values l -> enumerates af_values l' -> l = l'.
Proof.
  intros [Hd Hend] [Hd' Hend'].
  assert (Hlen : length l = length l').
  { destruct (Nat.lt_trichotomy (length l) (length l')) as [Hlt|[Heq|Hgt]];
      [|exact Heq|].
    - destruct (lookup_lt_is_Some_2 l' (length l) Hlt) as [a Ha].
      specialize (Hd' _ _ Ha). cbn in Hd'. congruence.
    - destruct (lookup_lt_is_Some_2 l (length l') Hgt) as [a Ha].
      specialize (Hd _ _ Ha). cbn in Hd. congruence. }
  apply list_eq. intros i.
  destruct (l !! i) as [a|] eqn:Ha.
  - destruct (lookup_lt_is_Some_2 l' i) as [a' Ha'].
    { rewrite <- Hlen. eapply lookup_lt_Some, Ha. }
    specialize (Hd _ _ Ha). specialize (Hd' _ _ Ha'). cbn in Hd, Hd'.
    congruence.
  - symmetry. apply lookup_ge_None. rewrite <- Hlen.
    now apply lookup_ge_None.
Qed.

(** C7, as the specification words it, fails: the iterator enumerates the
    server's paged answer, [recorded_values] reads the unpaged one, and
    nothing in the extractor ties the two together.  When the page after the
    first two events cannot be fetched, the iterator yields two values and
    raises, however long the loop goes on, while [recorded_values] returns
    three for the same series and range. *)
Lemma iterator_stops_at_failing_page :
  recorded_values flaky_conn "CDT158" (Ts_str "*-1d") (Ts_str "*") None
    = Ok [ {| timestamp := 100; value := PyFloat 1.5; quality := GOOD |};
           {| timestamp := 200; value := PyFloat 2.5; quality := GOOD |};
           {| timestamp := 300; value := PyInt 3; quality := GOOD |} ] /\
  forall n, (3 <= n)%nat ->
    consume n (recorded_values_iterator flaky_conn "CDT158"
                 (Ts_str "*-1d") (Ts_str "*") 2)
    = ([ {| timestamp := 100; value := PyFloat 1.5; quality := GOOD |};
         {| timestamp := 200; value := PyFloat 2.5; quality := GOOD |} ],
       Failed (SdkError "page request timed out")).
Proof.
  split; [reflexivity|]. intros n Hn.
  replace n with (3 + (n - 3))%nat by lia.
  now rewrite consume_ended_more.
Qed.

(** C7 (amended): the paginated retrieval asks the server for the paged
    enumeration of the range (page type [EventCount], the page size given,
    inside boundary, no filter expression, filtered values excluded) and is
    a forward-only lazy sequence over it: each pull moves the enumerator by
    one event and converts that event, so after [k] pulls it has produced
    [k] values, stands at position [k] and holds no value.  It ends when the
    enumeration ends, hence is finite whenever the enumeration is, and then
    has yielded the enumerated events converted, in order.  It yields
    exactly the sequence [recorded_values] returns for the same series and
    range with default options whenever the paged enumeration gives the
    events of the server's unpaged answer. *)
Theorem iterator_yields_recorded_values (conn : PIServerConnection)
    (tag_name : string) (start end_ : PITimestamp) (page_size : Z)
    (point : PIPoint) (af_values : AFValues_paged) :
  let text := fun t => match t with
                       | Ts_datetime s | Ts_AFTime s | Ts_str s => s
                       end in
  let time_range := {| StartTime := {| time_string := text start |};
                       EndTime := {| time_string := text end_ |} |} in
  let g := recorded_values_iterator conn tag_name start end_ page_size in
  get_point conn tag_name = Ok point ->
  RecordedValues_paged point time_range Inside None false
    {| page_type := EventCount; page_size := page_size |} = Ok af_values ->
  (forall l vs,
     l <> [] -> delivers af_values 0 l ->
     Forall2 (fun a v => _convert_value a = Ok v) l vs ->
     consume (length l) g = (vs, Pulling (Suspended af_values (length l)))) /\
  (forall l,
     enumerates af_values l -> ended (consume (S (length l)) g).2 = true) /\
  (forall l vs,
     enumerates af_values l ->
     Forall2 (fun a v => _convert_value a = Ok v) l vs ->
     consume (S (length l)) g = (vs, Exhausted)) /\
  (forall n vs,
     consume n g = (vs, Exhausted) ->
     exists l, enumerates af_values l /\
               Forall2 (fun a v => _convert_value a = Ok v) l vs) /\
  (forall l,
     enumerates af_values l ->
     RecordedValues point time_range Inside None false 0 = Ok l ->
     forall vs,
       recorded_values conn tag_name start end_ None = Ok vs <->
       exists n, consume n g = (vs, Exhausted)).
Proof.
  intros text time_range g Hp Hpaged.
  assert (Hopen : iterator_open conn tag_name start end_ page_size = Ok af_values).
  { unfold iterator_open. rewrite Hp. cbn. rewrite <- Hpaged.
    now destruct start, end_. }
  assert (Hexhausted : forall n vs,
            consume n g = (vs, Exhausted) ->
            exists l, enumerates af_values l /\
                      Forall2 (fun a v => _convert_value a = Ok v) l vs).
  { intros n vs Hn. destruct n as [|n]; [discriminate|].
    unfold g, recorded_values_iterator in Hn.
    rewrite consume_Created, Hopen in Hn.
    apply consume_Exhausted_inv in Hn as (l & Hd & Hend & Hvs).
    exists l. now repeat split. }
  unfold g, recorded_values_iterator. split.
  { intros l vs Hl Hd Hvs. destruct l as [|a l]; [contradiction|].
    pose proof (consume_prefix af_values (a :: l) vs 0 Hd Hvs) as Hpre.
    cbn [length Nat.add] in Hpre |- *. now rewrite consume_Created, Hopen. }
  split.
  { intros l [Hd Hend]. rewrite consume_Created, Hopen.
    now apply consume_ends. }
  split.
  { intros l vs [Hd Hend] Hvs. rewrite consume_Created, Hopen.
    now apply consume_all. }
  split; [exact Hexhausted|].
  intros l Hl Hlist vs. rewrite recorded_values_Ok. split.
  - intros (point' & l' & Hp' & Hl' & Hvs).
    rewrite Hp in Hp'. injection Hp' as <-.
    assert (Heq : Ok l' = Ok l)
      by (rewrite <- Hl'; destruct start, end_; exact Hlist).
    injection Heq as ->. exists (S (length l)).
    destruct Hl as [Hd Hend]. rewrite consume_Created, Hopen.
    now apply consume_all.
  - intros [n Hn]. apply Hexhausted in Hn as (l' & Hl' & Hvs).
    rewrite (enumerates_inj _ _ _ Hl' Hl) in Hvs.
    exists point, l. split; [exact Hp|]. split; [|exact Hvs].
    destruct start, end_; exact Hlist.
Qed.

Lemma iterator_yields_recorded_values_witness :
  exists vs,
    recorded_values sample_conn "SINUSOID" (Ts_str "*-1d") (Ts_str "*") None = Ok vs /\
    consume 4
      (recorded_values_iterator sample_conn "SINUSOID" (Ts_str "*-1d") (Ts_str "*") 2)
    = (vs, Exhausted) /\
    consume 2
      (recorded_values_iterator sample_conn "SINUSOID" (Ts_str "*-1d") (Ts_str "*") 2)
    = (take 2 vs, Pulling (Suspended (enumeration_of archive_inside) 2)).
Proof.
  destruct (iterator_yields_recorded_values sample_conn "SINUSOID"
              (Ts_str "*-1d") (Ts_str "*") 2
              (sample_point {[ "pointtype" := attr_text "Float128" ]})
              (enumeration_of archive_inside) eq_refl eq_refl)
    as (Hlazy & _ & Hall & _ & _).
  eexists. split; [reflexivity|]. split.
  - apply (Hall archive_inside).
    + split; [|reflexivity]. intros i a Hi. cbn. unfold enumeration_of.
      now rewrite Hi.
    + repeat constructor.
  - apply (Hlazy (take 2 archive_inside)).
    + discriminate.
    + intros [|[|i]] a Hi; cbn in Hi; try discriminate;
        injection Hi as <-; reflexivity.
    + repeat constructor.
Defined.

(** Two pulls give two values and leave the enumerator on the third
    event. *)
Example iterator_two_pulls :
  consume 2
    (recorded_values_iterator sample_conn "SINUSOID" (Ts_str "*-1d") (Ts_str "*") 2)
  = ([ {| timestamp := 100; value := PyFloat 1.5; quality := GOOD |};
       {| timestamp := 200; value := PyFloat 2.5; quality := GOOD |} ],
     Pulling (Suspended (enumeration_of archive_inside) 2)).
Proof. reflexivity. Qed.

(** ** Summaries *)

Lemma fold_lor_testbit (sts : list SummaryType) (acc : Z) (i : Z) :
  Z.testbit
    (fold_left (fun sdk_summary st => Z.lor sdk_summary (SummaryType_value st)) sts acc) i
  = Z.testbit acc i || existsb (fun st => Z.testbit (SummaryType_value st) i) sts.
Proof.
  revert acc. induction sts as [|st sts IH]; intros acc; cbn.
  - now rewrite orb_false_r.
  - rewrite IH, Z.lor_spec. now rewrite orb_assoc.
Qed.

Lemma existsb_same_elements {A} (p : A -> bool) (l l' : list A) :
  (forall x, x ∈ l <-> x ∈ l') -> existsb p l = existsb p l'.
Proof.
  intros H. apply eq_true_iff_eq. rewrite !existsb_exists.
  split; intros (x & Hx & Hp); exists x; split; auto;
    apply list_elem_of_In, H, list_elem_of_In, Hx.
Qed.

(** The flag word depends only on which flags the list holds. *)
Lemma sdk_summary_same_flags (sts sts' : list SummaryType) :
  (forall st, st ∈ sts <-> st ∈ sts') ->
  sdk_summary_of (TypeList sts) = sdk_summary_of (TypeList sts').
Proof.
  intros H. apply Z.bits_inj'. intros i _. cbn.
  rewrite !fold_lor_testbit. f_equal. now apply existsb_same_elements.
Qed.

Lemma summary_dict_dom (summaries : list AFSummary) :
  dom (summary_dict summaries) =
  list_to_set (map (fun s => _get_summary_name (SummaryType_int s)) summaries).
Proof.
  unfold summary_dict.
  enough (forall m : gmap string py_value,
    dom (fold_left
           (fun result summary =>
              <[default (pretty (SummaryType_int summary))
                  (summary_name_map !! SummaryType_int summary)
                := Value_Value summary]> result) summaries m)
    = dom m ∪ list_to_set
                (map (fun s => _get_summary_name (SummaryType_int s)) summaries))
    as H by (rewrite H, dom_empty_L; set_solver).
  induction summaries as [|s l IH]; intros m; cbn.
  - set_solver.
  - rewrite IH, dom_insert_L. unfold _get_summary_name. set_solver.
Qed.

(** C2: [summary] called with exactly the flags AVERAGE, MINIMUM, MAXIMUM
    and COUNT (in any order) asks the server for the flag word 2|4|8|128
    and, the server answering with one entry for each requested flag,
    returns a mapping whose keys are exactly "average", "minimum", "maximum"
    and "count".  The flags are named TOTAL=1 total, AVERAGE=2 average,
    MINIMUM=4 minimum, MAXIMUM=8 maximum, RANGE=16 range, STD_DEV=32
    std_dev, POPULATION_STD_DEV=64 pop_std_dev, COUNT=128 count,
    PERCENT_GOOD=8192 percent_good. *)
Theorem summary_four_aggregates (conn : PIServerConnection)
    (tag_name : string) (start end_ : PITimestamp)
    (sts : list SummaryType) (point : PIPoint) (summaries : list AFSummary) :
  (forall st, st ∈ sts <-> st ∈ [AVERAGE; MINIMUM; MAXIMUM; COUNT]) ->
  get_point conn tag_name = Ok point ->
  Summary point (_create_time_range start end_) (sdk_summary_of (TypeList sts))
    TimeWeighted Auto = Ok summaries ->
  (forall t, t ∈ map SummaryType_int summaries <-> t ∈ map SummaryType_value sts) ->
  sdk_summary_of (TypeList sts) = 142 /\
  (exists result,
     summary conn tag_name start end_ (TypeList sts) = Ok result /\
     dom result = {[ "average"; "minimum"; "maximum"; "count" ]}) /\
  map (fun st => (SummaryType_value st, _get_summary_name (SummaryType_value st)))
    [TOTAL; AVERAGE; MINIMUM; MAXIMUM; RANGE; STD_DEV; POPULATION_STD_DEV;
     COUNT; PERCENT_GOOD]
  = [(1, "total"); (2, "average"); (4, "minimum"); (8, "maximum");
     (16, "range"); (32, "std_dev"); (64, "pop_std_dev"); (128, "count");
     (8192, "percent_good")].
Proof.
  intros Hflags Hp Hs Hanswer.
  split; [now rewrite (sdk_summary_same_flags _ _ Hflags)|].
  split; [|reflexivity].
  exists (summary_dict summaries). split.
  - unfold summary. rewrite Hp. cbn -[sdk_summary_of]. now rewrite Hs.
  - rewrite summary_dict_dom. apply set_eq. intros x.
    rewrite elem_of_list_to_set, list_elem_of_fmap.
    split.
    + intros (s & -> & Hin).
      assert (SummaryType_int s ∈ map SummaryType_value sts) as Ht
        by (apply Hanswer, list_elem_of_fmap; eauto).
      apply list_elem_of_fmap in Ht as (st & -> & Hst).
      apply Hflags in Hst.
      repeat (apply elem_of_cons in Hst as [Heq|Hst]; [rewrite Heq; set_solver|]).
      now apply elem_of_nil in Hst.
    + intros Hx.
      assert (exists st, st ∈ sts /\ x = _get_summary_name (SummaryType_value st))
        as (st & Hst & ->).
      { assert (x = "average" \/ x = "minimum" \/ x = "maximum" \/ x = "count")
          as [Hx'|[Hx'|[Hx'|Hx']]] by set_solver; subst x;
          [exists AVERAGE | exists MINIMUM | exists MAXIMUM | exists COUNT];
          (split; [apply Hflags; set_solver | reflexivity]). }
      assert (SummaryType_value st ∈ map SummaryType_int summaries) as Ht
        by (apply Hanswer, list_elem_of_fmap; eauto).
      apply list_elem_of_fmap in Ht as (s & Hs' & Hin).
      exists s. split; [now rewrite Hs'|exact Hin].
Qed.

Lemma summary_four_aggregates_witness :
  sdk_summary_of (TypeList [COUNT; AVERAGE; MAXIMUM; MINIMUM; AVERAGE]) = 142 /\
  exists result,
    summary sample_conn "SINUSOID" (Ts_str "*-1d") (Ts_str "*")
      (TypeList [COUNT; AVERAGE; MAXIMUM; MINIMUM; AVERAGE]) = Ok result /\
    dom result = {[ "average"; "minimum"; "maximum"; "count" ]}.
Proof.
  destruct (summary_four_aggregates sample_conn "SINUSOID"
              (Ts_str "*-1d") (Ts_str "*")
              [COUNT; AVERAGE; MAXIMUM; MINIMUM; AVERAGE]
              (sample_point {[ "pointtype" := attr_text "Float128" ]})
              (map (fun t => {| SummaryType_int := t; Value_Value := PyFloat 1.5 |})
                 [2; 4; 8; 128]))
    as (Hword & Hresult & _).
  - intros st. rewrite !elem_of_cons, !elem_of_nil. tauto.
  - reflexivity.
  - reflexivity.
  - intros t. cbn. rewrite !elem_of_cons, !elem_of_nil. tauto.
  - split; [exact Hword | exact Hresult].
Defined.

(** A single flag, and a flag the server adds on its own: the unknown type
    is keyed by its number. *)
Example summary_dict_unknown_type :
  dom (summary_dict [ {| SummaryType_int := 2; Value_Value := PyFloat 1.5 |};
                      {| SummaryType_int := 256; Value_Value := PyFloat 2.5 |} ])
  = {[ "average"; "256" ]}.
Proof. rewrite summary_dict_dom. cbn. set_solver. Qed.

(** ** Batch extraction *)

Section AnalysesFacts.

Context {AFAnalysis analysis_info : Type}.
Variable extract : AFAnalysis -> string -> Py.result analysis_info.

Lemma fold_analysis_step (db_name : string) (analyses : list AFAnalysis)
    (st : list analysis_info * list printed) :
  fold_left (analysis_step extract db_name) analyses st =
  (st.1 ++ omap (analysis_record extract db_name) analyses,
   st.2 ++ flat_map (analysis_printed extract db_name) analyses).
Proof.
  revert st. induction analyses as [|a l IH]; intros [all out]; cbn.
  - now rewrite !app_nil_r.
  - rewrite IH. unfold analysis_step, analysis_record, analysis_printed.
    destruct (extract a db_name); cbn; now rewrite <- ?app_assoc, ?app_nil_r.
Qed.

Lemma database_step_spec (db : AFDatabase AFAnalysis) (db_name : string)
    (st : list analysis_info * list printed) :
  db_Name db = Ok db_name ->
  database_step extract db_name st db =
  (st.1 ++ database_records extract db, st.2 ++ database_printed extract db).
Proof.
  intros Hname. unfold database_step, database_records, database_printed.
  rewrite Hname. destruct (db_Analyses db); [apply fold_analysis_step|].
  cbn. now rewrite app_nil_r.
Qed.

(** The loop over databases whose names can all be read. *)
Lemma for_databases_named (databases : list (AFDatabase AFAnalysis))
    (st : list analysis_info * list printed) :
  Forall (fun db => Py.returns (db_Name db) = true) databases ->
  for_databases extract databases st =
  (Ok (st.1 ++ flat_map (database_records extract) databases),
   st.2 ++ flat_map (database_printed extract) databases).
Proof.
  intros H. revert st. induction H as [|db l Hdb _ IH]; intros st; cbn.
  - now rewrite !app_nil_r.
  - destruct (db_Name db) as [db_name|] eqn:Hname; [|discriminate Hdb].
    rewrite IH, (database_step_spec _ _ _ Hname). cbn.
    now rewrite <- !app_assoc.
Qed.

(** The loop stops at the first database whose name cannot be read. *)
Lemma for_databases_unnamed (before after : list (AFDatabase AFAnalysis))
    (db : AFDatabase AFAnalysis) (e : Py.exn)
    (st : list analysis_info * list printed) :
  Forall (fun db => Py.returns (db_Name db) = true) before ->
  db_Name db = Raise e ->
  for_databases extract (before ++ db :: after) st =
  (Raise e, st.2 ++ flat_map (database_printed extract) before).
Proof.
  intros H Hdb. revert st. induction H as [|db' l Hdb' _ IH]; intros st; cbn.
  - rewrite Hdb. now rewrite app_nil_r.
  - destruct (db_Name db') as [db_name|] eqn:Hname; [|discriminate Hdb'].
    rewrite IH, (database_step_spec _ _ _ Hname). cbn.
    now rewrite <- !app_assoc.
Qed.

(** A run that returns a list has read every name. *)
Lemma for_databases_Ok (databases : list (AFDatabase AFAnalysis))
    (st : list analysis_info * list printed) (all_analyses : list analysis_info) :
  (for_databases extract databases st).1 = Ok all_analyses ->
  Forall (fun db => Py.returns (db_Name db) = true) databases /\
  all_analyses = st.1 ++ flat_map (database_records extract) databases.
Proof.
  revert st. induction databases as [|db l IH]; intros st; cbn.
  - intros [= <-]. split; [constructor | now rewrite app_nil_r].
  - destruct (db_Name db) as [db_name|] eqn:Hname; [|discriminate].
    intros H. apply IH in H as [Hall ->]. split.
    + constructor; [now rewrite Hname | exact Hall].
    + rewrite (database_step_spec _ _ _ Hname). cbn. now rewrite <- app_assoc.
Qed.

End AnalysesFacts.

Lemma fold_point_step (points : list PIPointObject)
    (st : list point_info * list printed) :
  fold_left point_step points st =
  (st.1 ++ omap point_record points, st.2 ++ flat_map point_printed points).
Proof.
  revert st. induction points as [|p l IH]; intros [lst out]; cbn.
  - now rewrite !app_nil_r.
  - rewrite IH. unfold point_step, point_record, point_printed.
    destruct (point_body p) as [info|e]; cbn.
    + now rewrite <- ?app_assoc, ?app_nil_r.
    + destruct (error_record p e); cbn; now rewrite <- ?app_assoc.
Qed.

(** The record added for a point whose extraction failed carries the error. *)
Lemma error_record_marked (point : PIPointObject) (e : Py.exn) (r : point_info) :
  error_record point e = Some r -> r !! "error" = Some (JStr (Py.message e)).
Proof.
  unfold error_record.
  destruct (obj_Name point) as [|[name|e']]; intros [= <-];
    apply lookup_insert_eq.
Qed.

(** C4, as stated, fails on its last clause and on the bulk snapshot.  The
    tag search of [extract_pi_points] runs once the connection is open and
    outside any [try]: when it fails, the whole extraction is aborted though
    the connection was established.  And [snapshots] looks every tag up with
    no handler, so one unknown tag aborts the batch that would succeed
    without it. *)
Lemma batch_aborts_without_connection_failure :
  Py.returns (connect_search_fails "GENCOPI") = true /\
  (extract_pi_points connect_search_fails "GENCOPI" "*" 100000).1
    = Raise (SdkError "search timed out") /\
  Py.returns (snapshots sample_bulk_CurrentValue sample_conn ["SINUSOID"; "BARE"]) = true /\
  snapshots sample_bulk_CurrentValue sample_conn ["SINUSOID"; "UNKNOWN"; "BARE"]
    = Raise PIPointNotFoundError.
Proof. repeat split. Qed.

(** C4 (amended): in the batch loops of the extraction scripts
    ([extract_analyses_from_all_databases], [extract_pi_points]), once the
    connection is open and the items are enumerated (the database list and
    the names of the databases are read, the tag search is answered), the
    run returns its list whatever the items do: a failure to read the
    analyses of a database, to extract an analysis or to extract a point is
    caught and printed, the item is left out of the result or recorded with
    an "error" entry, and the remaining items are processed.  A failure to
    establish the connection aborts the whole operation. *)
Theorem batch_survives_item_failures
    {AFAnalysis analysis_info : Type}
    (extract : AFAnalysis -> string -> Py.result analysis_info)
    (systems : string -> option (PISystem AFAnalysis)) (af_server : string)
    (pi_system : PISystem AFAnalysis) (databases : list (AFDatabase AFAnalysis))
    (connect : string -> Py.result PIServerSession)
    (pi_server pattern : string) (max_count : Z)
    (conn : PIServerSession) (points : list PIPointObject) :
  systems af_server = Some pi_system ->
  Connect pi_system = Ok tt ->
  Databases pi_system = Ok databases ->
  Forall (fun db => Py.returns (db_Name db) = true) databases ->
  connect pi_server = Ok conn ->
  search_points conn pattern max_count = Ok points ->
  (extract_analyses_from_all_databases extract systems af_server).1
    = Ok (flat_map (database_records extract) databases) /\
  (exists tail,
     (extract_analyses_from_all_databases extract systems af_server).2
     = flat_map (database_printed extract) databases ++ tail) /\
  (forall db db_name e, db_Name db = Ok db_name -> db_Analyses db = Raise e ->
     database_records extract db = [] /\
     database_printed extract db = [ErrorAccessingDatabase db_name e]) /\
  (forall db db_name analyses,
     db_Name db = Ok db_name -> db_Analyses db = Ok analyses ->
     database_records extract db = omap (analysis_record extract db_name) analyses /\
     database_printed extract db
       = flat_map (analysis_printed extract db_name) analyses) /\
  (forall db_name a e, extract a db_name = Raise e ->
     analysis_record extract db_name a = None /\
     analysis_printed extract db_name a = [ErrorExtractingAnalysis e]) /\
  extract_pi_points connect pi_server pattern max_count
    = (Ok (omap point_record points), flat_map point_printed points) /\
  (forall p e, point_body p = Raise e ->
     point_printed p = [ErrorExtractingPoint e] /\
     (point_record p = None \/
      exists r, point_record p = Some r /\
                r !! "error" = Some (JStr (Py.message e)))) /\
  (forall systems' s' pi' e,
     systems' s' = Some pi' -> Connect pi' = Raise e ->
     (extract_analyses_from_all_databases extract systems' s').1 = Raise e) /\
  (forall connect' s' e,
     connect' s' = Raise e ->
     (extract_pi_points connect' s' pattern max_count).1 = Raise e).
Proof.
  intros Hsys Hconnect Hdbs Hnames Hconn Hsearch.
  assert (Hbody : analyses_body extract pi_system =
            (Ok (flat_map (database_records extract) databases),
             flat_map (database_printed extract) databases)).
  { unfold analyses_body.
    rewrite Hconnect, Hdbs, (for_databases_named _ _ _ Hnames).
    reflexivity. }
  unfold extract_analyses_from_all_databases. rewrite Hsys, Hbody.
  split; [now destruct (Disconnect pi_system)|].
  split.
  { destruct (Disconnect pi_system) as [|e]; cbn;
      [exists []; now rewrite app_nil_r | eauto]. }
  split.
  { intros db db_name e Hname He. unfold database_records, database_printed.
    now rewrite Hname, He. }
  split.
  { intros db db_name analyses Hname Ha.
    unfold database_records, database_printed. now rewrite Hname, Ha. }
  split.
  { intros db_name a e He. unfold analysis_record, analysis_printed.
    now rewrite He. }
  split.
  { unfold extract_pi_points. rewrite Hconn, Hsearch, fold_point_step.
    reflexivity. }
  split.
  { intros p e He. unfold point_printed, point_record. rewrite He.
    split; [reflexivity|].
    destruct (error_record p e) as [r|] eqn:Hr; [right | now left].
    exists r. split; [reflexivity|]. eapply error_record_marked, Hr. }
  split.
  - intros systems' s' pi' e Hs' He. rewrite Hs'. unfold analyses_body.
    rewrite He. now destruct (Disconnect pi').
  - intros connect' s' e He. unfold extract_pi_points. now rewrite He.
Qed.

Lemma batch_survives_item_failures_witness :
  (extract_analyses_from_all_databases sample_extract_raw sample_systems "GENCOPI").1
    = Ok ["Plant"; "Plant"; "Lab"] /\
  (extract_pi_points connect_sample "GENCOPI" "*" 100000).1
    = Ok (omap point_record [broken_id_point; broken_name_point; healthy_point]) /\
  length (omap point_record [broken_id_point; broken_name_point; healthy_point]) = 2%nat.
Proof.
  destruct (batch_survives_item_failures sample_extract_raw sample_systems
              "GENCOPI" sample_system
              [ {| db_Name := Ok "Plant"; db_Analyses := Ok [1; 2; 3; 4] |};
                {| db_Name := Ok "Archive";
                   db_Analyses := Raise (SdkError "access denied") |};
                {| db_Name := Ok "Lab"; db_Analyses := Ok [6] |} ]
              connect_sample "GENCOPI" "*" 100000
              {| search_points := fun _ _ =>
                   Ok [broken_id_point; broken_name_point; healthy_point] |}
              [broken_id_point; broken_name_point; healthy_point]
              eq_refl eq_refl eq_refl)
    as (Hanalyses & _ & _ & _ & _ & Hpoints & _);
    [repeat constructor | reflexivity | reflexivity |].
  split; [exact Hanalyses|].
  split; [now rewrite Hpoints | reflexivity].
Defined.

(** What the sample run prints and records: the two failures are printed,
    the point with a readable name is kept with its error. *)
Example sample_points_run :
  (extract_pi_points connect_sample "GENCOPI" "*" 100000).2
    = [ErrorExtractingPoint (SdkError "point was deleted");
       ErrorExtractingPoint (SdkError "point was deleted")] /\
  point_record broken_id_point
    = Some (<["error" := JStr "point was deleted"]> (<["name" := JStr "CDT158"]> ∅)) /\
  point_record broken_name_point = None.
Proof. repeat split. Qed.

(** The name of a database is read outside the handler for that database
    (line 106): when it cannot be read, the run ends there with the
    exception, and the analyses collected so far are not returned. *)
Example database_name_failure_aborts :
  extract_analyses_from_all_databases sample_extract_raw
    (fun _ => Some nameless_system) "GENCOPI"
  = (Raise (SdkError "database was deleted"),
     [ErrorExtractingAnalysis (SdkError "analysis is checked out");
      ErrorExtractingAnalysis (SdkError "analysis is checked out")]).
Proof. reflexivity. Qed.

Example sample_analyses_run :
  (extract_analyses_from_all_databases sample_extract_raw sample_systems "GENCOPI").2
    = [ErrorExtractingAnalysis (SdkError "analysis is checked out");
       ErrorExtractingAnalysis (SdkError "analysis is checked out");
       ErrorAccessingDatabase "Archive" (SdkError "access denied")].
Proof. reflexivity. Qed.

(** ** Client construction *)

(** Leaving [config] out and passing [None] for it are the same call. *)
Lemma PIClient_config_None (server : argument server_argument) :
  PIClient_config server (Passed None) = PIClient_config server Omitted.
Proof. reflexivity. Qed.

(** C5: client construction resolves the server name: the empty string, a
    whitespace-only string, [None] and an omitted argument all give the host
    "localhost"; a non-blank name is used verbatim; and a full configuration
    object passed together with a server name takes precedence over it. *)
Theorem server_name_defaulting :
  host (server (PIClient_config (Passed (ServerName "")) Omitted)) = "localhost" /\
  (forall s, is_blank s = true ->
     host (server (PIClient_config (Passed (ServerName s)) Omitted)) = "localhost") /\
  host (server (PIClient_config (Passed ServerNone) Omitted)) = "localhost" /\
  host (server (PIClient_config Omitted Omitted)) = "localhost" /\
  (forall s, is_blank s = false ->
     host (server (PIClient_config (Passed (ServerName s)) Omitted)) = s) /\
  (forall s config,
     PIClient_config (Passed (ServerName s)) (Passed (Some config)) = config) /\
  (forall srv config, PIClient_config srv (Passed (Some config)) = config).
Proof.
  repeat split.
  - intros s Hs. cbn. now rewrite Hs.
  - intros s Hs. cbn. now rewrite Hs.
Qed.

Lemma server_name_defaulting_witness :
  host (server (PIClient_config (Passed (ServerName "   ")) Omitted)) = "localhost" /\
  host (server (PIClient_config (Passed (ServerName "my-pi-server")) Omitted))
    = "my-pi-server" /\
  host (server (PIClient_config (Passed (ServerName "server-arg"))
                  (Passed (Some {| server := {| host := "config-host" |} |}))))
    = "config-host".
Proof.
  destruct server_name_defaulting as (_ & Hblank & _ & _ & Hname & Hconfig & _).
  split; [apply Hblank; reflexivity|].
  split; [apply Hname; reflexivity|].
  now rewrite Hconfig.
Defined.

(** The other calls of the unit tests. *)
Example PIClient_server_config_object :
  host (server (PIClient_config (Passed (ServerConfig {| host := "config-server" |}))
                  Omitted)) = "config-server".
Proof. reflexivity. Qed.

Example is_blank_tabs : is_blank (String "009" (String "010" " ")) = true.
Proof. reflexivity. Qed.

(** ** Frozen records *)

(** C6: an [AnalysisInfo] is immutable after construction: for every
    instance, every field name and every value, the assignment fails with an
    [AttributeError] ([FrozenInstanceError]) and leaves the record as it
    was. *)
Theorem AnalysisInfo_immutable (info : AnalysisInfo) (field : string)
    (v : py_value) :
  exists e,
    (AnalysisInfo_setattr info field v).1 = Raise e /\
    Py.is_instance e AttributeError = true /\
    (AnalysisInfo_setattr info field v).2 = info.
Proof. exists FrozenInstanceError. repeat split. Qed.

(** The assignment of the unit test: [info.name = "New Name"]. *)
Example AnalysisInfo_frozen_test (info : AnalysisInfo) :
  AnalysisInfo_setattr info "name" (PyStr "New Name")
    = (Raise FrozenInstanceError, info) /\
  ai_name (dataclass_setattr false AnalysisInfo_assign info "name"
             (PyStr "New Name")).2 = "New Name".
Proof. split; reflexivity. Qed.

(** * Further properties of the extractor (points.py) *)

(** ** Value conversion *)

(** X1: a converted value is a fixed point of the conversion: feeding a
    [PIValue] back as the raw value of the same event gives the same
    [PIValue] again ([_convert_value], lines 124-159). *)
Theorem convert_value_stable (af_value : AFValue) (v : PIValue) :
  _convert_value af_value = Ok v ->
  _convert_value {| Timestamp_LocalTime := timestamp v;
                    Value := value v;
                    IsGood := IsGood af_value;
                    Substituted := Substituted af_value |} = Ok v.
Proof.
  intros H. apply convert_value_ok in H as (Hraw & Hts & Hq).
  assert (Hstable : convert_raw_value (value v) = Ok (value v)).
  { unfold convert_raw_value in Hraw.
    destruct (getattr_Name (Value af_value)) as [name|] eqn:Hn.
    - now injection Hraw as <-.
    - destruct (getattr_ToString (Value af_value)) as [text|] eqn:Ht.
      + destruct (Value af_value) as [| | | | |o]; try discriminate Ht.
        destruct (net_float o) as [x|e]; [now injection Hraw as <-|].
        destruct (Py.caught_by _ e); [|discriminate Hraw].
        now injection Hraw as <-.
      + injection Hraw as <-. now apply convert_raw_value_native. }
  unfold _convert_value. cbn. rewrite Hstable. cbn.
  destruct v as [ts val q]. cbn in *. subst q. reflexivity.
Qed.

Lemma convert_value_stable_witness :
  _convert_value af_text_substituted =
    Ok {| timestamp := 638000000000000002; value := PyStr "n/a";
          quality := SUBSTITUTED |} /\
  _convert_value {| Timestamp_LocalTime := 638000000000000002;
                    Value := PyStr "n/a";
                    IsGood := PyBool true;
                    Substituted := Some (PyBool true) |}
  = Ok {| timestamp := 638000000000000002; value := PyStr "n/a";
          quality := SUBSTITUTED |}.
Proof.
  split; [reflexivity|].
  apply (convert_value_stable af_text_substituted
           {| timestamp := 638000000000000002; value := PyStr "n/a";
              quality := SUBSTITUTED |}).
  reflexivity.
Defined.

(** X2: the only way [_convert_value] fails: the raw value is a proxied object
    without [Name] and with [ToString] whose [float()] raises something
    other than [ValueError] and [TypeError]; that exception is the one that
    leaves the call.  Natives and digital states always convert. *)
Theorem convert_value_raises_iff (af_value : AFValue) (e : Py.exn) :
  _convert_value af_value = Raise e <->
  exists o text,
    Value af_value = PyObject o /\ net_Name o = None /\
    net_ToString o = Some text /\ net_float o = Raise e /\
    Py.caught_by [ValueError; TypeError] e = false.
Proof.
  unfold _convert_value. split.
  - destruct (convert_raw_value (Value af_value)) as [raw|e'] eqn:Hraw; cbn;
      [discriminate|].
    intros [= <-]. unfold convert_raw_value in Hraw.
    destruct (Value af_value) as [| | | | |o]; try discriminate Hraw.
    unfold getattr_Name, getattr_ToString in Hraw.
    destruct (net_Name o) eqn:Hn; [discriminate Hraw|].
    destruct (net_ToString o) as [text|] eqn:Ht; [|discriminate Hraw].
    destruct (net_float o) as [x|e''] eqn:Hf; [discriminate Hraw|].
    destruct (Py.caught_by _ e'') eqn:Hc; [discriminate Hraw|].
    injection Hraw as <-. exists o, text. repeat split; assumption.
  - intros (o & text & -> & Hn & Ht & Hf & Hc).
    unfold convert_raw_value, getattr_Name, getattr_ToString.
    now rewrite Hn, Ht, Hf, Hc.
Qed.

Lemma convert_value_raises_iff_witness :
  _convert_value (event 200 (PyObject net_overflow)) = Raise OverflowError.
Proof.
  apply (proj2 (convert_value_raises_iff (event 200 (PyObject net_overflow))
                  OverflowError)).
  exists net_overflow, "1e999". repeat split; reflexivity.
Defined.

(** ** Recorded values: what a conversion failure does *)

Lemma comprehension_raise {A B} (f : A -> Py.result B) (good : list A)
    (bad : A) (rest : list A) (bs : list B) (e : Py.exn) :
  Forall2 (fun a b => f a = Ok b) good bs -> f bad = Raise e ->
  Py.comprehension f (good ++ bad :: rest) = Raise e.
Proof.
  intros Hgood Hbad. induction Hgood as [|a b l bs' Hab _ IH]; cbn.
  - now rewrite Hbad.
  - now rewrite Hab, IH.
Qed.

Lemma consume_raise (af_values : AFValues_paged) (k : nat)
    (good : list AFValue) (bad : AFValue)
    (vs : list PIValue) (e : Py.exn) (n : nat) :
  delivers af_values k (good ++ [bad]) ->
  Forall2 (fun a v => _convert_value a = Ok v) good vs ->
  _convert_value bad = Raise e -> (length vs < n)%nat ->
  consume n (Suspended af_values k) = (vs, Failed e).
Proof.
  intros Hd Hgood Hbad. revert k Hd n.
  induction Hgood as [|a v l vs' Hav _ IH]; intros k Hd n Hn;
    (destruct n as [|n]; [cbn in Hn; lia|]);
    cbn [app] in Hd; apply delivers_cons in Hd as [Hk Hd].
  - now rewrite (consume_Suspended_event _ _ _ _ Hk), Hbad.
  - rewrite (consume_Suspended_event _ _ _ _ Hk), Hav,
      (IH _ Hd) by (cbn in Hn; lia).
    reflexivity.
Qed.

(** X3: when the server's answer holds a value that cannot be converted,
    [recorded_values] raises and returns nothing, not even the values before
    it, whereas [recorded_values_iterator] has yielded every value before
    the bad one when the same exception leaves it. *)
Theorem conversion_failure_list_and_iterator (conn : PIServerConnection)
    (tag_name : string) (start end_ : PITimestamp) (page_size : Z)
    (point : PIPoint) (good : list AFValue) (bad : AFValue)
    (rest : list AFValue) (af_values : AFValues_paged)
    (vs : list PIValue) (e : Py.exn) :
  get_point conn tag_name = Ok point ->
  RecordedValues point (_create_time_range start end_) Inside None false 0
    = Ok (good ++ bad :: rest) ->
  RecordedValues_paged point (_create_time_range start end_) Inside None false
    {| page_type := EventCount; page_size := page_size |} = Ok af_values ->
  delivers af_values 0 (good ++ [bad]) ->
  Forall2 (fun a v => _convert_value a = Ok v) good vs ->
  _convert_value bad = Raise e ->
  recorded_values conn tag_name start end_ None = Raise e /\
  forall n, (length vs < n)%nat ->
    consume n (recorded_values_iterator conn tag_name start end_ page_size)
    = (vs, Failed e).
Proof.
  intros Hp Hlist Hpaged Hd Hgood Hbad. split.
  - unfold recorded_values. rewrite Hp. cbn. rewrite Hlist. cbn.
    eapply comprehension_raise; eassumption.
  - intros n Hn. destruct n as [|n]; [lia|].
    assert (Hopen : iterator_open conn tag_name start end_ page_size
                    = Ok af_values).
    { unfold iterator_open. rewrite Hp. cbn. exact Hpaged. }
    unfold recorded_values_iterator. rewrite consume_Created, Hopen.
    eapply consume_raise; eassumption.
Qed.

(** ** The flag word of a summary request *)

Lemma flag_land_same (st : SummaryType) :
  Z.land (SummaryType_value st) (SummaryType_value st) = SummaryType_value st.
Proof. apply Z.land_diag. Qed.

Lemma flag_land_other (st st' : SummaryType) :
  st <> st' -> Z.land (SummaryType_value st') (SummaryType_value st) = 0.
Proof. destruct st, st'; intros H; try reflexivity; now destruct H. Qed.

Lemma fold_lor_keeps (sts : list SummaryType) (acc v : Z) :
  Z.land acc v = v ->
  Z.land (fold_left (fun w st => Z.lor w (SummaryType_value st)) sts acc) v = v.
Proof.
  revert acc. induction sts as [|st' sts IH]; intros acc H; cbn; [exact H|].
  apply IH. rewrite Z.land_lor_distr_l, H.
  apply Z.bits_inj'. intros i _.
  rewrite Z.lor_spec, Z.land_spec. destruct (Z.testbit v i); now rewrite ?andb_false_r.
Qed.

Lemma fold_lor_absent (sts : list SummaryType) (acc : Z) (st : SummaryType) :
  st ∉ sts ->
  Z.land (fold_left (fun w st' => Z.lor w (SummaryType_value st')) sts acc)
         (SummaryType_value st)
  = Z.land acc (SummaryType_value st).
Proof.
  revert acc. induction sts as [|st' sts IH]; intros acc H; cbn; [reflexivity|].
  apply not_elem_of_cons in H as [Hne Hnot].
  rewrite IH by exact Hnot.
  now rewrite Z.land_lor_distr_l, flag_land_other, Z.lor_0_r.
Qed.

(** X4: the flag word [summary] sends encodes exactly the requested flags:
    masking it with a flag gives that flag back when the flag is in the
    list and 0 when it is not, whatever the order and the repetitions
    (lines 426-431). *)
Theorem sdk_summary_encodes_flags (sts : list SummaryType) (st : SummaryType) :
  (st ∈ sts ->
   Z.land (sdk_summary_of (TypeList sts)) (SummaryType_value st)
   = SummaryType_value st) /\
  (st ∉ sts ->
   Z.land (sdk_summary_of (TypeList sts)) (SummaryType_value st) = 0) /\
  SummaryType_value st <> 0.
Proof.
  split; [|split].
  - cbn. generalize 0 as acc. induction sts as [|st' sts IH]; intros acc Hin.
    + now apply elem_of_nil in Hin.
    + cbn. apply elem_of_cons in Hin as [Heq|Hin]; [subst st'|now apply IH].
      apply fold_lor_keeps.
      apply Z.bits_inj'. intros i _. rewrite Z.land_spec, Z.lor_spec.
      now destruct (Z.testbit acc i), (Z.testbit (SummaryType_value st) i).
  - intros H. cbn. now rewrite fold_lor_absent.
  - now destruct st.
Qed.

Lemma sdk_summary_encodes_flags_witness :
  Z.land (sdk_summary_of (TypeList [AVERAGE; MAXIMUM; AVERAGE]))
         (SummaryType_value AVERAGE) = 2 /\
  Z.land (sdk_summary_of (TypeList [AVERAGE; MAXIMUM; AVERAGE]))
         (SummaryType_value MINIMUM) = 0.
Proof.
  split.
  - apply (proj1 (sdk_summary_encodes_flags [AVERAGE; MAXIMUM; AVERAGE] AVERAGE)).
    now left.
  - apply (proj1 (proj2 (sdk_summary_encodes_flags [AVERAGE; MAXIMUM; AVERAGE]
                           MINIMUM))).
    rewrite !not_elem_of_cons. repeat split; try discriminate.
    apply not_elem_of_nil.
Defined.

Lemma conversion_failure_list_and_iterator_witness :
  recorded_values faulty_conn "CDT158" (Ts_str "*-1d") (Ts_str "*") None
    = Raise OverflowError /\
  consume 5 (recorded_values_iterator faulty_conn "CDT158" (Ts_str "*-1d") (Ts_str "*") 1000)
    = ([ {| timestamp := 100; value := PyFloat 1.5; quality := GOOD |} ],
       Failed OverflowError).
Proof.
  destruct (conversion_failure_list_and_iterator faulty_conn "CDT158"
              (Ts_str "*-1d") (Ts_str "*") 1000 faulty_point
              [event 100 (PyFloat 1.5)] (event 200 (PyObject net_overflow))
              [event 300 (PyInt 3)]
              (enumeration_of
                 ([event 100 (PyFloat 1.5)] ++
                  event 200 (PyObject net_overflow) :: [event 300 (PyInt 3)]))
              [ {| timestamp := 100; value := PyFloat 1.5; quality := GOOD |} ]
              OverflowError eq_refl eq_refl eq_refl)
    as [Hlist Hiter].
  - intros [|[|i]] a Hi; cbn in Hi; try discriminate;
      injection Hi as <-; reflexivity.
  - repeat constructor.
  - reflexivity.
  - split; [exact Hlist|]. apply Hiter. cbn. lia.
Defined.

(** ** Named aggregates *)

Lemma summary_name_inj (st st' : SummaryType) :
  _get_summary_name (SummaryType_value st) = _get_summary_name (SummaryType_value st') ->
  st = st'.
Proof. destruct st, st'; intros H; try reflexivity; vm_compute in H; discriminate H. Qed.

Lemma summary_dict_fold_absent (l : list AFSummary) (m : gmap string py_value)
    (k : string) :
  k ∉ map (fun s => _get_summary_name (SummaryType_int s)) l ->
  fold_left
    (fun result summary =>
       <[default (pretty (SummaryType_int summary))
           (summary_name_map !! SummaryType_int summary)
         := Value_Value summary]> result) l m !! k = m !! k.
Proof.
  revert m. induction l as [|s l IH]; intros m H; cbn; [reflexivity|].
  cbn in H. apply not_elem_of_cons in H as [Hne Hnot].
  rewrite IH by exact Hnot. now apply lookup_insert_ne.
Qed.

Lemma summary_dict_lookup (l : list AFSummary) (s : AFSummary) :
  NoDup (map (fun s => _get_summary_name (SummaryType_int s)) l) ->
  s ∈ l ->
  summary_dict l !! _get_summary_name (SummaryType_int s) = Some (Value_Value s).
Proof.
  unfold summary_dict. generalize (∅ : gmap string py_value) as m.
  induction l as [|s' l IH]; intros m Hnd Hin; [now apply elem_of_nil in Hin|].
  cbn in Hnd. apply NoDup_cons in Hnd as [Hnot Hnd]. cbn.
  apply elem_of_cons in Hin as [->|Hin]; [|now apply IH].
  rewrite summary_dict_fold_absent by exact Hnot.
  apply lookup_insert_eq.
Qed.

Lemma known_names_NoDup (l : list AFSummary) :
  NoDup (map SummaryType_int l) ->
  Forall (fun s => exists st, SummaryType_int s = SummaryType_value st) l ->
  NoDup (map (fun s => _get_summary_name (SummaryType_int s)) l).
Proof.
  induction l as [|s l IH]; cbn; intros Hnd Hknown; [constructor|].
  apply NoDup_cons in Hnd as [Hnot Hnd].
  apply Forall_cons in Hknown as [[st Hst] Hknown].
  apply NoDup_cons. split; [|now apply IH].
  intros Hin. apply list_elem_of_fmap in Hin as (s' & Heq & Hin).
  rewrite Forall_forall in Hknown.
  destruct (Hknown s' Hin) as [st' Hst'].
  rewrite Hst, Hst' in Heq. apply summary_name_inj in Heq. subst st'.
  apply Hnot. apply list_elem_of_fmap. exists s'. split; [congruence|exact Hin].
Qed.

(** X5: when the server answers with pairwise different known summary types,
    [summary] returns every one of them: the dictionary has as many entries
    as the answer, and each value is found under the name of its type, none
    overwritten by another (lines 446-465). *)
Theorem summary_returns_every_aggregate (conn : PIServerConnection)
    (tag_name : string) (start end_ : PITimestamp)
    (summary_types : summary_types_arg)
    (point : PIPoint) (summaries : list AFSummary) :
  get_point conn tag_name = Ok point ->
  Summary point (_create_time_range start end_) (sdk_summary_of summary_types)
    TimeWeighted Auto = Ok summaries ->
  NoDup (map SummaryType_int summaries) ->
  Forall (fun s => exists st, SummaryType_int s = SummaryType_value st) summaries ->
  exists result,
    summary conn tag_name start end_ summary_types = Ok result /\
    size result = length summaries /\
    forall s, s ∈ summaries ->
      result !! _get_summary_name (SummaryType_int s) = Some (Value_Value s).
Proof.
  intros Hp Hs Hnd Hknown.
  pose proof (known_names_NoDup _ Hnd Hknown) as Hnames.
  exists (summary_dict summaries). split; [|split].
  - unfold summary. rewrite Hp. cbn -[sdk_summary_of]. now rewrite Hs.
  - rewrite <- size_dom, summary_dict_dom, size_list_to_set by exact Hnames.
    now rewrite length_map.
  - intros s Hin. now apply summary_dict_lookup.
Qed.

Lemma summary_returns_every_aggregate_witness :
  exists result,
    summary sample_conn "SINUSOID" (Ts_str "*-1d") (Ts_str "*")
      (TypeList [AVERAGE; PERCENT_GOOD]) = Ok result /\
    size result = 2%nat /\
    result !! "percent_good" = Some (PyFloat 1.5).
Proof.
  destruct (summary_returns_every_aggregate sample_conn "SINUSOID"
              (Ts_str "*-1d") (Ts_str "*") (TypeList [AVERAGE; PERCENT_GOOD])
              (sample_point {[ "pointtype" := attr_text "Float128" ]})
              [ {| SummaryType_int := 2; Value_Value := PyFloat 1.5 |};
                {| SummaryType_int := 8192; Value_Value := PyFloat 1.5 |} ]
              eq_refl eq_refl)
    as (result & Hr & Hsize & Hlookup).
  - cbn. repeat constructor; rewrite ?elem_of_cons, ?elem_of_nil; intuition discriminate.
  - repeat constructor; [exists AVERAGE | exists PERCENT_GOOD]; reflexivity.
  - exists result. split; [exact Hr|]. split; [exact Hsize|].
    apply (Hlookup {| SummaryType_int := 8192; Value_Value := PyFloat 1.5 |}).
    rewrite !elem_of_cons. auto.
Defined.

(** ** Bulk snapshots *)

Lemma snapshots_fill_spec (af_values : list AFValue) (tag_names : list string)
    (i : nat) (result out : gmap string PIValue) :
  snapshots_fill af_values i tag_names result = Ok out ->
  dom out = dom result ∪ list_to_set tag_names /\
  (forall tag, tag ∉ tag_names -> out !! tag = result !! tag) /\
  (forall k tag,
     tag_names !! k = Some tag ->
     (forall j, (k < j)%nat -> tag_names !! j <> Some tag) ->
     exists a v, af_values !! (i + k)%nat = Some a /\
                 _convert_value a = Ok v /\ out !! tag = Some v).
Proof.
  revert i result. induction tag_names as [|t rest IH]; intros i result H.
  - cbn in H. injection H as <-. split; [set_solver|]. split; [auto|].
    intros k tag Hk. discriminate Hk.
  - cbn [snapshots_fill] in H.
    destruct (af_values !! i) as [a|] eqn:Ha; [|discriminate H].
    cbn in H. destruct (_convert_value a) as [v|e] eqn:Hv; [|discriminate H].
    cbn in H. apply IH in H as (Hdom & Hother & Hlast).
    split; [rewrite Hdom, dom_insert_L; set_solver|].
    split.
    + intros tag Hnot. apply not_elem_of_cons in Hnot as [Hne Hnot].
      rewrite Hother by exact Hnot. now apply lookup_insert_ne.
    + intros [|k] tag Hk Hlater.
      * cbn in Hk. injection Hk as ->. exists a, v.
        rewrite Nat.add_0_r. split; [exact Ha|]. split; [exact Hv|].
        rewrite Hother; [apply lookup_insert_eq|].
        intros Hin. apply list_elem_of_lookup in Hin as [j Hj].
        apply (Hlater (S j)); [lia | exact Hj].
      * cbn in Hk. destruct (Hlast k tag Hk) as (a' & v' & Ha' & Hv' & Hout).
        { intros j Hj. apply (Hlater (S j)). lia. }
        exists a', v'. split; [|auto].
        now replace (i + S k)%nat with (S i + k)%nat by lia.
Qed.

Lemma snapshots_Ok_inv
    (bulk : list PIPoint -> Py.result (list AFValue))
    (conn : PIServerConnection) (tag_names : list string)
    (result : gmap string PIValue) :
  snapshots bulk conn tag_names = Ok result ->
  exists points af_values,
    Forall2 (fun t p => get_point conn t = Ok p) tag_names points /\
    bulk points = Ok af_values /\
    snapshots_fill af_values 0 tag_names ∅ = Ok result.
Proof.
  unfold snapshots. intros H.
  apply bind_Ok_inv in H as (points & Hp & H).
  apply bind_Ok_inv in H as (af_values & Ha & H).
  apply comprehension_Ok in Hp. eauto.
Qed.

(** X6: [snapshots] returns one entry per requested tag and nothing else.  The
    value of a tag is the converted value at the position of the tag's last
    occurrence in the request, so a tag asked twice is answered from its
    later position; values the server returns beyond the request are
    ignored (lines 225-248). *)
Theorem snapshots_by_position
    (bulk : list PIPoint -> Py.result (list AFValue))
    (conn : PIServerConnection) (tag_names : list string)
    (result : gmap string PIValue) :
  snapshots bulk conn tag_names = Ok result ->
  exists points af_values,
    Forall2 (fun t p => get_point conn t = Ok p) tag_names points /\
    bulk points = Ok af_values /\
    dom result = list_to_set tag_names /\
    forall k tag,
      tag_names !! k = Some tag ->
      (forall j, (k < j)%nat -> tag_names !! j <> Some tag) ->
      exists a v, af_values !! k = Some a /\ _convert_value a = Ok v /\
                  result !! tag = Some v.
Proof.
  intros H. apply snapshots_Ok_inv in H as (points & af_values & Hp & Ha & H).
  apply snapshots_fill_spec in H as (Hdom & _ & Hlast).
  exists points, af_values. split; [exact Hp|]. split; [exact Ha|].
  split; [rewrite Hdom, dom_empty_L; set_solver|exact Hlast].
Qed.

Lemma snapshots_by_position_witness :
  exists result,
    snapshots sample_bulk_CurrentValue sample_conn ["SINUSOID"; "BARE"; "SINUSOID"]
      = Ok result /\
    dom result = list_to_set ["SINUSOID"; "BARE"; "SINUSOID"].
Proof.
  eexists. split; [reflexivity|].
  destruct (snapshots_by_position sample_bulk_CurrentValue sample_conn
              ["SINUSOID"; "BARE"; "SINUSOID"] _ eq_refl)
    as (_ & _ & _ & _ & Hdom & _).
  exact Hdom.
Defined.

Lemma snapshots_fill_short (af_values : list AFValue) (tag_names : list string)
    (i : nat) (result : gmap string PIValue) :
  Forall (fun a => Py.returns (_convert_value a) = true) af_values ->
  (i <= length af_values)%nat ->
  (length af_values < i + length tag_names)%nat ->
  snapshots_fill af_values i tag_names result = Raise IndexError.
Proof.
  intros Hconv. revert i result.
  induction tag_names as [|t rest IH]; intros i result Hi Hlen.
  - cbn in Hlen. lia.
  - cbn [snapshots_fill].
    destruct (af_values !! i) as [a|] eqn:Ha; [|reflexivity].
    cbn. rewrite Forall_forall in Hconv.
    assert (a ∈ af_values) as Hin by (eapply list_elem_of_lookup_2, Ha).
    specialize (Hconv a Hin).
    destruct (_convert_value a) as [v|e]; [|discriminate Hconv].
    cbn. apply lookup_lt_Some in Ha. apply IH; cbn in Hlen; lia.
Qed.

(** X7: when the bulk call answers with fewer values than tags were requested,
    [snapshots] raises [IndexError] and returns no partial dictionary, though
    every value it was given converts (line 246). *)
Theorem snapshots_short_answer
    (bulk : list PIPoint -> Py.result (list AFValue))
    (conn : PIServerConnection) (tag_names : list string)
    (points : list PIPoint) (af_values : list AFValue) :
  Forall2 (fun t p => get_point conn t = Ok p) tag_names points ->
  bulk points = Ok af_values ->
  Forall (fun a => Py.returns (_convert_value a) = true) af_values ->
  (length af_values < length tag_names)%nat ->
  snapshots bulk conn tag_names = Raise IndexError.
Proof.
  intros Hp Ha Hconv Hlen. unfold snapshots.
  apply comprehension_Ok in Hp. rewrite Hp. cbn. rewrite Ha. cbn.
  apply snapshots_fill_short; [exact Hconv | lia | exact Hlen].
Qed.

Lemma snapshots_short_answer_witness :
  snapshots short_bulk_CurrentValue sample_conn ["SINUSOID"; "BARE"]
    = Raise IndexError.
Proof.
  apply (snapshots_short_answer short_bulk_CurrentValue sample_conn
           ["SINUSOID"; "BARE"]
           [sample_point {[ "pointtype" := attr_text "Float128" ]}; sample_point ∅]
           [af_int32]).
  - repeat constructor.
  - reflexivity.
  - repeat constructor.
  - cbn. lia.
Defined.

Lemma last_occurrence (tag : string) (tag_names : list string) :
  tag ∈ tag_names ->
  exists k, tag_names !! k = Some tag /\
            forall j, (k < j)%nat -> tag_names !! j <> Some tag.
Proof.
  induction tag_names as [|t rest IH]; intros Hin;
    [now apply elem_of_nil in Hin|].
  destruct (decide (tag ∈ rest)) as [Hrest|Hrest].
  - destruct (IH Hrest) as (k & Hk & Hlater). exists (S k). split; [exact Hk|].
    intros [|j] Hj; [lia|]. cbn. apply Hlater. lia.
  - apply elem_of_cons in Hin as [->|Hin]; [|contradiction].
    exists 0%nat. split; [reflexivity|].
    intros [|j] Hj; [lia|]. cbn. intros Hlookup.
    apply Hrest. eapply list_elem_of_lookup_2, Hlookup.
Qed.

(** X8: when the bulk call of the SDK answers as the single calls do (the
    current value of each point, in order), [snapshots] agrees with
    [snapshot]: every requested tag is mapped to what [snapshot] returns for
    it (lines 212-248). *)
Theorem snapshots_agree_with_snapshot
    (bulk : list PIPoint -> Py.result (list AFValue))
    (conn : PIServerConnection) (tag_names : list string)
    (result : gmap string PIValue) :
  (forall points, bulk points = Py.comprehension CurrentValue points) ->
  snapshots bulk conn tag_names = Ok result ->
  forall tag, tag ∈ tag_names ->
    exists v, snapshot conn tag = Ok v /\ result !! tag = Some v.
Proof.
  intros Hbulk H tag Hin.
  apply snapshots_Ok_inv in H as (points & af_values & Hp & Ha & H).
  apply snapshots_fill_spec in H as (_ & _ & Hlast).
  destruct (last_occurrence _ _ Hin) as (k & Hk & Hlater).
  destruct (Hlast k tag Hk Hlater) as (a & v & Hak & Hv & Hres).
  exists v. split; [|exact Hres].
  rewrite Hbulk in Ha. apply comprehension_Ok in Ha.
  destruct (Forall2_lookup_l _ _ _ _ _ Hp Hk) as (p & Hpk & Hget).
  destruct (Forall2_lookup_l _ _ _ _ _ Ha Hpk) as (a' & Ha' & Hcur).
  cbn in Hak. rewrite Hak in Ha'. injection Ha' as <-.
  unfold snapshot. rewrite Hget. cbn. rewrite Hcur. cbn. exact Hv.
Qed.

Lemma snapshots_agree_with_snapshot_witness :
  exists v, snapshot sample_conn "BARE" = Ok v /\
            value v = PyInt 42.
Proof.
  destruct (snapshots_agree_with_snapshot sample_bulk_CurrentValue sample_conn
              ["SINUSOID"; "BARE"] _ (fun points => eq_refl) eq_refl "BARE")
    as (v & Hv & _).
  - rewrite !elem_of_cons. auto.
  - exists v. split; [exact Hv|]. cbv in Hv. now injection Hv as <-.
Defined.

(** ** Point configuration: defaults and failures *)

Lemma get_point_config_inv (conn : PIServerConnection) (tag_name : string)
    (cfg : PointConfig) :
  get_point_config conn tag_name = Ok cfg ->
  exists point attrs pid z sp dd tv,
    get_point conn tag_name = Ok point /\
    GetAttributes point config_attributes = Ok attrs /\
    attr_get_int attrs "pointid" 0 = Ok pid /\
    attr_get_float attrs "zero" 0%float = Ok z /\
    attr_get_float attrs "span" 100%float = Ok sp /\
    attr_get_int attrs "displaydigits" (-5) = Ok dd /\
    attr_typical_value attrs = Ok tv /\
    name cfg = tag_name /\ point_id cfg = pid /\
    description cfg = attr_get_str attrs "descriptor" "" /\
    engineering_units cfg = attr_get_str attrs "engunits" "" /\
    zero cfg = Some z /\ span cfg = Some sp /\
    display_digits cfg = Some dd /\ typical_value cfg = tv.
Proof.
  unfold get_point_config. intros H.
  apply bind_Ok_inv in H as (point & Hp & H).
  apply bind_Ok_inv in H as (attrs & Ha & H).
  apply bind_Ok_inv in H as (pid & Hpid & H).
  apply bind_Ok_inv in H as (z & Hz & H).
  apply bind_Ok_inv in H as (sp & Hsp & H).
  apply bind_Ok_inv in H as (dd & Hdd & H).
  apply bind_Ok_inv in H as (tv & Htv & H).
  cbn in H. injection H as <-. cbn.
  exists point, attrs, pid, z, sp, dd, tv. repeat split; assumption.
Qed.

(** X9: what [get_point_config] returns for attributes the server does not
    report: point id 0, empty description and units, zero 0.0, span 100.0,
    display digits -5 and no typical value; the name is the requested tag,
    never an attribute.  A typical value that is reported but falsy (0, for
    instance) is dropped to [None] as well (lines 200-210). *)
Theorem get_point_config_missing_attributes (conn : PIServerConnection)
    (tag_name : string) (cfg : PointConfig) :
  get_point_config conn tag_name = Ok cfg ->
  exists point attrs,
    get_point conn tag_name = Ok point /\
    GetAttributes point config_attributes = Ok attrs /\
    name cfg = tag_name /\
    (attrs !! "pointid" = None -> point_id cfg = 0) /\
    (attrs !! "descriptor" = None -> description cfg = "") /\
    (attrs !! "engunits" = None -> engineering_units cfg = "") /\
    (attrs !! "zero" = None -> zero cfg = Some 0%float) /\
    (attrs !! "span" = None -> span cfg = Some 100%float) /\
    (attrs !! "displaydigits" = None -> display_digits cfg = Some (-5)) /\
    (attrs !! "typicalvalue" = None -> typical_value cfg = None) /\
    (forall v, attrs !! "typicalvalue" = Some v -> attr_truthy v = false ->
       typical_value cfg = None).
Proof.
  intros H.
  apply get_point_config_inv in H
    as (point & attrs & pid & z & sp & dd & tv & Hp & Ha & Hpid & Hz & Hsp & Hdd
        & Htv & Hname & -> & -> & -> & -> & -> & -> & ->).
  exists point, attrs. split; [exact Hp|]. split; [exact Ha|]. split; [exact Hname|].
  unfold attr_get_int, attr_get_float, attr_get_str, attr_typical_value in *.
  repeat split.
  - intros E. rewrite E in Hpid. now injection Hpid as <-.
  - now intros ->.
  - now intros ->.
  - intros E. rewrite E in Hz. now injection Hz as <-.
  - intros E. rewrite E in Hsp. now injection Hsp as <-.
  - intros E. rewrite E in Hdd. now injection Hdd as <-.
  - intros E. rewrite E in Htv. now injection Htv as <-.
  - intros v E Hfalse. rewrite E, Hfalse in Htv. now injection Htv as <-.
Qed.

Lemma get_point_config_missing_attributes_witness :
  exists cfg,
    get_point_config sample_conn "BARE" = Ok cfg /\
    name cfg = "BARE" /\ point_id cfg = 0 /\ span cfg = Some 100%float /\
    display_digits cfg = Some (-5) /\ typical_value cfg = None.
Proof.
  eexists. split; [reflexivity|].
  destruct (get_point_config_missing_attributes sample_conn "BARE" _ eq_refl)
    as (point & attrs & Hp & Ha & Hname & Hpid & _ & _ & _ & Hspan & Hdd & Htv & _).
  injection Hp as <-. injection Ha as <-.
  split; [exact Hname|]. split; [now apply Hpid|]. split; [now apply Hspan|].
  split; [now apply Hdd | now apply Htv].
Defined.

(** X10: [get_point_config] has no fallback for a numeric attribute that is
    reported but cannot be converted: once the point and its attributes are
    read, the call returns exactly when [int()] of the reported point id and
    display digits and [float()] of the reported zero, span and (truthy)
    typical value all succeed; descriptor, units and point type never make
    it fail (lines 197-209). *)
Theorem get_point_config_returns_iff (conn : PIServerConnection)
    (tag_name : string) (point : PIPoint) (attrs : gmap string attr_value) :
  get_point conn tag_name = Ok point ->
  GetAttributes point config_attributes = Ok attrs ->
  (Py.returns (get_point_config conn tag_name) = true <->
   Py.returns (attr_get_int attrs "pointid" 0) = true /\
   Py.returns (attr_get_float attrs "zero" 0%float) = true /\
   Py.returns (attr_get_float attrs "span" 100%float) = true /\
   Py.returns (attr_get_int attrs "displaydigits" (-5)) = true /\
   Py.returns (attr_typical_value attrs) = true).
Proof.
  intros Hp Ha. unfold get_point_config. rewrite Hp. cbn. rewrite Ha. cbn.
  destruct (attr_get_int attrs "pointid" 0); cbn; [|intuition discriminate].
  destruct (attr_get_float attrs "zero" 0%float); cbn; [|intuition discriminate].
  destruct (attr_get_float attrs "span" 100%float); cbn; [|intuition discriminate].
  destruct (attr_get_int attrs "displaydigits" (-5)); cbn; [|intuition discriminate].
  destruct (attr_typical_value attrs); cbn; intuition discriminate.
Qed.

Lemma get_point_config_returns_iff_witness :
  Py.returns (attr_get_int {[ "pointid" := attr_text "not a number" ]} "pointid" 0)
    = false /\
  (Py.returns (get_point_config faulty_conn "CDT158") = true <->
   Py.returns (attr_get_int {[ "pointid" := attr_text "not a number" ]} "pointid" 0) = true /\
   Py.returns (attr_get_float {[ "pointid" := attr_text "not a number" ]} "zero" 0%float) = true /\
   Py.returns (attr_get_float {[ "pointid" := attr_text "not a number" ]} "span" 100%float) = true /\
   Py.returns (attr_get_int {[ "pointid" := attr_text "not a number" ]} "displaydigits" (-5)) = true /\
   Py.returns (attr_typical_value {[ "pointid" := attr_text "not a number" ]}) = true).
Proof.
  split; [reflexivity|].
  apply (get_point_config_returns_iff faulty_conn "CDT158" faulty_point
           {[ "pointid" := attr_text "not a number" ]}); reflexivity.
Defined.

(** * The extraction scripts: paths *)

Example extract_plant_name_docstring :
  extract_plant_name "\\SERVER\Database\Category\PlantName" = Some "PlantName" /\
  extract_plant_name "\\SERVER\Database\Category" = Some "Category" /\
  extract_plant_name "\\SERVER\Database" = None /\
  str_split "EFTNAME=" "a;EFTNAME=Trip;x=1;EFTNAME=Other" = ["a;"; "Trip;x=1;"; "Other"] /\
  str_split "ab" "ab" = [""; ""] /\
  determine_plant_category "\\SRV\DB\Plants\Forest Hill" = Some 4.
Proof. repeat split. Qed.

(** ** Splitting and stripping *)

Lemma append_nil (s : string) : "" +:+ s = s.
Proof. reflexivity. Qed.

Lemma append_cons (a : ascii) (s t : string) :
  String a s +:+ t = String a (s +:+ t).
Proof. reflexivity. Qed.

Lemma prefix_char (c a : ascii) (s : string) :
  String.prefix (String c "") (String a s) = Ascii.eqb a c.
Proof.
  cbn. destruct (ascii_dec c a) as [->|Hne].
  - rewrite Ascii.eqb_refl. now destruct s.
  - symmetry. apply Ascii.eqb_neq. congruence.
Qed.

Lemma str_in_char_cons (c a : ascii) (s : string) :
  str_in (String c "") (String a s) = Ascii.eqb a c || str_in (String c "") s.
Proof. cbn [str_in]. now rewrite prefix_char. Qed.

Lemma split_piece (c : ascii) (p rest : string) :
  str_in (String c "") p = false ->
  split_from (String c "") 0 (p +:+ String c rest)
  = p :: split_from (String c "") 0 rest.
Proof.
  induction p as [|a p IH]; intros H.
  - rewrite append_nil. cbn [split_from].
    rewrite prefix_char, Ascii.eqb_refl. reflexivity.
  - rewrite str_in_char_cons in H. apply orb_false_elim in H as [Ha Hp].
    rewrite append_cons. cbn [split_from].
    rewrite prefix_char, Ha, IH by exact Hp. reflexivity.
Qed.

Lemma split_no_separator (c : ascii) (p : string) :
  str_in (String c "") p = false -> split_from (String c "") 0 p = [p].
Proof.
  induction p as [|a p IH]; intros H; [reflexivity|].
  rewrite str_in_char_cons in H. apply orb_false_elim in H as [Ha Hp].
  cbn [split_from]. rewrite prefix_char, Ha, IH by exact Hp. reflexivity.
Qed.

(** Splitting a joined list of separator-free components gives them back. *)
Lemma split_concat (c : ascii) (comps : list string) :
  comps <> [] ->
  Forall (fun p => str_in (String c "") p = false) comps ->
  str_split (String c "") (String.concat (String c "") comps) = comps.
Proof.
  unfold str_split. induction comps as [|x [|y l] IH]; intros Hne Hall.
  - contradiction.
  - cbn. apply split_no_separator. now apply Forall_inv in Hall.
  - apply Forall_cons in Hall as [Hx Hall].
    cbn [String.concat]. rewrite append_cons, append_nil.
    rewrite split_piece by exact Hx. f_equal. now apply IH.
Qed.

Lemma split_pieces_clean (c : ascii) (s : string) :
  Forall (fun p => str_in (String c "") p = false) (split_from (String c "") 0 s).
Proof.
  induction s as [|a s IH]; [repeat constructor|].
  cbn [split_from]. rewrite prefix_char.
  destruct (Ascii.eqb a c) eqn:Ha.
  - constructor; [reflexivity|exact IH].
  - destruct (split_from (String c "") 0 s) as [|piece pieces].
    + repeat constructor. rewrite str_in_char_cons, Ha. reflexivity.
    + apply Forall_cons in IH as [Hp Hps]. constructor; [|exact Hps].
      now rewrite str_in_char_cons, Ha.
Qed.

Lemma lstrip_backslashes (n : nat) (s : string) :
  str_lstrip backslash (backslashes n +:+ s) = str_lstrip backslash s.
Proof.
  induction n as [|n IH]; [reflexivity|].
  cbn [backslashes]. rewrite append_cons. cbn [str_lstrip].
  now rewrite Ascii.eqb_refl.
Qed.

Lemma rstrip_backslashes (m : nat) : str_rstrip backslash (backslashes m) = "".
Proof. induction m as [|m IH]; [reflexivity|]. cbn. now rewrite IH. Qed.

Lemma rstrip_app (c : ascii) (s t : string) :
  str_rstrip c (s +:+ t) =
  match str_rstrip c t with
  | EmptyString => str_rstrip c s
  | r => s +:+ r
  end.
Proof.
  induction s as [|a s IH].
  - rewrite append_nil. now destruct (str_rstrip c t).
  - rewrite append_cons. cbn [str_rstrip]. rewrite IH.
    destruct (str_rstrip c t); [reflexivity|]. now destruct s.
Qed.

Lemma rstrip_clean (c : ascii) (p : string) :
  str_in (String c "") p = false -> str_rstrip c p = p.
Proof.
  induction p as [|a p IH]; intros H; [reflexivity|].
  rewrite str_in_char_cons in H. apply orb_false_elim in H as [Ha Hp].
  cbn [str_rstrip]. rewrite IH by exact Hp. rewrite Ha. now destruct p.
Qed.

Lemma rstrip_concat (c : ascii) (comps : list string) :
  Forall (fun p => str_in (String c "") p = false) comps ->
  List.last comps "" <> "" ->
  str_rstrip c (String.concat (String c "") comps) = String.concat (String c "") comps /\
  String.concat (String c "") comps <> "".
Proof.
  induction comps as [|x [|y l] IH]; intros Hall Hlast.
  - now cbn in Hlast.
  - cbn in *. split; [|exact Hlast]. apply rstrip_clean. now apply Forall_inv in Hall.
  - apply Forall_cons in Hall as [Hx Hall].
    destruct (IH Hall Hlast) as [Hr Hne].
    change (String.concat (String c "") (x :: y :: l))
      with (x +:+ String c "" +:+ String.concat (String c "") (y :: l)).
    split.
    + rewrite rstrip_app, append_cons, append_nil. cbn [str_rstrip]. rewrite Hr.
      destruct (String.concat (String c "") (y :: l)); [contradiction|reflexivity].
    + destruct x; discriminate.
Qed.

Lemma lstrip_concat (c : ascii) (comps : list string) :
  Forall (fun p => str_in (String c "") p = false) comps ->
  hd "" comps <> "" ->
  str_lstrip c (String.concat (String c "") comps) = String.concat (String c "") comps.
Proof.
  destruct comps as [|x l]; [reflexivity|]. intros Hall Hhd.
  apply Forall_inv in Hall. cbn in Hhd.
  destruct x as [|a x]; [contradiction|].
  rewrite str_in_char_cons in Hall. apply orb_false_elim in Hall as [Ha _].
  destruct l as [|y l].
  - cbn [String.concat str_lstrip]. now rewrite Ha.
  - change (String.concat (String c "") (String a x :: y :: l))
      with (String a x +:+ String c "" +:+ String.concat (String c "") (y :: l)).
    rewrite append_cons. cbn [str_lstrip]. now rewrite Ha.
Qed.

Lemma lstrip_length (c : ascii) (t : string) :
  (String.length (str_lstrip c t) <= String.length t)%nat.
Proof.
  induction t as [|b t IH]; cbn; [lia|].
  destruct (Ascii.eqb b c); cbn; lia.
Qed.

Lemma lstrip_app_id (c : ascii) (s t : string) :
  s <> "" -> str_lstrip c s = s -> str_lstrip c (s +:+ t) = s +:+ t.
Proof.
  destruct s as [|a s]; [contradiction|]. intros _ H.
  rewrite append_cons. cbn [str_lstrip] in *.
  destruct (Ascii.eqb a c); [|reflexivity].
  pose proof (lstrip_length c s) as Hlen. rewrite H in Hlen. cbn in Hlen. lia.
Qed.

Lemma strip_path (n m : nat) (comps : list string) :
  Forall (fun p => str_in (String backslash "") p = false) comps ->
  hd "" comps <> "" -> List.last comps "" <> "" ->
  str_strip backslash
    (backslashes n +:+ String.concat (String backslash "") comps +:+ backslashes m)
  = String.concat (String backslash "") comps.
Proof.
  intros Hall Hhd Hlast. unfold str_strip.
  destruct (rstrip_concat _ _ Hall Hlast) as [Hr Hne].
  rewrite lstrip_backslashes.
  rewrite lstrip_app_id by (auto using lstrip_concat).
  now rewrite rstrip_app, rstrip_backslashes.
Qed.

(** X11: [extract_plant_name] on a path made of components that hold no
    backslash, joined by backslashes, whatever the number of leading and
    trailing backslashes: the plant is the fourth component when there are
    at least four, the third when there are exactly three, and there is none
    below three (lines 741-754). *)
Theorem extract_plant_name_components (n m : nat) (comps : list string) :
  Forall (fun p => str_in (String backslash "") p = false) comps ->
  hd "" comps <> "" -> List.last comps "" <> "" ->
  extract_plant_name
    (backslashes n +:+ String.concat (String backslash "") comps +:+ backslashes m)
  = match comps with
    | _ :: _ :: _ :: plant :: _ => Some plant
    | [_; _; third] => Some third
    | _ => None
    end.
Proof.
  intros Hall Hhd Hlast. unfold extract_plant_name.
  rewrite strip_path by assumption.
  assert (Hne : comps <> []) by (destruct comps; [contradiction|discriminate]).
  rewrite split_concat by assumption.
  assert (Hpath : String.eqb
            (backslashes n +:+ String.concat (String backslash "") comps +:+ backslashes m)
            "" = false).
  { apply String.eqb_neq. destruct (rstrip_concat _ _ Hall Hlast) as [_ Hc].
    destruct n; cbn; [|discriminate].
    destruct (String.concat (String backslash "") comps); [contradiction|discriminate]. }
  rewrite Hpath.
  destruct comps as [|a [|b [|c [|d l]]]]; reflexivity.
Qed.

Lemma extract_plant_name_components_witness :
  extract_plant_name "\\GENCOPI\Plants\Hydro\Karakaya\Unit 1\"
  = Some "Karakaya".
Proof.
  apply (extract_plant_name_components 2 1
           ["GENCOPI"; "Plants"; "Hydro"; "Karakaya"; "Unit 1"]).
  - repeat constructor.
  - discriminate.
  - discriminate.
Defined.

(** X12: whatever the path, the plant name [extract_plant_name] returns holds no
    backslash, and an empty path has no plant name. *)
Theorem extract_plant_name_clean (element_path plant : string) :
  extract_plant_name element_path = Some plant ->
  str_in (String backslash "") plant = false /\ element_path <> "".
Proof.
  unfold extract_plant_name.
  destruct (String.eqb element_path "") eqn:Hempty; [discriminate|].
  intros H. split; [|now apply String.eqb_neq].
  pose proof (split_pieces_clean backslash (str_strip backslash element_path))
    as Hclean.
  rewrite Forall_forall in Hclean. apply Hclean.
  unfold str_split in H.
  destruct (4 <=? _)%nat; [eapply list_elem_of_lookup_2, H|].
  destruct (3 <=? _)%nat; [eapply list_elem_of_lookup_2, H|discriminate].
Qed.

Lemma extract_plant_name_clean_witness :
  str_in (String backslash "") "C" = false /\ "\A\\B\C\" <> "".
Proof.
  apply (extract_plant_name_clean "\A\\B\C\" "C"). reflexivity.
Defined.

(** ** Plant categories *)

Lemma prefix_app_r (k b c : string) :
  String.prefix k b = true -> String.prefix k (b +:+ c) = true.
Proof.
  revert b. induction k as [|x k IH]; intros b H; [now destruct (b +:+ c)|].
  destruct b as [|y b]; [discriminate H|].
  rewrite append_cons. cbn in *.
  destruct (ascii_dec x y); [now apply IH|discriminate H].
Qed.

Lemma str_in_app_r (k b c : string) :
  str_in k b = true -> str_in k (b +:+ c) = true.
Proof.
  induction b as [|y b IH]; intros H.
  - cbn in H. rewrite orb_false_r in H.
    destruct k; [now destruct ("" +:+ c)|discriminate H].
  - rewrite append_cons. cbn [str_in] in *.
    apply orb_true_iff in H as [H|H]; apply orb_true_iff.
    + left. apply (prefix_app_r k (String y b) c H).
    + right. now apply IH.
Qed.

Lemma str_in_app_l (k a b : string) :
  str_in k b = true -> str_in k (a +:+ b) = true.
Proof.
  intros H. induction a as [|x a IH]; [exact H|].
  rewrite append_cons. cbn [str_in]. rewrite IH. apply orb_true_r.
Qed.

Lemma str_lower_app (a b : string) :
  str_lower (a +:+ b) = str_lower a +:+ str_lower b.
Proof.
  induction a as [|x a IH]; [reflexivity|].
  rewrite append_cons. cbn [str_lower]. now rewrite IH, append_cons.
Qed.

(** X13: a path that has "hydro" anywhere in it, in any letter case, is category
    1 (hydro), whatever else stands before or after it (lines 757-776). *)
Theorem plant_category_hydro_anywhere (before mid after : string) :
  str_in "hydro" (str_lower mid) = true ->
  determine_plant_category (before +:+ mid +:+ after) = Some 1.
Proof.
  intros H. unfold determine_plant_category.
  assert (Hne : String.eqb (before +:+ mid +:+ after) "" = false).
  { apply String.eqb_neq. destruct mid as [|x mid]; [discriminate H|].
    destruct before; discriminate. }
  rewrite Hne, !str_lower_app.
  now rewrite (str_in_app_l _ _ _ (str_in_app_r _ _ _ H)).
Qed.

Lemma plant_category_hydro_anywhere_witness :
  determine_plant_category
    ("\\GENCOPI\Plants\Thermal and Solar\" +:+ "HYDRO Karakaya" +:+ "\Gas unit")
  = Some 1.
Proof.
  apply (plant_category_hydro_anywhere
           "\\GENCOPI\Plants\Thermal and Solar\" "HYDRO Karakaya" "\Gas unit").
  reflexivity.
Defined.

(** X14: the category does not depend on letter case: two paths with the same
    lower-case form get the same category. *)
Theorem plant_category_ignores_case (p q : string) :
  str_lower p = str_lower q ->
  determine_plant_category p = determine_plant_category q.
Proof.
  intros H. unfold determine_plant_category. rewrite H.
  destruct p, q; try discriminate H; reflexivity.
Qed.

Lemma plant_category_ignores_case_witness :
  determine_plant_category "\\SRV\DB\WIND Farm" =
  determine_plant_category "\\srv\db\Wind FARM".
Proof.
  apply (plant_category_ignores_case "\\SRV\DB\WIND Farm" "\\srv\db\Wind FARM").
  reflexivity.
Defined.

(** * The extraction scripts: the element tree *)

Example sample_tree_search :
  search_analyses_in_elements sample_extract_info recursion_room (Ok sample_tree)
  = ([20; 40; 60],
     [SearchErrorExtracting (SdkError "analysis is checked out");
      SearchErrorAccessing "Unit 2" (SdkError "not loaded")]).
Proof. reflexivity. Qed.

(** The deleted element ends the loop over the children of "Plant" without
    a line: "Pump" and "Unit 1" are not visited, "Yard" is.  With no
    recursion room the children of "Plant" are skipped as silently. *)
Example stale_tree_search :
  search_analyses_in_elements sample_extract_info recursion_room (Ok stale_tree)
    = ([20; 80], []) /\
  search_analyses_in_elements sample_extract_info 0 (Ok sample_tree)
    = ([20], []) /\
  search_analyses_in_elements sample_extract_info recursion_room
    (Ok [ mkAFElement (Raise (SdkError "element was deleted"))
            (Raise (SdkError "not loaded")) (Ok []);
          mkAFElement (Ok "Yard") (Ok [8]) (Ok []) ])
    = ([], [SearchErrorTraversing (SdkError "element was deleted")]).
Proof. repeat split. Qed.

Section SearchFacts.

Context {AFAnalysis analysis_info : Type}.
Variable extract : AFAnalysis -> Py.result analysis_info.

Lemma fold_search_step (el_Name : Py.result string) (analyses : list AFAnalysis)
    (st : list analysis_info * list search_printed) :
  fold_left (search_step extract el_Name) analyses st =
  (st.1 ++ omap (fun a => match extract a with
                          | Ok info => Some info
                          | Raise _ => None
                          end) analyses,
   st.2 ++ flat_map (fun a => match extract a, el_Name with
                              | Ok _, Ok _ => []
                              | Ok _, Raise e => [SearchErrorExtracting e]
                              | Raise e, _ => [SearchErrorExtracting e]
                              end) analyses).
Proof.
  revert st. induction analyses as [|a l IH]; intros [lst out]; cbn.
  - now rewrite !app_nil_r.
  - rewrite IH. unfold search_step.
    destruct (extract a), el_Name; cbn; now rewrite <- ?app_assoc, ?app_nil_r.
Qed.

(** The analyses block of one element: nothing happens when its handler
    fails, else the element contributes its records and its lines. *)
Lemma element_analyses_spec (element : AFElement AFAnalysis)
    (st : list analysis_info * list search_printed) :
  element_analyses extract element st =
  match handler_fails element with
  | Some e => Raise e
  | None => Ok (st.1 ++ element_records extract element,
                st.2 ++ element_printed extract element)
  end.
Proof.
  destruct element as [[name|e'] [analyses|e] children]; cbn;
    rewrite ?fold_search_step, ?app_nil_r; reflexivity.
Qed.

Lemma handler_fails_silent (element : AFElement AFAnalysis) (e : Py.exn) :
  handler_fails element = Some e ->
  element_records extract element = [] /\ element_printed extract element = [].
Proof.
  destruct element as [[name|e'] [analyses|e''] children]; cbn;
    try discriminate. now split.
Qed.

Lemma traverse_elements_cons (stack : nat) (element : AFElement AFAnalysis)
    (rest : list (AFElement AFAnalysis))
    (st : list analysis_info * list search_printed) :
  traverse_elements extract stack (element :: rest) st =
  match element_analyses extract element st with
  | Raise e => (st, Some e)
  | Ok st1 =>
      traverse_elements extract stack rest
        match element with
        | mkAFElement _ _ (Ok children) =>
            match stack with
            | O => st1
            | S stack' => (traverse_elements extract stack' children st1).1
            end
        | mkAFElement _ _ (Raise _) => st1
        end
  end.
Proof. destruct stack; reflexivity. Qed.

Lemma visited_cons (stack : nat) (element : AFElement AFAnalysis)
    (rest : list (AFElement AFAnalysis)) :
  visited stack (element :: rest) =
  element ::
  match handler_fails element with
  | Some _ => []
  | None =>
      match element with
      | mkAFElement _ _ (Ok children) =>
          match stack with
          | O => []
          | S stack' => visited stack' children
          end
      | mkAFElement _ _ (Raise _) => []
      end ++ visited stack rest
  end.
Proof. destruct stack; reflexivity. Qed.

Lemma visited_nil (stack : nat) : visited (AFAnalysis := AFAnalysis) stack [] = [].
Proof. now destruct stack. Qed.

Lemma undisturbed_cons (stack : nat) (element : AFElement AFAnalysis)
    (rest : list (AFElement AFAnalysis)) :
  undisturbed stack (element :: rest) =
  match handler_fails element with
  | Some _ => false
  | None =>
      match element with
      | mkAFElement _ _ (Ok []) => true
      | mkAFElement _ _ (Ok children) =>
          match stack with
          | O => false
          | S stack' => undisturbed stack' children
          end
      | mkAFElement _ _ (Raise _) => true
      end && undisturbed stack rest
  end.
Proof. destruct stack; reflexivity. Qed.

(** A call of [traverse_elements] adds the records and the lines of the
    elements it visits, in order, and ends with the exception of the first
    handler that fails in its own list. *)
Lemma traverse_elements_spec (stack : nat) (elements : list (AFElement AFAnalysis))
    (st : list analysis_info * list search_printed) :
  traverse_elements extract stack elements st =
  ((st.1 ++ flat_map (element_records extract) (visited stack elements),
    st.2 ++ flat_map (element_printed extract) (visited stack elements)),
   aborted elements).
Proof.
  revert elements st. induction stack as [|stack IHstack];
    induction elements as [|element rest IH]; intros [lst out];
    try (cbn; now rewrite !app_nil_r).
  - rewrite traverse_elements_cons, element_analyses_spec, visited_cons.
    cbn [aborted].
    destruct (handler_fails element) as [e|] eqn:Hh.
    + destruct (handler_fails_silent _ _ Hh) as [Hr Hp].
      cbn. now rewrite Hr, Hp, !app_nil_r.
    + destruct element as [name analyses [children|e]];
        rewrite IH; cbn [fst snd flat_map app];
        now rewrite <- !app_assoc.
  - rewrite traverse_elements_cons, element_analyses_spec, visited_cons.
    cbn [aborted].
    destruct (handler_fails element) as [e|] eqn:Hh.
    + destruct (handler_fails_silent _ _ Hh) as [Hr Hp].
      cbn. now rewrite Hr, Hp, !app_nil_r.
    + destruct element as [name analyses [children|e]].
      * rewrite IHstack, IH. cbn [fst snd flat_map].
        now rewrite !flat_map_app, <- !app_assoc.
      * rewrite IH. cbn [fst snd flat_map app]. now rewrite <- !app_assoc.
Qed.

(** In trees no handler fails in and the recursion room suffices for, the
    traversal visits every element whose ancestors let their children be
    read. *)
Lemma visited_undisturbed (stack : nat) (elements : list (AFElement AFAnalysis)) :
  undisturbed stack elements = true ->
  visited stack elements = flat_map reachable elements /\
  aborted elements = None.
Proof.
  revert elements. induction stack as [|stack IHstack];
    induction elements as [|element rest IH]; try (now split).
  - rewrite undisturbed_cons, visited_cons. cbn [aborted flat_map].
    destruct (handler_fails element); [discriminate|].
    destruct element as [name analyses [[|child children]|e]];
      try discriminate; intros H; apply andb_true_iff in H as [_ H];
      destruct (IH H) as [-> ->]; now split.
  - rewrite undisturbed_cons, visited_cons. cbn [aborted flat_map].
    destruct (handler_fails element); [discriminate|].
    destruct element as [name analyses [[|child children]|e]];
      intros H; apply andb_true_iff in H as [Hc H];
      destruct (IH H) as [-> ->].
    + rewrite visited_nil. now split.
    + destruct (IHstack _ Hc) as [-> _]. now split.
    + now split.
Qed.

Lemma search_analyses_in_elements_spec (stack : nat)
    (root_elements : list (AFElement AFAnalysis)) :
  search_analyses_in_elements extract stack (Ok root_elements) =
  (flat_map (element_records extract) (visited stack root_elements),
   flat_map (element_printed extract) (visited stack root_elements)
   ++ traversing_line (aborted root_elements)).
Proof.
  unfold search_analyses_in_elements. rewrite traverse_elements_spec.
  destruct (aborted root_elements); cbn; now rewrite ?app_nil_r.
Qed.

End SearchFacts.

(** X15: [search_analyses_in_elements] walks the element tree parents first
    and returns the analyses that extract, element by element in the order
    of the visit.  Where no element has both its analyses and its name
    unreadable, and the tree is no deeper than the interpreter's recursion
    room, it visits every element that can be reached from the roots
    exactly once, and an element whose analyses cannot be read, or an
    analysis that fails, costs an error line and nothing else; only the
    subtree below an element whose children cannot be read is skipped.  An
    element whose analyses and name both cannot be read ends the loop over
    its own list of siblings, with no line for itself: its children and
    the siblings after it are not visited, and only at the root has that
    an error line (lines 779-824). *)
Theorem search_visits_every_reachable_element
    {AFAnalysis analysis_info : Type}
    (extract : AFAnalysis -> Py.result analysis_info)
    (stack : nat) (root_elements : list (AFElement AFAnalysis)) :
  search_analyses_in_elements extract stack (Ok root_elements) =
    (flat_map (element_records extract) (visited stack root_elements),
     flat_map (element_printed extract) (visited stack root_elements)
     ++ traversing_line (aborted root_elements)) /\
  (undisturbed stack root_elements = true ->
   visited stack root_elements = flat_map reachable root_elements /\
   search_analyses_in_elements extract stack (Ok root_elements) =
     (flat_map (element_records extract) (flat_map reachable root_elements),
      flat_map (element_printed extract) (flat_map reachable root_elements))) /\
  (forall element rest e,
     handler_fails element = Some e ->
     visited stack (element :: rest) = [element] /\
     aborted (element :: rest) = Some e /\
     element_records extract element = [] /\
     element_printed extract element = []).
Proof.
  split; [apply search_analyses_in_elements_spec|]. split.
  - intros H. destruct (visited_undisturbed _ _ H) as [Hv Ha].
    split; [exact Hv|].
    rewrite search_analyses_in_elements_spec, Hv, Ha. cbn.
    now rewrite app_nil_r.
  - intros element rest e Hh. rewrite visited_cons. cbn [aborted].
    rewrite Hh. destruct (handler_fails_silent extract _ _ Hh) as [Hr Hp].
    now repeat split.
Qed.

Lemma search_visits_every_reachable_element_witness :
  search_analyses_in_elements sample_extract_info recursion_room (Ok sample_tree)
    = (flat_map (element_records sample_extract_info)
         (flat_map reachable sample_tree),
       flat_map (element_printed sample_extract_info)
         (flat_map reachable sample_tree)) /\
  length (flat_map reachable sample_tree) = 5%nat.
Proof.
  split; [|reflexivity].
  apply (search_visits_every_reachable_element sample_extract_info
           recursion_room sample_tree).
  reflexivity.
Defined.

(** * The extraction scripts: point records *)

Example sample_attribute_entries :
  attribute_entry sample_attributes "zero" = JFloat 0.5 /\
  attribute_entry sample_attributes "pointtype" = JStr "Float32" /\
  attribute_entry sample_attributes "tag" = JStr "SINUSOID" /\
  attribute_entry sample_attributes "span" = JNull.
Proof. repeat split. Qed.

Lemma set_items_mapped (f : string -> json) (names : list string)
    (d : gmap string json) (k : string) :
  set_items (map (fun n => (n, f n)) names) d !! k =
  if decide (k ∈ names) then Some (f k) else d !! k.
Proof.
  unfold set_items, point_info. revert d.
  induction names as [|n names IH]; intros d; cbn.
  - now rewrite decide_False by apply not_elem_of_nil.
  - rewrite IH. destruct (decide (k ∈ names)) as [Hin|Hnot].
    + rewrite decide_True by (now right). reflexivity.
    + destruct (decide (k = n)) as [->|Hne].
      * rewrite decide_True by (now left). apply lookup_insert_eq.
      * rewrite decide_False by (rewrite elem_of_cons; tauto).
        now apply lookup_insert_ne.
Qed.

Lemma set_items_is_Some (items : list (string * json)) (d : gmap string json)
    (k : string) :
  is_Some (d !! k) -> is_Some (set_items items d !! k).
Proof.
  unfold set_items, point_info. revert d.
  induction items as [|[n j] items IH]; intros d H; [exact H|].
  cbn. apply IH. destruct (decide (n = k)) as [->|Hne].
  - rewrite lookup_insert_eq. eauto.
  - now rewrite lookup_insert_ne.
Qed.

(** [int(point.ID) if hasattr(point, "ID") else None]. *)
Lemma point_body_inv (point : PIPointObject) (info : gmap string json) :
  point_body point = Ok info ->
  exists name id,
    str_Name point = Ok name /\
    match obj_ID point with
    | Some r => n ← r; Ok (JInt n)
    | None => Ok JNull
    end = Ok id /\
    forall k,
      k <> "current_value" -> k <> "point_class" -> k <> "server_name" ->
      info !! k =
        match obj_attributes point with
        | Ok items => set_items items (<["id" := id]> (<["name" := JStr name]> ∅))
        | Raise e => <["attributes_error" := JStr (Py.message e)]>
                       (<["id" := id]> (<["name" := JStr name]> ∅))
        end !! k.
Proof.
  unfold point_body, point_info. intros H.
  apply bind_Ok_inv in H as (name & Hname & H).
  apply bind_Ok_inv in H as (id & Hid & H).
  exists name, id. split; [exact Hname|]. split; [exact Hid|].
  intros k Hcv Hpc Hsn. cbn in H. injection H as <-.
  destruct (obj_server_name point) as [[s|]|e1];
    destruct (obj_point_class point) as [[pc|]|e2];
    destruct (obj_current_value point) as [[cv|]|e3];
    now rewrite ?lookup_insert_ne by congruence.
Qed.

Lemma point_attributes_other (k : string) :
  k ∈ point_attributes ->
  k <> "name" /\ k <> "id" /\ k <> "error" /\ k <> "current_value" /\
  k <> "point_class" /\ k <> "server_name".
Proof.
  intros H. repeat split; intros ->; revert H;
    match goal with
    | |- ?k ∈ ?l -> False =>
        apply (proj1 (bool_decide_eq_false (k ∈ l))); vm_compute; reflexivity
    end.
Qed.

(** X16: a point that is extracted in full has a record with its name, its id
    and an entry for every one of the 53 attribute names the script asks
    for; an attribute the server did not report, or whose conversion
    failed, is there with [None] (lines 86-178). *)
Theorem full_record_schema (point : PIPointObject) (name : string) (id : Z)
    (attrs : gmap string attribute_value) :
  obj_Name point = NameIs (Ok name) ->
  obj_ID point = Some (Ok id) ->
  obj_attributes point = attributes_block (Ok attrs) ->
  exists info : gmap string json,
    point_record point = Some info /\
    info !! "name" = Some (JStr name) /\
    info !! "id" = Some (JInt id) /\
    info !! "error" = None /\
    forall attr_name, attr_name ∈ point_attributes ->
      info !! attr_name = Some (attribute_entry attrs attr_name).
Proof.
  intros Hname Hid Hattrs.
  assert (Hbody : exists info, point_body point = Ok info).
  { unfold point_body, str_Name. rewrite Hname, Hid. cbn. eauto. }
  destruct Hbody as [info Hbody]. exists info.
  split; [unfold point_record; now rewrite Hbody|].
  destruct (point_body_inv point info Hbody) as (name' & id' & Hn & Hi & Hlookup).
  unfold str_Name in Hn. rewrite Hname in Hn. injection Hn as <-.
  rewrite Hid in Hi. cbn in Hi. injection Hi as <-.
  rewrite Hattrs in Hlookup.
  change (attributes_block (Ok attrs))
    with (Ok (map (fun attr_name => (attr_name, attribute_entry attrs attr_name))
                point_attributes) : Py.result (list (string * json)))
    in Hlookup.
  cbv beta iota in Hlookup.
  assert (Hk : forall k,
    k <> "current_value" -> k <> "point_class" -> k <> "server_name" ->
    info !! k =
    if decide (k ∈ point_attributes) then Some (attribute_entry attrs k)
    else (<["id" := JInt id]> (<["name" := JStr name]> ∅) : gmap string json) !! k).
  { intros k H1 H2 H3.
    etransitivity; [apply Hlookup; assumption | apply set_items_mapped]. }
  repeat split.
  - rewrite Hk by discriminate. reflexivity.
  - rewrite Hk by discriminate. reflexivity.
  - rewrite Hk by discriminate. reflexivity.
  - intros attr_name Hin.
    destruct (point_attributes_other _ Hin) as (_ & _ & _ & H1 & H2 & H3).
    rewrite Hk by assumption. now rewrite decide_True.
Qed.

Lemma full_record_schema_witness :
  exists info : gmap string json,
    point_record (point_with_attributes "SINUSOID" 1 sample_attributes) = Some info /\
    info !! "name" = Some (JStr "SINUSOID") /\
    info !! "zero" = Some (JFloat 0.5) /\
    info !! "recno" = Some JNull.
Proof.
  destruct (full_record_schema (point_with_attributes "SINUSOID" 1 sample_attributes)
              "SINUSOID" 1 sample_attributes eq_refl eq_refl eq_refl)
    as (info & Hrec & Hname & _ & _ & Hattrs).
  exists info. split; [exact Hrec|]. split; [exact Hname|].
  split; apply Hattrs; apply list_elem_of_In; cbn;
    repeat ((left; reflexivity) || right).
Defined.

Lemma point_body_named (point : PIPointObject) (info : point_info) :
  point_body point = Ok info -> is_Some (info !! "name").
Proof.
  intros H. apply point_body_inv in H as (name & id & _ & _ & Hlookup).
  rewrite Hlookup by discriminate.
  assert (Hbase : is_Some ((<["id" := id]> (<["name" := JStr name]> ∅)
                            : gmap string json) !! "name")).
  { rewrite lookup_insert_ne by discriminate. rewrite lookup_insert_eq. eauto. }
  destruct (obj_attributes point) as [items|e].
  - now apply set_items_is_Some.
  - destruct Hbase as [x Hx]. exists x.
    etransitivity; [apply lookup_insert_ne; discriminate | exact Hx].
Qed.

Lemma point_record_named (point : PIPointObject) (r : point_info) :
  point_record point = Some r -> is_Some (r !! "name").
Proof.
  unfold point_record. destruct (point_body point) as [info|e] eqn:Hbody.
  - intros [= <-]. eapply point_body_named, Hbody.
  - unfold error_record.
    destruct (obj_Name point) as [|[name|e']]; intros [= <-];
      (eexists; etransitivity;
       [apply lookup_insert_ne; discriminate | apply lookup_insert_eq]).
Qed.

Lemma point_record_None (point : PIPointObject) :
  point_record point = None <-> name_unreadable point = true.
Proof.
  unfold point_record, name_unreadable, error_record, point_body, str_Name.
  destruct (obj_Name point) as [|[name|e]]; cbn.
  - split; discriminate.
  - destruct (obj_ID point) as [[id|e]|]; cbn; split; discriminate.
  - tauto.
Qed.

Lemma omap_point_record_length (points : list PIPointObject) :
  (length (omap point_record points) + length (filter (fun p => name_unreadable p = true) points)
   = length points)%nat.
Proof.
  induction points as [|p l IH]; [reflexivity|].
  rewrite (filter_cons (fun p => name_unreadable p = true) p l).
  cbn [omap list_omap].
  destruct (point_record p) as [r|] eqn:Hr.
  - rewrite decide_False; [cbn [length]; lia|].
    intros Hu. apply point_record_None in Hu. congruence.
  - rewrite decide_True by (now apply point_record_None). cbn [length]. lia.
Qed.

(** X17: once the connection is open and the search answered, [extract_pi_points]
    reports every point found whose name can be read (or is missing), in
    order, and every record it returns has a "name" entry: the only points
    left out are those whose name raises when read (lines 142-233). *)
Theorem points_reported_unless_name_unreadable
    (connect : string -> Py.result PIServerSession)
    (pi_server pattern : string) (max_count : Z)
    (conn : PIServerSession) (points : list PIPointObject) :
  connect pi_server = Ok conn ->
  search_points conn pattern max_count = Ok points ->
  exists points_list out,
    extract_pi_points connect pi_server pattern max_count = (Ok points_list, out) /\
    points_list = omap point_record points /\
    (forall r : gmap string json, r ∈ points_list -> is_Some (r !! "name")) /\
    (forall p, p ∈ points ->
       name_unreadable p = true /\ point_record p = None \/
       name_unreadable p = false /\
       exists r, point_record p = Some r /\ r ∈ points_list) /\
    (length points_list + length (filter (fun p => name_unreadable p = true) points)
     = length points)%nat.
Proof.
  intros Hconn Hsearch.
  exists (omap point_record points), (flat_map point_printed points).
  split.
  { unfold extract_pi_points. now rewrite Hconn, Hsearch, fold_point_step. }
  split; [reflexivity|].
  split.
  { intros r Hr. apply list_elem_of_omap in Hr as (p & _ & Hp).
    now apply point_record_named in Hp. }
  split; [|apply omap_point_record_length].
  intros p Hp. destruct (point_record p) as [r|] eqn:Hr.
  - right. split.
    + destruct (name_unreadable p) eqn:Hu; [|reflexivity].
      apply point_record_None in Hu. congruence.
    + exists r. split; [reflexivity|]. apply list_elem_of_omap. eauto.
  - left. split; [now apply point_record_None | reflexivity].
Qed.

Lemma points_reported_unless_name_unreadable_witness :
  exists points_list out,
    extract_pi_points connect_sample "GENCOPI" "*" 100000 = (Ok points_list, out) /\
    (length points_list + 1 = 3)%nat.
Proof.
  destruct (points_reported_unless_name_unreadable connect_sample "GENCOPI" "*"
              100000
              {| search_points := fun _ _ =>
                   Ok [broken_id_point; broken_name_point; healthy_point] |}
              [broken_id_point; broken_name_point; healthy_point]
              eq_refl eq_refl)
    as (points_list & out & Hrun & _ & _ & _ & Hlen).
  exists points_list, out. split; [exact Hrun | exact Hlen].
Defined.

(** * The extraction scripts: one database, all databases *)

(** X18: [extract_analyses] on one database falls back to the search through
    the element tree exactly when reading the analyses collection raises an
    [AttributeError]; the result is then what the search finds, which is
    every analysis that extracts of every reachable element when the
    traversal is not disturbed.  Any other exception reading the collection
    aborts the extraction; no handler catches it (lines 166-185). *)
Theorem extract_analyses_fallback
    {AFAnalysis analysis_info : Type}
    (extract : AFAnalysis -> Py.result analysis_info) (stack : nat)
    (all_databases : string -> Py.result (list analysis_info) * list printed)
    (connect : string -> string -> Py.result (AFDatabaseSession AFAnalysis))
    (af_server database : string)
    (conn : AFDatabaseSession AFAnalysis) (e : Py.exn)
    (root_elements : list (AFElement AFAnalysis)) :
  connect af_server database = Ok conn ->
  session_Analyses conn = Raise e ->
  session_Elements conn = Ok root_elements ->
  (Py.is_instance e AttributeError = true ->
   extract_analyses extract stack all_databases connect af_server (Some database)
   = (Ok (search_analyses_in_elements extract stack (Ok root_elements)).1,
      map inr (search_analyses_in_elements extract stack (Ok root_elements)).2) /\
   (undisturbed stack root_elements = true ->
    extract_analyses extract stack all_databases connect af_server (Some database)
    = (Ok (flat_map (element_records extract) (flat_map reachable root_elements)),
       map inr (flat_map (element_printed extract)
                  (flat_map reachable root_elements))))) /\
  (Py.is_instance e AttributeError = false ->
   extract_analyses extract stack all_databases connect af_server (Some database)
   = (Raise e, [])).
Proof.
  intros Hconn Hanalyses Helements. unfold extract_analyses.
  rewrite Hconn, Hanalyses, Helements. split; intros ->; [|reflexivity].
  split.
  - now destruct (search_analyses_in_elements extract stack (Ok root_elements)).
  - intros H. destruct (visited_undisturbed _ _ H) as [Hv Ha].
    rewrite search_analyses_in_elements_spec, Hv, Ha. cbn.
    now rewrite app_nil_r.
Qed.

Lemma extract_analyses_fallback_witness :
  extract_analyses sample_extract_info recursion_room (fun _ => (Ok [], []))
    (fun _ _ => Ok sample_session) "GENCOPI" (Some "Plant")
  = (Ok (flat_map (element_records sample_extract_info)
           (flat_map reachable sample_tree)),
     map inr (flat_map (element_printed sample_extract_info)
                (flat_map reachable sample_tree))) /\
  extract_analyses sample_extract_info recursion_room (fun _ => (Ok [], []))
    (fun _ _ => Ok locked_session) "GENCOPI" (Some "Plant")
  = (Raise (SdkError "access denied"), []).
Proof.
  split.
  - apply (extract_analyses_fallback sample_extract_info recursion_room
             (fun _ => (Ok [], []))
             (fun _ _ => Ok sample_session) "GENCOPI" "Plant" sample_session
             AttributeError sample_tree eq_refl eq_refl eq_refl);
      reflexivity.
  - apply (extract_analyses_fallback sample_extract_info recursion_room
             (fun _ => (Ok [], []))
             (fun _ _ => Ok locked_session) "GENCOPI" "Plant" locked_session
             (SdkError "access denied") sample_tree eq_refl eq_refl eq_refl).
    reflexivity.
Defined.

(** X19: the [finally] block of [extract_analyses_from_all_databases] never
    changes the outcome of the run: the list, or the exception, is that of
    the body whether [Disconnect()] succeeds or fails, and a failing
    [Disconnect()] only adds a warning line after what the body printed.
    [Disconnect()] is called also when [Connect()] failed (lines 97-134). *)
Theorem disconnect_never_masks
    {AFAnalysis analysis_info : Type}
    (extract : AFAnalysis -> string -> Py.result analysis_info)
    (systems : string -> option (PISystem AFAnalysis)) (af_server : string)
    (pi_system : PISystem AFAnalysis) :
  systems af_server = Some pi_system ->
  (extract_analyses_from_all_databases extract systems af_server).1
    = (analyses_body extract pi_system).1 /\
  (Py.returns (Disconnect pi_system) = true ->
   (extract_analyses_from_all_databases extract systems af_server).2
   = (analyses_body extract pi_system).2) /\
  (forall e, Disconnect pi_system = Raise e ->
   (extract_analyses_from_all_databases extract systems af_server).2
   = (analyses_body extract pi_system).2 ++ [WarningDisconnecting e]) /\
  (forall e, Connect pi_system = Raise e ->
   (extract_analyses_from_all_databases extract systems af_server).1 = Raise e).
Proof.
  intros Hsys. unfold extract_analyses_from_all_databases. rewrite Hsys.
  destruct (analyses_body extract pi_system) as [outcome out] eqn:Hbody.
  repeat split.
  - now destruct (Disconnect pi_system).
  - destruct (Disconnect pi_system); [reflexivity|discriminate].
  - now intros e ->.
  - intros e He. unfold analyses_body in Hbody. rewrite He in Hbody.
    injection Hbody as <- <-. now destruct (Disconnect pi_system).
Qed.

Lemma disconnect_never_masks_witness :
  extract_analyses_from_all_databases sample_extract_raw
    (fun _ => Some unreachable_system) "GENCOPI"
  = (Raise (SdkError "connection refused"),
     [WarningDisconnecting (SdkError "not connected")]).
Proof.
  destruct (disconnect_never_masks sample_extract_raw
              (fun _ => Some unreachable_system) "GENCOPI" unreachable_system
              eq_refl)
    as (Hresult & _ & Hprinted & _).
  specialize (Hprinted _ eq_refl).
  destruct (extract_analyses_from_all_databases sample_extract_raw
              (fun _ => Some unreachable_system) "GENCOPI") as [outcome out].
  cbn in Hresult, Hprinted. now rewrite Hresult, Hprinted.
Defined.

(** * Interpolated values *)

(** X20: the spacing of [interpolated_values] comes from its [interval] argument
    alone: the [interval] field of the options is never read.  Options that
    agree on the filter expression and the filtered-values flag give the
    same call, and a caller who sets the interval only in the options gets
    the default spacing "1h" (lines 336-372). *)
Theorem interpolated_values_ignores_options_interval
    {AFTimeSpan : Type} (Parse : string -> Py.result AFTimeSpan)
    (InterpolatedValues :
       PIPoint -> AFTimeRange -> AFTimeSpan -> option string -> bool ->
       Py.result (list AFValue))
    (conn : PIServerConnection) (tag_name : string) (start end_ : PITimestamp)
    (interval : argument string) (options options' : InterpolatedValuesOptions) :
  iv_filter_expression options = iv_filter_expression options' ->
  iv_include_filtered_values options = iv_include_filtered_values options' ->
  interpolated_values Parse InterpolatedValues conn tag_name start end_
    interval (Some options)
  = interpolated_values Parse InterpolatedValues conn tag_name start end_
      interval (Some options') /\
  interpolated_values Parse InterpolatedValues conn tag_name start end_
    Omitted (Some options)
  = interpolated_values Parse InterpolatedValues conn tag_name start end_
      (Passed "1h") (Some options').
Proof.
  intros Hf Hi. unfold interpolated_values, default. cbn [from_option id].
  now rewrite Hf, Hi.
Qed.

Lemma interpolated_values_ignores_options_interval_witness :
  length <$> (match interpolated_values sample_Parse sample_InterpolatedValues
                      sample_conn "SINUSOID" (Ts_str "*-4h") (Ts_str "*") Omitted
                      (Some {| iv_interval := "15 minutes";
                               iv_filter_expression := None;
                               iv_include_filtered_values := false |})
              with Ok vs => Some vs | Raise _ => None end)
  = Some 2%nat.
Proof.
  destruct (interpolated_values_ignores_options_interval sample_Parse
              sample_InterpolatedValues sample_conn "SINUSOID"
              (Ts_str "*-4h") (Ts_str "*") Omitted
              {| iv_interval := "15 minutes"; iv_filter_expression := None;
                 iv_include_filtered_values := false |}
              InterpolatedValuesOptions_default eq_refl eq_refl)
    as [_ H].
  rewrite H. reflexivity.
Defined.

(** * The extraction scripts: one analysis *)

Example sample_analysis_info :
  exists info,
    extract_analysis_info_raw "2024-03-01T00:00:00+00:00" sample_analysis "Plants"
      = Ok info /\
    info !! "EventFrameTemplateName" = Some (IStr "Trip") /\
    info !! "PlantName" = Some (IStr "Karakaya") /\
    info !! "PlantCategory" = Some (IInt 1) /\
    info !! "IsEnabled" = Some (IBool true) /\
    info !! "StartTrigger" = Some (IStr "'Speed' > 3000") /\
    info !! "TrueForEnding" = Some INone /\
    info !! "Severity" = Some (IStr "Major") /\
    info !! "InputCount" = Some (IInt 2) /\
    info !! "OutputCount" = Some (IInt 0) /\
    info !! "Version" = Some (IInt 0) /\
    info !! "TemplateName" = Some INone /\
    info !! "CreateDate" = Some INone /\
    info !! "ModifiedBy" = Some (IStr "engineer") /\
    size info = 35%nat.
Proof. eexists. split; [reflexivity|]. vm_compute. repeat split. Qed.

(** ** The analysis dictionary *)

Lemma run_block_lookup_other (steps : list guarded_assignment)
    (info : gmap string info_value) (k : string) :
  k ∉ map fst steps -> (run_block steps info).1 !! k = info !! k.
Proof.
  revert info.
  induction steps as [|[key [[v|]|e]] rest IH]; intros info Hk; cbn;
    try reflexivity.
  - cbn in Hk. apply not_elem_of_cons in Hk as [Hne Hk].
    rewrite IH by exact Hk. apply lookup_insert_ne. congruence.
  - cbn in Hk. apply not_elem_of_cons in Hk as [Hne Hk]. now apply IH.
Qed.

Lemma insert_is_Some (key k : string) (v : info_value)
    (info : gmap string info_value) :
  is_Some (info !! k) -> is_Some (<[key := v]> info !! k).
Proof.
  intros H. destruct (decide (key = k)) as [Heq|Hne].
  - subst k. rewrite lookup_insert_eq. eauto.
  - now rewrite lookup_insert_ne.
Qed.

Lemma insert_is_Some_here (k : string) (v : info_value)
    (info : gmap string info_value) :
  is_Some (<[k := v]> info !! k).
Proof. rewrite lookup_insert_eq. eauto. Qed.

Lemma run_block_is_Some (steps : list guarded_assignment)
    (info : gmap string info_value) (k : string) :
  is_Some (info !! k) -> is_Some ((run_block steps info).1 !! k).
Proof.
  revert info.
  induction steps as [|[key [[v|]|e]] rest IH]; intros info Hk; cbn;
    try assumption.
  - apply IH. now apply insert_is_Some.
  - now apply IH.
Qed.

Lemma rule_block_lookup_other (analysis : AFAnalysisObject)
    (info : gmap string info_value) (k : string) :
  k ∉ ["StartTrigger"; "TrueFor"; "TrueForEnding"; "EndTrigger"; "Severity"] ->
  rule_block analysis info !! k = info !! k.
Proof.
  intros Hk. unfold rule_block.
  destruct (an_has_rule analysis) as [[|]|]; try reflexivity.
  destruct (rule_debug analysis); try reflexivity.
  pose proof (run_block_lookup_other
                [("StartTrigger", rule_Expression analysis);
                 ("TrueFor", rule_TrueFor analysis);
                 ("TrueForEnding", rule_TrueForEnding analysis);
                 ("EndTrigger", rule_EndExpression analysis);
                 ("Severity", rule_Severity analysis)] info k Hk) as Hfirst.
  destruct (run_block _ info) as [info' finished]. cbn [fst] in Hfirst.
  destruct finished; [|exact Hfirst].
  destruct (rule_event_frame analysis) as [[config|]|]; try exact Hfirst.
  rewrite run_block_lookup_other; [exact Hfirst|].
  cbn. cbn in Hk. rewrite !not_elem_of_cons in Hk. rewrite !not_elem_of_cons.
  tauto.
Qed.

Lemma rule_block_is_Some (analysis : AFAnalysisObject)
    (info : gmap string info_value) (k : string) :
  is_Some (info !! k) -> is_Some (rule_block analysis info !! k).
Proof.
  intros Hk. unfold rule_block.
  destruct (an_has_rule analysis) as [[|]|]; try assumption.
  destruct (rule_debug analysis); try assumption.
  pose proof (run_block_is_Some
                [("StartTrigger", rule_Expression analysis);
                 ("TrueFor", rule_TrueFor analysis);
                 ("TrueForEnding", rule_TrueForEnding analysis);
                 ("EndTrigger", rule_EndExpression analysis);
                 ("Severity", rule_Severity analysis)] info k Hk) as Hfirst.
  destruct (run_block _ info) as [info' finished]. cbn [fst] in Hfirst.
  destruct finished; [|exact Hfirst].
  destruct (rule_event_frame analysis) as [[config|]|]; try exact Hfirst.
  now apply run_block_is_Some.
Qed.

Lemma template_name_block_lookup_other (analysis : AFAnalysisObject)
    (info : gmap string info_value) (k : string) :
  k ≠ "EventFrameTemplateName" ->
  template_name_block analysis info !! k = info !! k.
Proof.
  intros Hk. unfold template_name_block.
  destruct (an_rule_config analysis) as [[config_str|]|]; try reflexivity.
  destruct (event_frame_template_name config_str); [|reflexivity].
  apply lookup_insert_ne. congruence.
Qed.

Lemma template_name_block_is_Some (analysis : AFAnalysisObject)
    (info : gmap string info_value) (k : string) :
  is_Some (info !! k) -> is_Some (template_name_block analysis info !! k).
Proof.
  intros Hk. unfold template_name_block.
  destruct (an_rule_config analysis) as [[config_str|]|]; try assumption.
  destruct (event_frame_template_name config_str); [|assumption].
  now apply insert_is_Some.
Qed.

Lemma counts_block_lookup_other (analysis : AFAnalysisObject)
    (info : gmap string info_value) (k : string) :
  k ∉ ["InputCount"; "OutputCount"] ->
  counts_block analysis info !! k = info !! k.
Proof.
  intros Hk. unfold counts_block.
  destruct (an_has_rule analysis) as [[|]|]; try reflexivity.
  now apply run_block_lookup_other.
Qed.

Lemma counts_block_is_Some (analysis : AFAnalysisObject)
    (info : gmap string info_value) (k : string) :
  is_Some (info !! k) -> is_Some (counts_block analysis info !! k).
Proof.
  intros Hk. unfold counts_block.
  destruct (an_has_rule analysis) as [[|]|]; try assumption.
  now apply run_block_is_Some.
Qed.

Lemma severity_block_lookup_other (analysis : AFAnalysisObject)
    (info : gmap string info_value) (k : string) :
  k ≠ "Severity" -> severity_block analysis info !! k = info !! k.
Proof.
  intros Hk. unfold severity_block.
  destruct (info !! "Severity") as [[]|]; try reflexivity;
    apply run_block_lookup_other; cbn; rewrite !not_elem_of_cons;
    split; [congruence | apply not_elem_of_nil | congruence | apply not_elem_of_nil].
Qed.

Lemma severity_block_is_Some (analysis : AFAnalysisObject)
    (info : gmap string info_value) (k : string) :
  is_Some (info !! k) -> is_Some (severity_block analysis info !! k).
Proof.
  intros Hk. unfold severity_block.
  destruct (info !! "Severity") as [[]|]; try assumption;
    now apply run_block_is_Some.
Qed.

Lemma Ok_eq_inv {A : Type} (a b : A) : @Ok A a = Ok b -> a = b.
Proof. now intros [= ->]. Qed.

Lemma analysis_info_present (extraction_time : string)
    (analysis : AFAnalysisObject) (database_name : string)
    (info : gmap string info_value) (k : string) :
  extract_analysis_info_raw extraction_time analysis database_name = Ok info ->
  k ∈ analysis_keys -> is_Some (info !! k).
Proof.
  unfold extract_analysis_info_raw. intros H Hk.
  apply bind_Ok_inv in H as (name & _ & H).
  apply bind_Ok_inv in H as (id & _ & H).
  apply bind_Ok_inv in H as (description & _ & H).
  apply Ok_eq_inv in H. subst info.
  unfold analysis_keys in Hk.
  repeat (apply elem_of_cons in Hk as [Hk|Hk];
          [subst k;
           repeat match goal with
                  | |- is_Some (<[?k1 := _]> _ !! ?k2) =>
                      first [ constr_eq k1 k2; apply insert_is_Some_here
                            | apply insert_is_Some ]
                  | |- is_Some ((run_block _ _).1 !! _) => apply run_block_is_Some
                  | |- is_Some (rule_block _ _ !! _) => apply rule_block_is_Some
                  | |- is_Some (template_name_block _ _ !! _) =>
                      apply template_name_block_is_Some
                  | |- is_Some (counts_block _ _ !! _) => apply counts_block_is_Some
                  | |- is_Some (severity_block _ _ !! _) => apply severity_block_is_Some
                  end |]).
  now apply elem_of_nil in Hk.
Qed.

Lemma analysis_info_absent (extraction_time : string)
    (analysis : AFAnalysisObject) (database_name : string)
    (info : gmap string info_value) (k : string) :
  extract_analysis_info_raw extraction_time analysis database_name = Ok info ->
  k ∉ analysis_keys -> info !! k = None.
Proof.
  unfold extract_analysis_info_raw. intros H Hk.
  apply bind_Ok_inv in H as (name & _ & H).
  apply bind_Ok_inv in H as (id & _ & H).
  apply bind_Ok_inv in H as (description & _ & H).
  apply Ok_eq_inv in H. subst info.
  unfold analysis_keys in Hk.
  repeat (apply not_elem_of_cons in Hk as [? Hk]).
  repeat (etransitivity;
          [match goal with
           | |- <[_ := _]> _ !! _ = _ =>
               apply lookup_insert_ne, not_eq_sym; assumption
           | |- (run_block _ _).1 !! _ = _ =>
               apply run_block_lookup_other; cbn [map fst];
               repeat (apply not_elem_of_cons; split; [assumption|]);
               apply not_elem_of_nil
           | |- rule_block _ _ !! _ = _ =>
               apply rule_block_lookup_other;
               repeat (apply not_elem_of_cons; split; [assumption|]);
               apply not_elem_of_nil
           | |- template_name_block _ _ !! _ = _ =>
               apply template_name_block_lookup_other; assumption
           | |- counts_block _ _ !! _ = _ =>
               apply counts_block_lookup_other;
               repeat (apply not_elem_of_cons; split; [assumption|]);
               apply not_elem_of_nil
           | |- severity_block _ _ !! _ = _ =>
               apply severity_block_lookup_other; assumption
           end |]).
  apply lookup_empty.
Qed.

Lemma analysis_info_dom (extraction_time : string)
    (analysis : AFAnalysisObject) (database_name : string)
    (info : gmap string info_value) :
  extract_analysis_info_raw extraction_time analysis database_name = Ok info ->
  dom info = list_to_set analysis_keys.
Proof.
  intros H. apply set_eq. intros k.
  rewrite elem_of_dom, elem_of_list_to_set. split.
  - intros Hsome. destruct (decide (k ∈ analysis_keys)) as [Hin|Hnot]; [exact Hin|].
    rewrite (analysis_info_absent _ _ _ _ _ H Hnot) in Hsome.
    now destruct Hsome.
  - now apply analysis_info_present with extraction_time analysis database_name.
Qed.

(** X21: every dictionary [extract_analysis_info_raw] returns has the same 35
    keys, whatever the analysis object lets it read: each guarded block
    stores its defaults before it tries anything, and no block stores under
    a key of its own making (lines 203-459). *)
Theorem analysis_record_schema (extraction_time : string)
    (analysis : AFAnalysisObject) (database_name : string)
    (info : gmap string info_value) :
  extract_analysis_info_raw extraction_time analysis database_name = Ok info ->
  dom info = list_to_set analysis_keys /\ size info = 35%nat.
Proof.
  intros H. pose proof (analysis_info_dom _ _ _ _ H) as Hdom.
  split; [exact Hdom|].
  rewrite <- size_dom, Hdom. apply size_list_to_set.
  unfold analysis_keys.
  repeat (apply NoDup_cons; split;
          [apply (proj1 (bool_decide_eq_false _)); vm_compute; reflexivity|]).
  apply NoDup_nil_2.
Qed.

Lemma analysis_record_schema_witness :
  exists info,
    extract_analysis_info_raw "2024-03-01T00:00:00+00:00" sample_analysis "Plants"
      = Ok info /\
    dom info = list_to_set analysis_keys /\ size info = 35%nat.
Proof.
  eexists. split; [reflexivity|].
  apply (analysis_record_schema "2024-03-01T00:00:00+00:00" sample_analysis "Plants").
  reflexivity.
Defined.

(** X22: the only reads that can make [extract_analysis_info_raw] fail are the
    three unguarded ones at its head, [analysis.Name], [analysis.ID] and
    [analysis.Description] (lines 206-208): it raises the exception of the
    first of them that raises, and returns a dictionary whenever all three
    can be read, whatever every later read does. *)
Theorem analysis_info_fails_only_on_identification (extraction_time : string)
    (analysis : AFAnalysisObject) (database_name : string) :
  ((exists info,
      extract_analysis_info_raw extraction_time analysis database_name = Ok info)
   <-> (exists name id description,
          an_Name analysis = Ok name /\ an_ID analysis = Ok id /\
          an_Description analysis = Ok description)) /\
  (forall e,
     extract_analysis_info_raw extraction_time analysis database_name = Raise e
     <-> an_Name analysis = Raise e \/
         (exists name, an_Name analysis = Ok name /\
            (an_ID analysis = Raise e \/
             (exists id, an_ID analysis = Ok id /\
                an_Description analysis = Raise e)))).
Proof.
  unfold extract_analysis_info_raw.
  destruct (an_Name analysis) as [name|e1];
    [destruct (an_ID analysis) as [id|e2];
       [destruct (an_Description analysis) as [description|e3]|]|];
    cbn [mbind result_bind Py.bind]; (split; [split|intros e; split]).
  - intros _. now exists name, id, description.
  - intros _. eexists. reflexivity.
  - discriminate.
  - intros [Hn|(name' & _ & [Hi|(id' & _ & Hd)])]; discriminate.
  - intros [info Hinfo]. discriminate.
  - intros (name' & id' & description' & _ & _ & Hd). discriminate.
  - intros [= <-]. right. exists name. split; [reflexivity|]. right.
    exists id. now split.
  - intros [Hn|(name' & _ & [Hi|(id' & _ & Hd)])];
      [discriminate Hn | discriminate Hi | now injection Hd as ->].
  - intros [info Hinfo]. discriminate.
  - intros (name' & id' & description' & _ & Hi & _). discriminate.
  - intros [= <-]. right. exists name. split; [reflexivity|]. now left.
  - intros [Hn|(name' & _ & [Hi|(id' & Hi & _)])];
      [discriminate Hn | now injection Hi as -> | discriminate Hi].
  - intros [info Hinfo]. discriminate.
  - intros (name' & id' & description' & Hn & _ & _). discriminate.
  - intros [= <-]. now left.
  - intros [Hn|(name' & Hn & _)]; [now injection Hn as -> | discriminate Hn].
Qed.

Lemma analysis_info_fails_only_on_identification_witness :
  extract_analysis_info_raw "2024-03-01T00:00:00+00:00" unreadable_analysis "Plants"
    = Raise (SdkError "object was deleted") /\
  exists info,
    extract_analysis_info_raw "2024-03-01T00:00:00+00:00" sample_analysis "Plants"
      = Ok info.
Proof.
  split.
  - apply (proj2 (analysis_info_fails_only_on_identification
                    "2024-03-01T00:00:00+00:00" unreadable_analysis "Plants")).
    right. exists (Some "Broken"). split; [reflexivity|]. right.
    exists (Some "dead"). split; reflexivity.
  - apply (proj1 (analysis_info_fails_only_on_identification
                    "2024-03-01T00:00:00+00:00" sample_analysis "Plants")).
    exists (Some "Turbine trip"), (Some "a1b2"), None. repeat split; reflexivity.
Defined.

Lemma analysis_info_basic_fields (extraction_time : string)
    (analysis : AFAnalysisObject) (database_name : string)
    (info : gmap string info_value) :
  extract_analysis_info_raw extraction_time analysis database_name = Ok info ->
  let element_path :=
    match or_None (an_element_path analysis) with
    | IStr s => s
    | _ => ""
    end in
  info !! "DatabaseName" = Some (IStr database_name) /\
  info !! "ExtractedAt" = Some (IStr extraction_time) /\
  info !! "AnalysisRulePlugInName" = Some (or_None (an_plugin_name analysis)) /\
  info !! "AnalysisType" = Some (or_None (an_plugin_name analysis)) /\
  info !! "ElementPath" = Some (or_None (an_element_path analysis)) /\
  info !! "PlantName" = Some (of_str (extract_plant_name element_path)) /\
  info !! "PlantCategory" =
    Some (match determine_plant_category element_path with
          | Some c => IInt c
          | None => INone
          end).
Proof.
  unfold extract_analysis_info_raw. intros H.
  apply bind_Ok_inv in H as (name & _ & H).
  apply bind_Ok_inv in H as (id & _ & H).
  apply bind_Ok_inv in H as (description & _ & H).
  apply Ok_eq_inv in H. subst info. cbv zeta.
  repeat split;
    repeat match goal with
           | |- <[?k1 := _]> _ !! ?k2 = _ =>
               first [ constr_eq k1 k2; etransitivity; [apply lookup_insert_eq|]
                     | etransitivity; [apply lookup_insert_ne; discriminate|] ]
           | |- (run_block _ _).1 !! _ = _ =>
               etransitivity;
               [apply run_block_lookup_other; cbn [map fst];
                repeat (apply not_elem_of_cons; split; [discriminate|]);
                apply not_elem_of_nil|]
           | |- rule_block _ _ !! _ = _ =>
               etransitivity;
               [apply rule_block_lookup_other;
                repeat (apply not_elem_of_cons; split; [discriminate|]);
                apply not_elem_of_nil|]
           | |- template_name_block _ _ !! _ = _ =>
               etransitivity;
               [apply template_name_block_lookup_other; discriminate|]
           | |- counts_block _ _ !! _ = _ =>
               etransitivity;
               [apply counts_block_lookup_other;
                repeat (apply not_elem_of_cons; split; [discriminate|]);
                apply not_elem_of_nil|]
           | |- severity_block _ _ !! _ = _ =>
               etransitivity;
               [apply severity_block_lookup_other; discriminate|]
           end;
    try reflexivity.
  all: match goal with
       | |- context [ ?m !! ?k ] =>
           match m with
           | <[k := ?v]> ?m' =>
               replace (m !! k) with (Some v) by (symmetry; apply lookup_insert_eq)
           end
       end; reflexivity.
Qed.

(** X23: the fields of an analysis dictionary that are computed rather than read:
    "DatabaseName" and "ExtractedAt" are the arguments of the call,
    "AnalysisType" always equals "AnalysisRulePlugInName", and "PlantName"
    and "PlantCategory" are [extract_plant_name] and
    [determine_plant_category] of the "ElementPath" stored in the same
    dictionary; with no element path both are [None] (lines 209-238,
    457). *)
Theorem analysis_derived_fields (extraction_time : string)
    (analysis : AFAnalysisObject) (database_name : string)
    (info : gmap string info_value) :
  extract_analysis_info_raw extraction_time analysis database_name = Ok info ->
  info !! "DatabaseName" = Some (IStr database_name) /\
  info !! "ExtractedAt" = Some (IStr extraction_time) /\
  info !! "AnalysisType" = info !! "AnalysisRulePlugInName" /\
  (forall path, info !! "ElementPath" = Some (IStr path) ->
     info !! "PlantName" = Some (of_str (extract_plant_name path)) /\
     info !! "PlantCategory" =
       Some (match determine_plant_category path with
             | Some c => IInt c
             | None => INone
             end)) /\
  (info !! "ElementPath" = Some INone ->
     info !! "PlantName" = Some INone /\ info !! "PlantCategory" = Some INone).
Proof.
  intros H.
  destruct (analysis_info_basic_fields _ _ _ _ H)
    as (Hdb & Hat & Hplugin & Htype & Hpath & Hname & Hcat).
  cbv zeta in Hname, Hcat.
  split; [exact Hdb|]. split; [exact Hat|].
  split; [now rewrite Htype, Hplugin|].
  split.
  - intros path Hp. rewrite Hpath in Hp. injection Hp as Hp.
    rewrite Hp in Hname, Hcat. now split.
  - intros Hp. rewrite Hpath in Hp. injection Hp as Hp.
    rewrite Hp in Hname, Hcat. now split.
Qed.

Lemma analysis_derived_fields_witness :
  exists info,
    extract_analysis_info_raw "2024-03-01T00:00:00+00:00" sample_analysis "Plants"
      = Ok info /\
    info !! "ElementPath" = Some (IStr "\\GENCOPI\Plants\Hydro\Karakaya\Unit 1") /\
    info !! "PlantName" = Some (IStr "Karakaya") /\
    info !! "PlantCategory" = Some (IInt 1) /\
    info !! "DatabaseName" = Some (IStr "Plants").
Proof.
  eexists. split; [reflexivity|].
  destruct (analysis_derived_fields "2024-03-01T00:00:00+00:00" sample_analysis
              "Plants" _ eq_refl) as (Hdb & _ & _ & Hpath & _).
  split; [vm_compute; reflexivity|].
  destruct (Hpath "\\GENCOPI\Plants\Hydro\Karakaya\Unit 1") as [Hname Hcat];
    [vm_compute; reflexivity|].
  split; [exact Hname|]. split; [exact Hcat | exact Hdb].
Defined.

(** X24: run over a whole server with [extract_analysis_info_raw] as the
    extractor, [extract_analyses_from_all_databases] returns only
    dictionaries of the common 35-key shape, all stamped with the one
    extraction time of the run, and each carrying the name of one of the
    server's databases (lines 87-126, 203-459). *)
Theorem analyses_share_schema (extraction_time : string)
    (systems : string -> option (PISystem AFAnalysisObject))
    (af_server : string) (all_analyses : list (gmap string info_value)) :
  (extract_analyses_from_all_databases
     (extract_analysis_info_raw extraction_time) systems af_server).1
    = Ok all_analyses ->
  exists pi_system databases,
    systems af_server = Some pi_system /\
    Databases pi_system = Ok databases /\
    Forall (fun info =>
              dom info = list_to_set analysis_keys /\
              info !! "ExtractedAt" = Some (IStr extraction_time) /\
              exists db db_name,
                db ∈ databases /\ db_Name db = Ok db_name /\
                info !! "DatabaseName" = Some (IStr db_name))
           all_analyses.
Proof.
  unfold extract_analyses_from_all_databases.
  destruct (systems af_server) as [pi_system|]; [|discriminate].
  unfold analyses_body.
  destruct (Connect pi_system);
    [|destruct (Disconnect pi_system); discriminate].
  destruct (Databases pi_system) as [databases|] eqn:Hdbs;
    [|destruct (Disconnect pi_system); discriminate].
  intros H. exists pi_system, databases.
  split; [reflexivity|]. split; [exact Hdbs|].
  assert (Hall : all_analyses =
                 flat_map (database_records (extract_analysis_info_raw extraction_time))
                          databases).
  { destruct (for_databases (extract_analysis_info_raw extraction_time)
                databases ([], [])) as [outcome out] eqn:Hloop.
    assert (Hout : outcome = Ok all_analyses)
      by (destruct (Disconnect pi_system); exact H).
    subst outcome.
    apply (for_databases_Ok (extract_analysis_info_raw extraction_time)
             databases ([], []) all_analyses).
    now rewrite Hloop. }
  subst all_analyses. apply Forall_forall. intros info Hin.
  apply list_elem_of_In, in_flat_map in Hin as (db & Hdb & Hin).
  unfold database_records in Hin.
  destruct (db_Name db) as [db_name|] eqn:Hdbname; [|now cbn in Hin].
  destruct (db_Analyses db) as [analyses|]; [|now cbn in Hin].
  apply list_elem_of_In, list_elem_of_omap in Hin as (analysis & _ & Hrec).
  unfold analysis_record in Hrec.
  destruct (extract_analysis_info_raw extraction_time analysis db_name)
    as [info'|] eqn:Hinfo; [|discriminate].
  injection Hrec as ->.
  destruct (analysis_info_basic_fields _ _ _ _ Hinfo) as (Hname & Hat & _).
  split; [now apply analysis_info_dom with extraction_time analysis db_name|].
  split; [exact Hat|].
  exists db, db_name. split; [now apply list_elem_of_In|]. now split.
Qed.

Lemma analyses_share_schema_witness :
  exists all_analyses,
    (extract_analyses_from_all_databases
       (extract_analysis_info_raw "2024-03-01T00:00:00+00:00")
       analyses_systems "GENCOPI").1 = Ok all_analyses /\
    length all_analyses = 1%nat /\
    Forall (fun info => dom info = list_to_set analysis_keys) all_analyses.
Proof.
  eexists. split; [reflexivity|]. split; [reflexivity|].
  destruct (analyses_share_schema "2024-03-01T00:00:00+00:00" analyses_systems
              "GENCOPI" _ eq_refl)
    as (pi_system & databases & _ & _ & Hall).
  eapply Forall_impl; [exact Hall|]. now intros info (Hdom & _).
Defined.

(** ** The two analysis extractors *)

Lemma agree_outside_refl (D : list string) (m : gmap string info_value) :
  agree_outside D m m.
Proof. now intros k _. Qed.

Lemma agree_outside_insert (D : list string) (key : string) (v1 v2 : info_value)
    (m1 m2 : gmap string info_value) :
  v1 = v2 -> agree_outside D m1 m2 ->
  agree_outside D (<[key := v1]> m1) (<[key := v2]> m2).
Proof.
  intros <- H k Hk. destruct (decide (key = k)) as [Heq|Hne].
  - subst k. now rewrite !lookup_insert_eq.
  - rewrite !lookup_insert_ne by exact Hne. now apply H.
Qed.

Lemma agree_outside_insert_l (D : list string) (key : string) (v : info_value)
    (m1 m2 : gmap string info_value) :
  key ∈ D -> agree_outside D m1 m2 -> agree_outside D (<[key := v]> m1) m2.
Proof.
  intros Hkey H k Hk. rewrite lookup_insert_ne; [now apply H|].
  intros <-. contradiction.
Qed.

Lemma run_block_agree (D : list string) (steps : list guarded_assignment)
    (m1 m2 : gmap string info_value) :
  agree_outside D m1 m2 ->
  agree_outside D (run_block steps m1).1 (run_block steps m2).1 /\
  (run_block steps m1).2 = (run_block steps m2).2.
Proof.
  revert m1 m2.
  induction steps as [|[key [[v|]|e]] rest IH]; intros m1 m2 H; cbn.
  - now split.
  - apply IH. now apply agree_outside_insert.
  - now apply IH.
  - now split.
Qed.

Lemma agree_outside_run_block (D : list string) (steps : list guarded_assignment)
    (m1 m2 : gmap string info_value) :
  agree_outside D m1 m2 ->
  agree_outside D (run_block steps m1).1 (run_block steps m2).1.
Proof. intros H. now apply run_block_agree. Qed.

Lemma agree_outside_rule_block (D : list string) (analysis : AFAnalysisObject)
    (m1 m2 : gmap string info_value) :
  agree_outside D m1 m2 ->
  agree_outside D (rule_block analysis m1) (rule_block analysis m2).
Proof.
  intros H. unfold rule_block.
  destruct (an_has_rule analysis) as [[|]|]; try exact H.
  destruct (rule_debug analysis); try exact H.
  destruct (run_block_agree D
              [("StartTrigger", rule_Expression analysis);
               ("TrueFor", rule_TrueFor analysis);
               ("TrueForEnding", rule_TrueForEnding analysis);
               ("EndTrigger", rule_EndExpression analysis);
               ("Severity", rule_Severity analysis)] m1 m2 H) as [Hfirst Hflag].
  destruct (run_block _ m1) as [m1' f1], (run_block _ m2) as [m2' f2].
  cbn [fst snd] in Hfirst, Hflag. subst f2.
  destruct f1; [|exact Hfirst].
  destruct (rule_event_frame analysis) as [[config|]|]; try exact Hfirst.
  now apply agree_outside_run_block.
Qed.

Lemma agree_outside_template_name_block (D : list string)
    (analysis : AFAnalysisObject) (m1 m2 : gmap string info_value) :
  agree_outside D m1 m2 ->
  agree_outside D (template_name_block analysis m1)
                  (template_name_block analysis m2).
Proof.
  intros H. unfold template_name_block.
  destruct (an_rule_config analysis) as [[config_str|]|]; try exact H.
  destruct (event_frame_template_name config_str); [|exact H].
  now apply agree_outside_insert.
Qed.

Lemma agree_outside_counts_block (D : list string)
    (analysis : AFAnalysisObject) (m1 m2 : gmap string info_value) :
  agree_outside D m1 m2 ->
  agree_outside D (counts_block analysis m1) (counts_block analysis m2).
Proof.
  intros H. unfold counts_block.
  destruct (an_has_rule analysis) as [[|]|]; try exact H.
  now apply agree_outside_run_block.
Qed.

Lemma agree_outside_severity_block (D : list string)
    (analysis : AFAnalysisObject) (m1 m2 : gmap string info_value) :
  "Severity" ∉ D -> agree_outside D m1 m2 ->
  agree_outside D (severity_block analysis m1) (severity_block analysis m2).
Proof.
  intros HD H. unfold severity_block. rewrite (H "Severity" HD).
  destruct (m2 !! "Severity") as [[]|]; try exact H;
    now apply agree_outside_run_block.
Qed.

Lemma rollup_block_lookup_other (analysis : AFAnalysisObject)
    (info : gmap string info_value) (k : string) :
  k ∉ ["RollupType"; "RollupSource"] ->
  rollup_block analysis info !! k = info !! k.
Proof.
  intros Hk. unfold rollup_block.
  destruct (an_has_rule analysis) as [[|]|]; try reflexivity.
  now apply run_block_lookup_other.
Qed.

Lemma rollup_block_is_Some (analysis : AFAnalysisObject)
    (info : gmap string info_value) (k : string) :
  is_Some (info !! k) -> is_Some (rollup_block analysis info !! k).
Proof.
  intros Hk. unfold rollup_block.
  destruct (an_has_rule analysis) as [[|]|]; try assumption.
  now apply run_block_is_Some.
Qed.

Lemma agree_outside_rollup_r (D : list string) (analysis : AFAnalysisObject)
    (m1 m2 : gmap string info_value) :
  "RollupType" ∈ D -> "RollupSource" ∈ D ->
  agree_outside D m1 m2 -> agree_outside D m1 (rollup_block analysis m2).
Proof.
  intros Ht Hs H k Hk. rewrite rollup_block_lookup_other; [now apply H|].
  rewrite !not_elem_of_cons. repeat split; try (intros ->; contradiction).
  apply not_elem_of_nil.
Qed.

Lemma analysis_info_agree (extraction_time : string)
    (analysis : AFAnalysisObject) (database_name : string)
    (info_raw info : gmap string info_value) :
  extract_analysis_info_raw extraction_time analysis database_name = Ok info_raw ->
  extract_analysis_info extraction_time analysis = Ok info ->
  agree_outside ["DatabaseName"; "RollupType"; "RollupSource"] info_raw info.
Proof.
  unfold extract_analysis_info_raw, extract_analysis_info. intros Hraw H.
  apply bind_Ok_inv in Hraw as (name & Hname & Hraw).
  apply bind_Ok_inv in Hraw as (id & Hid & Hraw).
  apply bind_Ok_inv in Hraw as (description & Hdescription & Hraw).
  rewrite Hname, Hid, Hdescription in H. cbn [mbind result_bind Py.bind] in H.
  apply Ok_eq_inv in Hraw. apply Ok_eq_inv in H. subst info_raw info.
  repeat match goal with
         | |- agree_outside _ _ (rollup_block _ _) =>
             apply agree_outside_rollup_r;
             [apply list_elem_of_In; cbn; tauto
             |apply list_elem_of_In; cbn; tauto|]
         | |- agree_outside _ (<[?k1 := ?v1]> _) (<[?k2 := ?v2]> _) =>
             constr_eq k1 k2; apply agree_outside_insert;
             [repeat match goal with
                     | |- context [ (<[?k := ?v]> ?m) !! ?k' ] =>
                         constr_eq k k';
                         replace ((<[k := v]> m) !! k') with (Some v)
                           by (symmetry; apply lookup_insert_eq)
                     end; reflexivity|]
         | |- agree_outside _ (<["DatabaseName" := _]> _) _ =>
             apply agree_outside_insert_l; [apply list_elem_of_In; cbn; tauto|]
         | |- agree_outside _ (run_block ?s _).1 (run_block ?s _).1 =>
             apply agree_outside_run_block
         | |- agree_outside _ (rule_block _ _) (rule_block _ _) =>
             apply agree_outside_rule_block
         | |- agree_outside _ (template_name_block _ _) (template_name_block _ _) =>
             apply agree_outside_template_name_block
         | |- agree_outside _ (counts_block _ _) (counts_block _ _) =>
             apply agree_outside_counts_block
         | |- agree_outside _ (severity_block _ _) (severity_block _ _) =>
             apply agree_outside_severity_block;
             [rewrite !not_elem_of_cons; repeat split; try discriminate;
              apply not_elem_of_nil|]
         end.
  apply agree_outside_refl.
Qed.

Lemma analysis_info_own_keys (extraction_time : string)
    (analysis : AFAnalysisObject) (info : gmap string info_value) :
  extract_analysis_info extraction_time analysis = Ok info ->
  info !! "DatabaseName" = None /\
  is_Some (info !! "RollupType") /\ is_Some (info !! "RollupSource").
Proof.
  unfold extract_analysis_info. intros H.
  apply bind_Ok_inv in H as (name & _ & H).
  apply bind_Ok_inv in H as (id & _ & H).
  apply bind_Ok_inv in H as (description & _ & H).
  apply Ok_eq_inv in H. subst info. split; [|split].
  - repeat (etransitivity;
            [match goal with
             | |- <[_ := _]> _ !! _ = _ =>
                 apply lookup_insert_ne; discriminate
             | |- (run_block _ _).1 !! _ = _ =>
                 apply run_block_lookup_other; cbn [map fst];
                 repeat (apply not_elem_of_cons; split; [discriminate|]);
                 apply not_elem_of_nil
             | |- rule_block _ _ !! _ = _ =>
                 apply rule_block_lookup_other;
                 repeat (apply not_elem_of_cons; split; [discriminate|]);
                 apply not_elem_of_nil
             | |- rollup_block _ _ !! _ = _ =>
                 apply rollup_block_lookup_other;
                 repeat (apply not_elem_of_cons; split; [discriminate|]);
                 apply not_elem_of_nil
             | |- template_name_block _ _ !! _ = _ =>
                 apply template_name_block_lookup_other; discriminate
             | |- counts_block _ _ !! _ = _ =>
                 apply counts_block_lookup_other;
                 repeat (apply not_elem_of_cons; split; [discriminate|]);
                 apply not_elem_of_nil
             | |- severity_block _ _ !! _ = _ =>
                 apply severity_block_lookup_other; discriminate
             end |]).
    apply lookup_empty.
  - repeat match goal with
           | |- is_Some (<[?k1 := _]> _ !! ?k2) =>
               first [ constr_eq k1 k2; apply insert_is_Some_here
                     | apply insert_is_Some ]
           | |- is_Some ((run_block _ _).1 !! _) => apply run_block_is_Some
           | |- is_Some (rollup_block _ _ !! _) => apply rollup_block_is_Some
           | |- is_Some (severity_block _ _ !! _) => apply severity_block_is_Some
           end.
  - repeat match goal with
           | |- is_Some (<[?k1 := _]> _ !! ?k2) =>
               first [ constr_eq k1 k2; apply insert_is_Some_here
                     | apply insert_is_Some ]
           | |- is_Some ((run_block _ _).1 !! _) => apply run_block_is_Some
           | |- is_Some (rollup_block _ _ !! _) => apply rollup_block_is_Some
           | |- is_Some (severity_block _ _ !! _) => apply severity_block_is_Some
           end.
Qed.

Lemma analysis_info_raw_rollup (extraction_time : string)
    (analysis : AFAnalysisObject) (database_name : string)
    (info : gmap string info_value) :
  extract_analysis_info_raw extraction_time analysis database_name = Ok info ->
  info !! "RollupType" = Some INone /\ info !! "RollupSource" = Some INone.
Proof.
  unfold extract_analysis_info_raw. intros H.
  apply bind_Ok_inv in H as (name & _ & H).
  apply bind_Ok_inv in H as (id & _ & H).
  apply bind_Ok_inv in H as (description & _ & H).
  apply Ok_eq_inv in H. subst info.
  split;
    repeat match goal with
           | |- <[?k1 := _]> _ !! ?k2 = _ =>
               first [ constr_eq k1 k2; apply lookup_insert_eq
                     | etransitivity; [apply lookup_insert_ne; discriminate|] ]
           | |- (run_block _ _).1 !! _ = _ =>
               etransitivity;
               [apply run_block_lookup_other; cbn [map fst];
                repeat (apply not_elem_of_cons; split; [discriminate|]);
                apply not_elem_of_nil|]
           | |- severity_block _ _ !! _ = _ =>
               etransitivity;
               [apply severity_block_lookup_other; discriminate|]
           end.
Qed.

(** X25: [extract_analysis_info], used for a single database and for the
    search through the elements, and [extract_analysis_info_raw], used for
    all databases, fail on the same reads and fill their dictionaries
    alike, with two differences: only the raw variant has a "DatabaseName"
    entry, and only the other one reads the rollup type and source of the
    rule, which the raw variant always leaves [None] (lines 190-459,
    462-738). *)
Theorem analysis_info_variants (extraction_time : string)
    (analysis : AFAnalysisObject) (database_name : string) :
  Py.returns (extract_analysis_info extraction_time analysis)
    = Py.returns (extract_analysis_info_raw extraction_time analysis database_name) /\
  forall info info_raw,
    extract_analysis_info extraction_time analysis = Ok info ->
    extract_analysis_info_raw extraction_time analysis database_name = Ok info_raw ->
    info !! "DatabaseName" = None /\
    info_raw !! "DatabaseName" = Some (IStr database_name) /\
    dom info = dom info_raw ∖ {["DatabaseName"]} /\
    info_raw !! "RollupType" = Some INone /\
    info_raw !! "RollupSource" = Some INone /\
    (forall k, k ∉ ["DatabaseName"; "RollupType"; "RollupSource"] ->
       info !! k = info_raw !! k).
Proof.
  split.
  { unfold extract_analysis_info, extract_analysis_info_raw.
    destruct (an_Name analysis); [|reflexivity].
    destruct (an_ID analysis); [|reflexivity].
    destruct (an_Description analysis); reflexivity. }
  intros info info_raw Hinfo Hraw.
  destruct (analysis_info_own_keys _ _ _ Hinfo) as (Hdb & Htype & Hsource).
  destruct (analysis_info_raw_rollup _ _ _ _ Hraw) as (Hrtype & Hrsource).
  destruct (analysis_info_basic_fields _ _ _ _ Hraw) as (Hrdb & _).
  pose proof (analysis_info_agree _ _ _ _ _ Hraw Hinfo) as Hagree.
  split; [exact Hdb|]. split; [exact Hrdb|].
  split; [|split; [exact Hrtype|split; [exact Hrsource|]]].
  - apply set_eq. intros k.
    rewrite elem_of_difference, !elem_of_dom, elem_of_singleton.
    destruct (decide (k = "DatabaseName")) as [->|Hk1].
    { rewrite Hdb. split; [intros [? ?]; discriminate | intros [_ ?]; contradiction]. }
    destruct (decide (k = "RollupType")) as [->|Hk2].
    { rewrite Hrtype. split; [intros _; split; [eauto|discriminate] | now intros _]. }
    destruct (decide (k = "RollupSource")) as [->|Hk3].
    { rewrite Hrsource. split; [intros _; split; [eauto|discriminate] | now intros _]. }
    rewrite (Hagree k).
    + split; [intros ?; now split | now intros [? _]].
    + rewrite !not_elem_of_cons. repeat split; try assumption.
      apply not_elem_of_nil.
  - intros k Hk. symmetry. now apply Hagree.
Qed.

Lemma analysis_info_variants_witness :
  exists info info_raw,
    extract_analysis_info "2024-03-01T00:00:00+00:00" sample_analysis = Ok info /\
    extract_analysis_info_raw "2024-03-01T00:00:00+00:00" sample_analysis "Plants"
      = Ok info_raw /\
    info !! "RollupType" = Some (IStr "Sum") /\
    info_raw !! "RollupType" = Some INone /\
    info !! "Severity" = info_raw !! "Severity".
Proof.
  destruct (analysis_info_variants "2024-03-01T00:00:00+00:00" sample_analysis
              "Plants") as [_ H].
  eexists. eexists. split; [reflexivity|]. split; [reflexivity|].
  edestruct H as (_ & _ & _ & Hraw & _ & Hsame); [reflexivity|reflexivity|].
  split; [vm_compute; reflexivity|]. split; [exact Hraw|].
  apply Hsame. rewrite !not_elem_of_cons. repeat split; try discriminate.
  apply not_elem_of_nil.
Defined.
